(** * bitcamp-dashboard: the MQTT subscriber and SQLite writer (subscriber.py)

    A shallow embedding of [subscriber.py] and a verification of its
    ingestion pipeline: topic parsing, payload validation, persistence and
    the two reporting queries.

    Modelling conventions.
    - Python [str] values are Rocq strings holding the UTF-8 encoding, so
      that [str.split('/')], equality and SQLite's BINARY collation
      (bytewise comparison) are the operations on bytes.  A surrogate
      code point, which [json.loads] makes of an escape such as [\ud800],
      is written with the three bytes ED A0..BF 80..BF that the encoding
      scheme would give it; UTF-8 has no such bytes, and a [str] that
      holds them is one that cannot be encoded ([Py.encodable]).
    - Python [float] and SQLite REAL are IEEE 754 doubles.  A finite double
      is written as the rational number it is, next to the two infinities
      and (in Python only) nan; an operation that makes a new float (the
      conversion of an integer, the sum and the quotient of [AVG]) rounds
      its exact result to the nearest double, as the Standard Library's
      [SpecFloat] specifies it.
    - Exceptions are explicit: a computation returns a value or raises, and
      the [try]/[except] blocks of the source are written out.
    - The database file is a value of the state; the storage medium itself
      never fails (no I/O error, no lock, no full disk), and execution is
      sequential. *)

From Stdlib Require Import String Ascii List ZArith QArith Bool Lia.
From Stdlib Require Import Sorted Permutation SpecFloat.
Import ListNotations.

Set Implicit Arguments.
Set Warnings "-register-all".

(* ===================================================================== *)
(** * Python values, exceptions and [str.split] *)
(* ===================================================================== *)

Module Py.

Local Open Scope string_scope.

(** Errors of the [sqlite3] module; all derive from [sqlite3.Error]. *)
Inductive sqlite_error : Type :=
| IntegrityError     (* a constraint failed, here NOT NULL *)
| ProgrammingError   (* a parameter of unsupported type *)
| OperationalError.  (* no such table; no rowid left *)

(** The classes below [Exception] that the program can meet. *)
Inductive exception : Type :=
| JSONDecodeError
| UnicodeDecodeError
| UnicodeEncodeError
| RecursionError
| AttributeError
| ValueError
| TypeError
| OverflowError
| OSError            (* with ConnectionRefusedError and the like *)
| SqliteError (e : sqlite_error).

(** [BaseException]: [except Exception] does not catch the last two. *)
Inductive base_exception : Type :=
| Exception (e : exception)
| KeyboardInterrupt
| SystemExit.

Definition is_Exception (e : base_exception) : bool :=
  match e with Exception _ => true | _ => false end.

Definition is_JSONDecodeError (e : base_exception) : bool :=
  match e with Exception JSONDecodeError => true | _ => false end.

Definition is_sqlite3_Error (e : base_exception) : bool :=
  match e with Exception (SqliteError _) => true | _ => false end.

(** A float without nan: what SQLite can hold in a REAL cell. *)
Inductive real : Type :=
| Finite (q : Q)
| Infinity (negative : bool).

Inductive float : Type :=
| Num (r : real)
| NaN.

(** ** Doubles *)

(** The parameters of binary64: 53 bits of mantissa, exponents below
    1024. *)
Definition prec : Z := 53.
Definition emax : Z := 1024.

(** The float a binary floating-point number is: [m * 2 ^ e] with its
    sign, in lowest terms. *)
Definition float_of_spec (x : spec_float) : float :=
  match x with
  | S754_zero _ => Num (Finite 0)
  | S754_infinity negative => Num (Infinity negative)
  | S754_nan => NaN
  | S754_finite negative m e =>
      let n := if negative then Zneg m else Zpos m in
      Num (Finite (Qred match e with
                        | Zneg k => n # (2 ^ k)%positive
                        | _ => inject_Z (n * 2 ^ e)%Z
                        end))
  end.

Definition spec_of_Z (n : Z) : spec_float :=
  match n with
  | Z0 => S754_zero false
  | Zpos m => S754_finite false m 0
  | Zneg m => S754_finite true m 0
  end.

(** The double a rational rounds to: the nearest one, the one with an even
    mantissa when two are as near, an infinity beyond the largest double.
    It is the quotient of the numerator by the denominator as [SpecFloat]
    rounds it. *)
Definition double (q : Q) : float :=
  float_of_spec
    (SFdiv prec emax (spec_of_Z (Qnum q)) (S754_finite false (Qden q) 0)).

(** The same as a [real]: the rounding of a rational is never nan
    ([Doubles.double_nearest] below). *)
Definition nearest (q : Q) : real :=
  match double q with
  | Num r => r
  | NaN => Finite q
  end.

(** ** Strings *)

(** Whether a [str] encodes as UTF-8, that is, holds no surrogate: no byte
    ED followed by a byte from A0 to BF. *)
Fixpoint encodable (s : string) : bool :=
  match s with
  | EmptyString => true
  | String c rest =>
      match rest with
      | String d _ =>
          if (N_of_ascii c =? 237)%N
             && (160 <=? N_of_ascii d)%N && (N_of_ascii d <=? 191)%N
          then false
          else encodable rest
      | EmptyString => true
      end
  end.

(** The values [json.loads] produces.  A [dict] is the list of its items,
    looked up from the front. *)
Inductive pyval : Type :=
| PyNone
| PyBool (b : bool)
| PyInt (n : Z)
| PyFloat (x : float)
| PyStr (s : string)
| PyList (l : list pyval)
| PyDict (items : list (string * pyval)).

Fixpoint lookup (key : string) (items : list (string * pyval)) : option pyval :=
  match items with
  | [] => None
  | (k, v) :: rest => if String.eqb k key then Some v else lookup key rest
  end.

(** [obj.get(key, default)]: only a [dict] has the attribute [get]. *)
Definition get (obj : pyval) (key : string) (default : pyval)
  : exception + pyval :=
  match obj with
  | PyDict items =>
      inr (match lookup key items with Some v => v | None => default end)
  | _ => inl AttributeError
  end.

(** [s.split(sep)] for a one-character separator: one more piece than there
    are separators, empty pieces included. *)
Fixpoint split (sep : ascii) (s : string) : list string :=
  match s with
  | EmptyString => [EmptyString]
  | String c rest =>
      if Ascii.eqb c sep then EmptyString :: split sep rest
      else match split sep rest with
           | piece :: pieces => String c piece :: pieces
           | [] => [String c EmptyString]
           end
  end.

End Py.

(* ===================================================================== *)
(** * The SQLite engine: cells, binding, affinity, the table, the
      relational operators of the two queries *)
(* ===================================================================== *)

Module Sqlite.

Import Py.
Local Open Scope Z_scope.

(** A stored value that is not NULL.  The program never binds [bytes], so
    there is no BLOB. *)
Inductive cell : Type :=
| CInt (n : Z)
| CReal (r : real)
| CText (s : string).

(** A value that may be NULL. *)
Definition sqlval : Type := option cell.

Definition int64_min : Z := - 2 ^ 63.
Definition int64_max : Z := 2 ^ 63 - 1.

(** How the [sqlite3] module binds a Python parameter: [None] and nan are
    NULL, [bool] is an [int], an [int] outside 64 bits raises
    [OverflowError] and a [str] that cannot be encoded raises
    [UnicodeEncodeError] (neither is an [sqlite3.Error]), a [list] or
    [dict] is refused. *)
Definition bind_param (v : pyval) : exception + sqlval :=
  match v with
  | PyNone => inr None
  | PyBool b => inr (Some (CInt (if b then 1 else 0)))
  | PyInt n =>
      if (int64_min <=? n) && (n <=? int64_max)
      then inr (Some (CInt n)) else inl OverflowError
  | PyFloat NaN => inr None
  | PyFloat (Num r) => inr (Some (CReal r))
  | PyStr s => if encodable s then inr (Some (CText s))
               else inl UnicodeEncodeError
  | PyList _ | PyDict _ => inl (SqliteError ProgrammingError)
  end.

(** ** Comparison: numbers before text, numbers by value, text bytewise *)

Definition real_compare (a b : real) : comparison :=
  match a, b with
  | Finite p, Finite q => Qcompare p q
  | Finite _, Infinity negative => if negative then Gt else Lt
  | Infinity negative, Finite _ => if negative then Lt else Gt
  | Infinity true, Infinity true => Eq
  | Infinity true, Infinity false => Lt
  | Infinity false, Infinity true => Gt
  | Infinity false, Infinity false => Eq
  end.

Definition cell_compare (a b : cell) : comparison :=
  match a, b with
  | CText s, CText t => String.compare s t
  | CText _, _ => Gt
  | _, CText _ => Lt
  | CInt m, CInt n => Z.compare m n
  | CInt m, CReal r => real_compare (Finite (inject_Z m)) r
  | CReal r, CInt n => real_compare r (Finite (inject_Z n))
  | CReal r, CReal s => real_compare r s
  end.

(** [a <= b], [a = b] and [a > b] of SQL on cells. *)
Definition cell_leb (a b : cell) : bool :=
  match cell_compare a b with Gt => false | _ => true end.

Definition cell_eqb (a b : cell) : bool :=
  match cell_compare a b with Eq => true | _ => false end.

Definition string_leb (s t : string) : bool :=
  match String.compare s t with Gt => false | _ => true end.

(** ** The table [sensor_readings] *)

(** One row.  [sensor_name], [sensor_type] and [unit] are TEXT NOT NULL:
    with TEXT affinity and no BLOB every such cell is a text.  [value]
    (REAL) and [timestamp] (DATETIME, that is NUMERIC affinity) are NOT
    NULL cells; [received_at] may be NULL. *)
Record row : Type := mkRow {
  id : Z;
  sensor_name : string;
  sensor_type : string;
  value : cell;
  unit : string;
  timestamp : cell;
  received_at : sqlval
}.

(** The table and the counter that AUTOINCREMENT keeps in
    [sqlite_sequence]. *)
Record table : Type := mkTable {
  rows : list row;
  seq : Z
}.

(** The database file [sensor_data.db]: the table, when it exists, and
    whether each of the two indexes exists. *)
Record database : Type := mkDatabase {
  sensor_readings : option table;
  idx_timestamp : bool;
  idx_sensor_name : bool
}.

(** A file that [sqlite3.connect] has just created. *)
Definition empty_database : database :=
  {| sensor_readings := None;
     idx_timestamp := false;
     idx_sensor_name := false |}.

(** [CREATE TABLE IF NOT EXISTS sensor_readings (...)] *)
Definition create_table_if_not_exists (db : database) : database :=
  match sensor_readings db with
  | Some _ => db
  | None =>
      {| sensor_readings := Some {| rows := []; seq := 0 |};
         idx_timestamp := idx_timestamp db;
         idx_sensor_name := idx_sensor_name db |}
  end.

(** [CREATE INDEX IF NOT EXISTS idx_timestamp ON sensor_readings(timestamp)];
    without the table the statement fails. *)
Definition create_idx_timestamp (db : database) : sqlite_error + database :=
  if idx_timestamp db then inr db
  else match sensor_readings db with
       | None => inl OperationalError
       | Some _ =>
           inr {| sensor_readings := sensor_readings db;
                  idx_timestamp := true;
                  idx_sensor_name := idx_sensor_name db |}
       end.

(** [CREATE INDEX IF NOT EXISTS idx_sensor_name
     ON sensor_readings(sensor_name)] *)
Definition create_idx_sensor_name (db : database) : sqlite_error + database :=
  if idx_sensor_name db then inr db
  else match sensor_readings db with
       | None => inl OperationalError
       | Some _ =>
           inr {| sensor_readings := sensor_readings db;
                  idx_timestamp := idx_timestamp db;
                  idx_sensor_name := true |}
       end.

(** ** Column affinity *)

(** What the engine does beyond the source: the text it writes for a
    number, the numbers it recognises in a text, and the conversions of a
    NUMERIC column.  The development is parametric in them. *)
Class Engine : Type := {
  (** the text of a number stored in a TEXT column *)
  number_text : cell -> string;
  (** the number a text is read as when it is a well-formed literal *)
  numeric_literal : string -> option real;
  (** a real or a text stored in a NUMERIC column *)
  numeric_affinity_of : cell -> cell;
  (** the number an aggregate reads at the front of a text *)
  text_prefix_value : string -> real
}.

Section Affinity.
Context {engine : Engine}.

(** TEXT: a text is kept, a number becomes its text. *)
Definition text_affinity (c : cell) : string :=
  match c with
  | CText s => s
  | _ => number_text c
  end.

(** REAL: a real is kept, an integer is forced to the nearest double, a
    text that reads as a number becomes that number and is kept
    otherwise. *)
Definition real_affinity (c : cell) : cell :=
  match c with
  | CReal r => CReal r
  | CInt n => CReal (nearest (inject_Z n))
  | CText s =>
      match numeric_literal s with
      | Some r => CReal r
      | None => CText s
      end
  end.

(** NUMERIC (the declared type DATETIME): an integer is kept. *)
Definition numeric_affinity (c : cell) : cell :=
  match c with
  | CInt n => CInt n
  | _ => numeric_affinity_of c
  end.

(** ** INSERT *)

(** The rowid AUTOINCREMENT chooses: one more than the largest there ever
    was.  A rowid is a signed integer of 64 bits: once the largest one has
    been used the table takes no row, and the statement fails with
    SQLITE_FULL (an [OperationalError]). *)
Definition max_rowid (rs : list row) : Z :=
  fold_right (fun r m => Z.max (id r) m) 0 rs.

Definition next_rowid (t : table) : Z :=
  Z.max (seq t) (max_rowid (rows t)) + 1.

Definition new_rowid (t : table) : exception + Z :=
  if next_rowid t <=? int64_max then inr (next_rowid t)
  else inl (SqliteError OperationalError).

(** NOT NULL on a bound parameter. *)
Definition not_null (v : sqlval) : sqlite_error + cell :=
  match v with
  | Some c => inr c
  | None => inl IntegrityError
  end.

(** A failing step ends the statement. *)
Definition and_then {E A B : Type} (x : E + A) (f : A -> E + B) : E + B :=
  match x with
  | inl e => inl e
  | inr a => f a
  end.

Notation "'let?' x ':=' c 'in' k" := (and_then c (fun x => k))
  (at level 10, x name, c at level 100, k at level 200).

(** The five columns the program writes and reads:
    [(sensor_name, sensor_type, value, unit, timestamp)]. *)
Definition reading_cells : Type :=
  (string * string * cell * string * cell)%type.

(** The five parameters of the INSERT, bound. *)
Definition bound_reading : Type :=
  (sqlval * sqlval * sqlval * sqlval * sqlval)%type.

(** [cursor.execute] binds the parameters in order before the statement
    runs. *)
Definition bind_parameters (p_name p_type p_value p_unit p_timestamp : pyval)
  : exception + bound_reading :=
  let? b_name := bind_param p_name in
  let? b_type := bind_param p_type in
  let? b_value := bind_param p_value in
  let? b_unit := bind_param p_unit in
  let? b_timestamp := bind_param p_timestamp in
  inr (b_name, b_type, b_value, b_unit, b_timestamp).

(** The bound values become cells: the NOT NULL constraints are checked,
    and each cell takes the affinity of its column. *)
Definition constrain (bound : bound_reading) : exception + reading_cells :=
  let '(b_name, b_type, b_value, b_unit, b_timestamp) := bound in
  match not_null b_name, not_null b_type, not_null b_value,
        not_null b_unit, not_null b_timestamp with
  | inr c_name, inr c_type, inr c_value, inr c_unit, inr c_timestamp =>
      inr (text_affinity c_name, text_affinity c_type,
           real_affinity c_value, text_affinity c_unit,
           numeric_affinity c_timestamp)
  | _, _, _, _, _ => inl (SqliteError IntegrityError)
  end.

(** The row with its rowid; [received_at] takes its default
    [CURRENT_TIMESTAMP]. *)
Definition new_row (rowid : Z) (current_timestamp : string)
    (cells : reading_cells) : row :=
  let '(c_name, c_type, c_value, c_unit, c_timestamp) := cells in
  {| id := rowid;
     sensor_name := c_name;
     sensor_type := c_type;
     value := c_value;
     unit := c_unit;
     timestamp := c_timestamp;
     received_at := Some (CText current_timestamp) |}.

(** The row the INSERT makes for table [t]: the parameters are bound, the
    rowid is chosen, and the constraints are checked, in that order. *)
Definition inserted_row (current_timestamp : string)
    (p_name p_type p_value p_unit p_timestamp : pyval) (t : table)
  : exception + row :=
  let? bound := bind_parameters p_name p_type p_value p_unit p_timestamp in
  let? rowid := new_rowid t in
  let? cells := constrain bound in
  inr (new_row rowid current_timestamp cells).

(** [INSERT INTO sensor_readings (sensor_name, sensor_type, value, unit,
    timestamp) VALUES (?, ?, ?, ?, ?)] at engine time [current_timestamp]:
    the statement is prepared (the table must exist), and the row it makes
    is appended; its rowid is the new value of the counter. *)
Definition insert_reading (current_timestamp : string)
    (p_name p_type p_value p_unit p_timestamp : pyval) (db : database)
  : exception + database :=
  match sensor_readings db with
  | None => inl (SqliteError OperationalError)
  | Some t =>
      let? r := inserted_row current_timestamp
                  p_name p_type p_value p_unit p_timestamp t in
      inr {| sensor_readings := Some {| rows := rows t ++ [r]; seq := id r |};
             idx_timestamp := idx_timestamp db;
             idx_sensor_name := idx_sensor_name db |}
  end.

(** ** Aggregates, as the engine runs them: a step per row, then a final
       value *)

(** [MAX(x)] and [MIN(x)] over cells; NULL on no row. *)
Definition max_step (acc : sqlval) (c : cell) : sqlval :=
  match acc with
  | None => Some c
  | Some m => if cell_leb c m then Some m else Some c
  end.

Definition min_step (acc : sqlval) (c : cell) : sqlval :=
  match acc with
  | None => Some c
  | Some m => if cell_leb m c then Some m else Some c
  end.

Definition sql_max (cs : list cell) : sqlval := fold_left max_step cs None.
Definition sql_min (cs : list cell) : sqlval := fold_left min_step cs None.

(** [COUNT( * )] *)
Definition sql_count {A : Type} (rs : list A) : Z := Z.of_nat (length rs).

(** The double [AVG] reads in a cell. *)
Definition cell_number (c : cell) : real :=
  match c with
  | CInt n => nearest (inject_Z n)
  | CReal r => r
  | CText s => text_prefix_value s
  end.

(** The sum of two doubles: the exact sum, rounded. *)
Definition float_add (a : float) (b : real) : float :=
  match a, b with
  | NaN, _ => NaN
  | Num (Finite p), Finite q => double (p + q)
  | Num (Finite _), Infinity n => Num (Infinity n)
  | Num (Infinity n), Finite _ => Num (Infinity n)
  | Num (Infinity m), Infinity n =>
      if Bool.eqb m n then Num (Infinity m) else NaN
  end.

(** The quotient of a double by a count of rows, which is positive and
    taken as a double: the exact quotient, rounded. *)
Definition float_div (a : float) (n : Z) : float :=
  match a with
  | NaN => NaN
  | Num (Infinity negative) => Num (Infinity negative)
  | Num (Finite p) =>
      match nearest (inject_Z n) with
      | Finite q => double (p / q)
      | Infinity _ => Num (Finite 0)
      end
  end.

(** A double as a result: nan is NULL. *)
Definition result_double (x : float) : sqlval :=
  match x with
  | NaN => None
  | Num r => Some (CReal r)
  end.

(** [AVG(x)]: the steps accumulate the sum, a double, and the count; the
    result is their quotient, and NULL on no row. *)
Definition avg_step (acc : float * Z) (c : cell) : float * Z :=
  (float_add (fst acc) (cell_number c), snd acc + 1).

Definition avg_final (acc : float * Z) : sqlval :=
  if snd acc =? 0 then None
  else result_double (float_div (fst acc) (snd acc)).

Definition sql_avg (cs : list cell) : sqlval :=
  avg_final (fold_left avg_step cs (Num (Finite 0), 0)).

End Affinity.

(** ** GROUP BY, DISTINCT, ORDER BY *)

Section Relational.
Variables (A K : Type).
Variable key : A -> K.
Variable key_eqb : K -> K -> bool.

(** A row joins the group of its key, or opens a new group. *)
Fixpoint add_to_group (r : A) (groups : list (K * list A))
  : list (K * list A) :=
  match groups with
  | [] => [(key r, [r])]
  | (k, members) :: rest =>
      if key_eqb (key r) k then (k, members ++ [r]) :: rest
      else (k, members) :: add_to_group r rest
  end.

(** [GROUP BY key]: the groups, each with its rows in table order. *)
Definition group_by (rs : list A) : list (K * list A) :=
  fold_left (fun groups r => add_to_group r groups) rs [].

(** [SELECT DISTINCT]: the first of each class of equal rows. *)
Fixpoint distinct (same : A -> A -> bool) (l : list A) : list A :=
  match l with
  | [] => []
  | x :: rest => x :: filter (fun y => negb (same x y)) (distinct same rest)
  end.

(** [ORDER BY]: a stable insertion sort.  SQL leaves the order of rows with
    equal sort keys open; here they keep their order. *)
Fixpoint insert_by (leb : A -> A -> bool) (x : A) (l : list A) : list A :=
  match l with
  | [] => [x]
  | y :: rest => if leb x y then x :: y :: rest else y :: insert_by leb x rest
  end.

Definition order_by (leb : A -> A -> bool) (l : list A) : list A :=
  fold_right (insert_by leb) [] l.

End Relational.

(** [ORDER BY sensor_name, sensor_type] on two text columns. *)
Definition name_type_leb (a b : string * string) : bool :=
  match String.compare (fst a) (fst b) with
  | Lt => true
  | Gt => false
  | Eq => string_leb (snd a) (snd b)
  end.

Definition name_type_eqb (a b : string * string) : bool :=
  String.eqb (fst a) (fst b) && String.eqb (snd a) (snd b).

(** ** The two queries *)

Section Queries.
Context {engine : Engine}.

(** A result row of the first query:
    [(sensor_name, sensor_type, value, unit, timestamp)]. *)
Definition latest_row : Type := reading_cells.

Definition select_latest (r : row) : latest_row :=
  (sensor_name r, sensor_type r, value r, unit r, timestamp r).

Definition latest_key (x : latest_row) : string * string :=
  let '(n, t, _, _, _) := x in (n, t).

Definition latest_same (x y : latest_row) : bool :=
  let '(n1, t1, v1, u1, ts1) := x in
  let '(n2, t2, v2, u2, ts2) := y in
  String.eqb n1 n2 && String.eqb t1 t2 && cell_eqb v1 v2
  && String.eqb u1 u2 && cell_eqb ts1 ts2.

(** [SELECT sensor_name, MAX(timestamp) FROM sensor_readings
     GROUP BY sensor_name] *)
Definition max_timestamp_per_sensor (rs : list row) : list (string * sqlval) :=
  map (fun g => (fst g, sql_max (map timestamp (snd g))))
      (group_by sensor_name String.eqb rs).

(** [(sensor_name, timestamp) IN (subquery)] *)
Definition in_subquery (sub : list (string * sqlval)) (r : row) : bool :=
  existsb (fun p =>
             String.eqb (sensor_name r) (fst p)
             && match snd p with
                | Some m => cell_eqb (timestamp r) m
                | None => false
                end) sub.

(** The query of [get_latest_readings]. *)
Definition query_latest (rs : list row) : list latest_row :=
  order_by (fun x y => name_type_leb (latest_key x) (latest_key y))
    (distinct latest_same
       (map select_latest
          (filter (in_subquery (max_timestamp_per_sensor rs)) rs))).

(** A result row of the second query:
    [(sensor_name, sensor_type, count, min_val, max_val, avg_val)]. *)
Definition summary_row : Type :=
  (string * string * Z * sqlval * sqlval * sqlval)%type.

Definition summary_key (x : summary_row) : string * string :=
  let '(n, t, _, _, _, _) := x in (n, t).

Definition summarize (g : (string * string) * list row) : summary_row :=
  let values := map value (snd g) in
  (fst (fst g), snd (fst g), sql_count (snd g),
   sql_min values, sql_max values, sql_avg values).

(** The query of [get_readings_summary]. *)
Definition query_summary (rs : list row) : list summary_row :=
  order_by (fun x y => name_type_leb (summary_key x) (summary_key y))
    (map summarize
       (group_by (fun r => (sensor_name r, sensor_type r)) name_type_eqb rs)).

End Queries.

End Sqlite.

(* ===================================================================== *)
(** * subscriber.py *)
(* ===================================================================== *)

Module Subscriber.

Import Py Sqlite.
Local Open Scope string_scope.
Local Open Scope Z_scope.

(** ** The process: global state, exceptions, logging *)

(** The handle [sqlite3.connect(DB_FILE)] returns. *)
Inductive connection : Type := Connection.

Inductive level : Type := INFO | WARNING | ERROR.

(** The log lines of the functions below, by their text in the source. *)
Inductive log_line : Type :=
| DatabaseInitialized
| DatabaseInitializationError (e : base_exception)
| UnexpectedErrorInitializingDatabase (e : base_exception)
| UnexpectedTopicFormat (topic : string)
| NoValueInPayload (topic : string)
| ReadingStored (count : Z) (sensor_name sensor_type : string)
                (value unit : pyval)
| InvalidJSONPayload (topic payload : string)
| ErrorProcessingMessage (topic : string) (e : base_exception)
| DatabaseNotInitialized
| DatabaseError (e : base_exception)
| DatabaseQueryError (e : base_exception).

(** The globals [db_connection] and [messages_received], the file
    [sensor_data.db] behind the connection, and what was logged. *)
Record state : Type := mkState {
  db_connection : option connection;
  messages_received : Z;
  db_file : database;
  log : list (level * log_line)
}.

(** At import: no connection, no message. *)
Definition initial_state (file : database) : state :=
  {| db_connection := None; messages_received := 0;
     db_file := file; log := [] |}.

(** A call returns or raises. *)
Inductive outcome (A : Type) : Type :=
| Return (a : A)
| Raise (e : base_exception).
Arguments Return {A} a.
Arguments Raise {A} e.

Definition M (A : Type) : Type := state -> outcome A * state.

(** The type of a function that returns nothing. *)
Definition NoneType : Type := Datatypes.unit.

Definition ret {A : Type} (a : A) : M A := fun s => (Return a, s).

Definition raise {A : Type} (e : base_exception) : M A :=
  fun s => (Raise e, s).

Definition bind {A B : Type} (m : M A) (k : A -> M B) : M B :=
  fun s =>
    match m s with
    | (Return a, s') => k a s'
    | (Raise e, s') => (Raise e, s')
    end.

Notation "x <- m ;; k" := (bind m (fun x => k))
  (at level 61, m at next level, right associativity).
Notation "m ;; k" := (bind m (fun _ => k))
  (at level 61, right associativity).

(** [try: body except ...: handler]; the effects of [body] up to the raise
    stay. *)
Definition try_except {A : Type} (body : M A)
    (handler : base_exception -> M A) : M A :=
  fun s =>
    match body s with
    | (Return a, s') => (Return a, s')
    | (Raise e, s') => handler e s'
    end.

(** A library call that returns or raises an [Exception]. *)
Definition call {A : Type} (r : exception + A) : M A :=
  match r with
  | inr a => ret a
  | inl e => raise (Exception e)
  end.

Definition read_state : M state := fun s => (Return s, s).

Definition logger (l : level) (line : log_line) : M NoneType :=
  fun s =>
    (Return tt,
     {| db_connection := db_connection s;
        messages_received := messages_received s;
        db_file := db_file s;
        log := log s ++ [(l, line)] |}).

Definition set_db_connection (c : option connection) : M NoneType :=
  fun s =>
    (Return tt,
     {| db_connection := c;
        messages_received := messages_received s;
        db_file := db_file s;
        log := log s |}).

Definition set_messages_received (n : Z) : M NoneType :=
  fun s =>
    (Return tt,
     {| db_connection := db_connection s;
        messages_received := n;
        db_file := db_file s;
        log := log s |}).

Definition set_db_file (db : database) : M NoneType :=
  fun s =>
    (Return tt,
     {| db_connection := db_connection s;
        messages_received := messages_received s;
        db_file := db;
        log := log s |}).

(** [cursor.execute(statement)] on the file. *)
Definition execute (statement : database -> exception + database)
  : M NoneType :=
  s <- read_state ;;
  db <- call (statement (db_file s)) ;;
  set_db_file db.

(** [db_connection.commit()]: a statement is applied to the file when it is
    executed, so that the commit has nothing left to do. *)
Definition commit : M NoneType := ret tt.

(** ** What the process takes from outside *)

(** A message whose topic has been decoded: the string [msg.topic] is,
    and the payload bytes.  The message object of paho itself, which
    decodes the topic bytes each time [msg.topic] is read, is
    [Paho.MQTTMessage] below. *)
Record MQTTMessage : Type := mkMessage {
  topic : string;
  payload : string   (* bytes *)
}.

(** The two clocks read while one message is handled:
    [datetime.now().isoformat()] and the engine's [CURRENT_TIMESTAMP]. *)
Record clocks : Type := mkClocks {
  now_isoformat : string;
  current_timestamp : string
}.

(** [bytes.decode()] and [json.loads]: library functions.  Each returns a
    value or raises an exception of a class below [Exception]; nothing
    else is assumed of them. *)
Class Library : Type := {
  bytes_decode : string -> exception + string;
  json_loads : string -> exception + pyval
}.

Section Program.
Context {engine : Engine} {library : Library}.

(** ** init_database (lines 51-93) *)

Definition init_database : M bool :=
  try_except
    (set_db_connection (Some Connection) ;;
     execute (fun db => inr (create_table_if_not_exists db)) ;;
     execute (fun db => match create_idx_timestamp db with
                        | inl e => inl (SqliteError e)
                        | inr db' => inr db'
                        end) ;;
     execute (fun db => match create_idx_sensor_name db with
                        | inl e => inl (SqliteError e)
                        | inr db' => inr db'
                        end) ;;
     commit ;;
     logger INFO DatabaseInitialized ;;
     ret true)
    (fun e =>
       if is_sqlite3_Error e then
         logger ERROR (DatabaseInitializationError e) ;; ret false
       else if is_Exception e then
         logger ERROR (UnexpectedErrorInitializingDatabase e) ;; ret false
       else raise e).

(** ** store_reading (lines 158-177) *)

Definition store_reading (clk : clocks)
    (sensor_name sensor_type : string) (value unit timestamp : pyval)
  : M bool :=
  s <- read_state ;;
  match db_connection s with
  | None => logger ERROR DatabaseNotInitialized ;; ret false
  | Some _ =>
      try_except
        (execute (insert_reading (current_timestamp clk)
                    (PyStr sensor_name) (PyStr sensor_type)
                    value unit timestamp) ;;
         commit ;;
         ret true)
        (fun e =>
           if is_sqlite3_Error e then
             logger ERROR (DatabaseError e) ;; ret false
           else raise e)
  end.

(** ** on_message (lines 119-154), on a message whose topic decodes *)

(** What is handed to [store_reading]. *)
Record candidate : Type := mkCandidate {
  c_sensor_name : string;
  c_sensor_type : string;
  c_value : pyval;
  c_unit : pyval;
  c_timestamp : pyval
}.

(** Lines 128-145: the topic is split and counted, the payload is decoded
    and parsed, the three fields are read.  [None] is one of the two early
    returns. *)
Definition parse_message (clk : clocks) (msg : MQTTMessage)
  : M (option candidate) :=
  let topic_parts := split "/" (topic msg) in
  if negb (Nat.eqb (length topic_parts) 3) then
    logger WARNING (UnexpectedTopicFormat (topic msg)) ;; ret None
  else
    let sensor_name := nth 1 topic_parts "" in
    let sensor_type := nth 2 topic_parts "" in
    text <- call (bytes_decode (payload msg)) ;;
    payload <- call (json_loads text) ;;
    value <- call (Py.get payload "value" PyNone) ;;
    unit <- call (Py.get payload "unit" (PyStr "")) ;;
    timestamp <- call (Py.get payload "timestamp"
                         (PyStr (now_isoformat clk))) ;;
    match value with
    | PyNone => logger WARNING (NoValueInPayload (topic msg)) ;; ret None
    | _ => ret (Some (mkCandidate sensor_name sensor_type value unit timestamp))
    end.

(** [f"{value:6.1f}"]: a number is formatted, a [str] is a [ValueError],
    anything else a [TypeError]. *)
Definition format_6_1f (value : pyval) : exception + pyval :=
  match value with
  | PyBool _ | PyInt _ | PyFloat _ => inr value
  | PyStr _ => inl ValueError
  | PyNone | PyList _ | PyDict _ => inl TypeError
  end.

Definition on_message (clk : clocks) (msg : MQTTMessage) : M NoneType :=
  try_except
    (s <- read_state ;;
     set_messages_received (messages_received s + 1) ;;
     parsed <- parse_message clk msg ;;
     match parsed with
     | None => ret tt
     | Some c =>
         stored <- store_reading clk (c_sensor_name c) (c_sensor_type c)
                     (c_value c) (c_unit c) (c_timestamp c) ;;
         if stored then
           s' <- read_state ;;
           shown <- call (format_6_1f (c_value c)) ;;
           logger INFO (ReadingStored (messages_received s')
                          (c_sensor_name c) (c_sensor_type c)
                          shown (c_unit c))
         else ret tt
     end)
    (fun e =>
       if is_JSONDecodeError e then
         logger WARNING (InvalidJSONPayload (topic msg) (payload msg))
       else if is_Exception e then
         logger ERROR (ErrorProcessingMessage (topic msg) e)
       else raise e).

(** ** get_latest_readings (lines 180-202) and get_readings_summary
       (lines 205-225) *)

(** [cursor.execute(SELECT ...)] followed by [cursor.fetchall()]. *)
Definition fetchall {A : Type} (query : list row -> list A) : M (list A) :=
  s <- read_state ;;
  match sensor_readings (db_file s) with
  | None => raise (Exception (SqliteError OperationalError))
  | Some t => ret (query (rows t))
  end.

Definition get_latest_readings : M (option (list latest_row)) :=
  s <- read_state ;;
  match db_connection s with
  | None => ret None
  | Some _ =>
      try_except
        (results <- fetchall query_latest ;; ret (Some results))
        (fun e =>
           if is_sqlite3_Error e then
             logger ERROR (DatabaseQueryError e) ;; ret None
           else raise e)
  end.

Definition get_readings_summary : M (option (list summary_row)) :=
  s <- read_state ;;
  match db_connection s with
  | None => ret None
  | Some _ =>
      try_except
        (results <- fetchall query_summary ;; ret (Some results))
        (fun e =>
           if is_sqlite3_Error e then
             logger ERROR (DatabaseQueryError e) ;; ret None
           else raise e)
  end.

End Program.

End Subscriber.

(* ===================================================================== *)
(** * on_message on the message object of paho *)
(* ===================================================================== *)

Module Paho.

Import Py Sqlite Subscriber.
Local Open Scope string_scope.
Local Open Scope Z_scope.

(** [paho.mqtt.client.MQTTMessage]: the topic is kept as the bytes of the
    PUBLISH packet, next to the payload bytes. *)
Record MQTTMessage : Type := mkMessage {
  _topic : string;   (* bytes *)
  payload : string   (* bytes *)
}.

Section Callback.
Context {engine : Engine} {library : Library}.

(** The property [msg.topic]: [self._topic.decode('utf-8')], at each
    read. *)
Definition topic (msg : MQTTMessage) : M string :=
  call (bytes_decode (_topic msg)).

(** Lines 128-145, with the reads of [msg.topic] at lines 128, 130 and
    144. *)
Definition parse_message (clk : clocks) (msg : MQTTMessage)
  : M (option candidate) :=
  topic_128 <- topic msg ;;
  let topic_parts := split "/" topic_128 in
  if negb (Nat.eqb (length topic_parts) 3) then
    topic_130 <- topic msg ;;
    logger WARNING (UnexpectedTopicFormat topic_130) ;; ret None
  else
    let sensor_name := nth 1 topic_parts "" in
    let sensor_type := nth 2 topic_parts "" in
    text <- call (bytes_decode (payload msg)) ;;
    payload <- call (json_loads text) ;;
    value <- call (Py.get payload "value" PyNone) ;;
    unit <- call (Py.get payload "unit" (PyStr "")) ;;
    timestamp <- call (Py.get payload "timestamp"
                         (PyStr (now_isoformat clk))) ;;
    match value with
    | PyNone =>
        topic_144 <- topic msg ;;
        logger WARNING (NoValueInPayload topic_144) ;; ret None
    | _ => ret (Some (mkCandidate sensor_name sensor_type value unit timestamp))
    end.

(** Lines 119-154: the two handlers read [msg.topic] again, at lines 152
    and 154, before they log. *)
Definition on_message (clk : clocks) (msg : MQTTMessage) : M NoneType :=
  try_except
    (s <- read_state ;;
     set_messages_received (messages_received s + 1) ;;
     parsed <- parse_message clk msg ;;
     match parsed with
     | None => ret tt
     | Some c =>
         stored <- store_reading clk (c_sensor_name c) (c_sensor_type c)
                     (c_value c) (c_unit c) (c_timestamp c) ;;
         if stored then
           s' <- read_state ;;
           shown <- call (format_6_1f (c_value c)) ;;
           logger INFO (ReadingStored (messages_received s')
                          (c_sensor_name c) (c_sensor_type c)
                          shown (c_unit c))
         else ret tt
     end)
    (fun e =>
       if is_JSONDecodeError e then
         topic_152 <- topic msg ;;
         logger WARNING (InvalidJSONPayload topic_152 (payload msg))
       else if is_Exception e then
         topic_154 <- topic msg ;;
         logger ERROR (ErrorProcessingMessage topic_154 e)
       else raise e).

End Callback.

(** The message with its topic decoded. *)
Definition decoded (t : string) (msg : MQTTMessage) : Subscriber.MQTTMessage :=
  {| Subscriber.topic := t; Subscriber.payload := payload msg |}.

End Paho.

(* ===================================================================== *)
(** * Vocabulary of the statements, and the inputs of the examples *)
(* ===================================================================== *)

Module Spec.

Import Py Sqlite Subscriber.
Local Open Scope string_scope.
Local Open Scope Z_scope.

(** The Readings the store holds. *)
Definition stored_rows (s : state) : list row :=
  match sensor_readings (db_file s) with
  | Some t => rows t
  | None => []
  end.

(** The rows of [after] behind those of [before]. *)
Definition appended (before after : state) : list row :=
  skipn (length (stored_rows before)) (stored_rows after).

(** The state a call leaves. *)
Definition state_after {A : Type} (m : M A) (s : state) : state := snd (m s).

Fixpoint has_slash (s : string) : bool :=
  match s with
  | EmptyString => false
  | String c rest => Ascii.eqb c "/" || has_slash rest
  end.

(** The topic [sensors/{S}/{K}]. *)
Definition sensor_topic (S K : string) : string :=
  "sensors/" ++ S ++ "/" ++ K.

(** A JSON number. *)
Definition is_number (v : pyval) : bool :=
  match v with
  | PyInt _ | PyFloat _ => true
  | _ => false
  end.

(** The REAL cell of a number the store accepts: the double nearest to an
    integer of 64 bits, or a float other than nan. *)
Definition stored_number (v : pyval) : option cell :=
  match v with
  | PyInt n =>
      if (int64_min <=? n) && (n <=? int64_max)
      then Some (CReal (nearest (inject_Z n))) else None
  | PyFloat (Num r) => Some (CReal r)
  | _ => None
  end.

(** An optional field of the payload as the store takes it: the cell the
    field binds to, or the one the default binds to when the field is
    absent; nothing when it binds to NULL or does not bind. *)
Definition bound_field (default : string) (field : option pyval)
  : option cell :=
  match bind_param match field with
                   | Some x => x
                   | None => PyStr default
                   end with
  | inr (Some c) => Some c
  | _ => None
  end.

(** The items of the payload when it decodes and parses as a map. *)
Definition payload_items {library : Library} (msg : MQTTMessage)
  : option (list (string * pyval)) :=
  match bytes_decode (payload msg) with
  | inr text =>
      match json_loads text with
      | inr (PyDict items) => Some items
      | _ => None
      end
  | inl _ => None
  end.

(** The [value] the handler finds in the payload, if any. *)
Definition offered_value {library : Library} (msg : MQTTMessage)
  : option pyval :=
  match payload_items msg with
  | Some items => lookup "value" items
  | None => None
  end.

(** What one message leaves in the file: the row of its candidate, when
    there is a connection and the INSERT succeeds. *)
Definition written {engine : Engine} {library : Library}
    (clk : clocks) (msg : MQTTMessage) (s : state) : database :=
  match fst (parse_message clk msg s), db_connection s with
  | Return (Some c), Some _ =>
      match insert_reading (current_timestamp clk)
              (PyStr (c_sensor_name c)) (PyStr (c_sensor_type c))
              (c_value c) (c_unit c) (c_timestamp c) (db_file s) with
      | inr db' => db'
      | inl _ => db_file s
      end
  | _, _ => db_file s
  end.

(** The number a numeric cell stands for. *)
Definition number_of (c : cell) : real :=
  match c with
  | CInt n => Finite (inject_Z n)
  | CReal r => r
  | CText _ => Finite 0
  end.

Definition is_text (c : cell) : bool :=
  match c with CText _ => true | _ => false end.

(** A [value] with which the handler stores nothing: none, [None], nan, a
    list or a map. *)
Definition value_refused (field : option pyval) : bool :=
  match field with
  | None => true
  | Some PyNone => true
  | Some (PyFloat NaN) => true
  | Some (PyList _) => true
  | Some (PyDict _) => true
  | Some _ => false
  end.

Definition is_dict (v : pyval) : bool :=
  match v with
  | PyDict _ => true
  | _ => false
  end.

(** A finite number in a cell, as a rational. *)
Definition finite_number (c : cell) : option Q :=
  match c with
  | CInt n => Some (inject_Z n)
  | CReal (Finite q) => Some q
  | _ => None
  end.


(** The sum of doubles, added one after the other to 0.0. *)
Definition double_sum (xs : list real) : float :=
  fold_left float_add xs (Num (Finite 0)).

(** The mean in doubles of the numbers of a list of cells: their sum
    divided by their count; nothing for no cell, and nothing when it is
    nan. *)
Definition double_mean {engine : Engine} (cs : list cell) : sqlval :=
  match cs with
  | [] => None
  | _ => result_double
           (float_div (double_sum (map cell_number cs))
                      (Z.of_nat (length cs)))
  end.

(** The stored values of a (sensor_name, sensor_type) pair. *)
Definition values_of (n t : string) (rs : list row) : list cell :=
  map value
    (filter (fun r => String.eqb (sensor_name r) n
                      && String.eqb (sensor_type r) t) rs).

(** ** Inputs of the examples *)

(** An engine for the examples; the examples store texts in text columns
    and numbers in the REAL column only. *)
Definition example_engine : Engine :=
  {| number_text := fun _ => "";
     numeric_literal := fun _ => None;
     numeric_affinity_of := fun c => c;
     text_prefix_value := fun _ => Finite 0 |}.

Definition quote : string := String "034" "".
Definition quoted (s : string) : string := quote ++ s ++ quote.

(** [{"value": 21.5, "unit": "C", "timestamp": "2024-01-01T00:00:00"}] *)
Definition payload_full : string :=
  "{" ++ quoted "value" ++ ": 21.5, " ++ quoted "unit" ++ ": "
  ++ quoted "C" ++ ", " ++ quoted "timestamp" ++ ": "
  ++ quoted "2024-01-01T00:00:00" ++ "}".

(** [{"value": 23.0, "unit": "C", "timestamp": "2024-01-01T00:00:00"}] *)
Definition payload_same_time : string :=
  "{" ++ quoted "value" ++ ": 23.0, " ++ quoted "unit" ++ ": "
  ++ quoted "C" ++ ", " ++ quoted "timestamp" ++ ": "
  ++ quoted "2024-01-01T00:00:00" ++ "}".

(** [{"value": 23.0, "unit": "C", "timestamp": "2024-01-01T00:05:00"}] *)
Definition payload_later : string :=
  "{" ++ quoted "value" ++ ": 23.0, " ++ quoted "unit" ++ ": "
  ++ quoted "C" ++ ", " ++ quoted "timestamp" ++ ": "
  ++ quoted "2024-01-01T00:05:00" ++ "}".

(** [{"value": 21.5}] *)
Definition payload_value_only : string :=
  "{" ++ quoted "value" ++ ": 21.5}".

(** [{"value": 21.5, "unit": null}] *)
Definition payload_null_unit : string :=
  "{" ++ quoted "value" ++ ": 21.5, " ++ quoted "unit" ++ ": null}".

(** [{"value": true}] *)
Definition payload_true : string :=
  "{" ++ quoted "value" ++ ": true}".

(** [{"unit": "%"}] *)
Definition payload_no_value : string :=
  "{" ++ quoted "unit" ++ ": " ++ quoted "%" ++ "}".

(** [[1, 2]] *)
Definition payload_array : string := "[1, 2]".

(** What [json.loads] returns on the payloads above; any other text is
    taken as not JSON. *)
Definition example_loads (text : string) : exception + pyval :=
  if String.eqb text payload_full then
    inr (PyDict [("value", PyFloat (Num (Finite (43 # 2))));
                 ("unit", PyStr "C");
                 ("timestamp", PyStr "2024-01-01T00:00:00")])
  else if String.eqb text payload_same_time then
    inr (PyDict [("value", PyFloat (Num (Finite (23 # 1))));
                 ("unit", PyStr "C");
                 ("timestamp", PyStr "2024-01-01T00:00:00")])
  else if String.eqb text payload_later then
    inr (PyDict [("value", PyFloat (Num (Finite (23 # 1))));
                 ("unit", PyStr "C");
                 ("timestamp", PyStr "2024-01-01T00:05:00")])
  else if String.eqb text payload_value_only then
    inr (PyDict [("value", PyFloat (Num (Finite (43 # 2))))])
  else if String.eqb text payload_null_unit then
    inr (PyDict [("value", PyFloat (Num (Finite (43 # 2))));
                 ("unit", PyNone)])
  else if String.eqb text payload_true then
    inr (PyDict [("value", PyBool true)])
  else if String.eqb text payload_no_value then
    inr (PyDict [("unit", PyStr "%")])
  else if String.eqb text payload_array then
    inr (PyList [PyInt 1; PyInt 2])
  else inl JSONDecodeError.

(** The payloads of the examples are ASCII, which decodes to itself. *)
Definition example_library : Library :=
  {| bytes_decode := fun b => inr b;
     json_loads := example_loads |}.

Definition example_clocks : clocks :=
  {| now_isoformat := "2024-01-01T00:10:00.000000";
     current_timestamp := "2024-01-01 00:10:00" |}.

(** The process after [init_database] on a new file. *)
Definition started : state :=
  state_after init_database (initial_state empty_database).

(** One message of the examples, delivered. *)
Definition deliver (topic payload : string) (s : state) : state :=
  state_after
    (@on_message example_engine example_library example_clocks
       {| topic := topic; payload := payload |}) s.

(** Two readings of one sensor and kind with the same timestamp. *)
Definition two_readings_same_time : state :=
  deliver "sensors/deskA/temperature" payload_same_time
    (deliver "sensors/deskA/temperature" payload_full started).

(** Two readings of one sensor and kind, five minutes apart. *)
Definition two_readings : state :=
  deliver "sensors/deskA/temperature" payload_later
    (deliver "sensors/deskA/temperature" payload_full started).




(** A library for bytes that do not decode: the byte FF is in no UTF-8
    text, and everything else is taken as in [example_library]. *)
Fixpoint has_byte_ff (b : string) : bool :=
  match b with
  | EmptyString => false
  | String c rest => (N_of_ascii c =? 255)%N || has_byte_ff rest
  end.

(** The [str] of the one code point U+D800, a surrogate. *)
Definition lone_surrogate : string :=
  String (ascii_of_N 237) (String (ascii_of_N 160) (String (ascii_of_N 128) "")).

(** [{"value": 21.5, "unit": "\ud800"}] *)
Definition payload_surrogate_unit : string :=
  "{" ++ quoted "value" ++ ": 21.5, " ++ quoted "unit" ++ ": "
  ++ quoted "\ud800" ++ "}".

(** [{"value": 9007199254740993}], that is 2^53 + 1 *)
Definition payload_odd_integer : string :=
  "{" ++ quoted "value" ++ ": 9007199254740993}".

Definition strict_loads (text : string) : exception + pyval :=
  if String.eqb text payload_surrogate_unit then
    inr (PyDict [("value", PyFloat (Num (Finite (43 # 2))));
                 ("unit", PyStr lone_surrogate)])
  else if String.eqb text payload_odd_integer then
    inr (PyDict [("value", PyInt 9007199254740993)])
  else example_loads text.

Definition strict_library : Library :=
  {| bytes_decode := fun b => if has_byte_ff b then inl UnicodeDecodeError
                              else inr b;
     json_loads := strict_loads |}.

(** One message of these examples, delivered. *)
Definition deliver_strict (topic payload : string) (s : state) : state :=
  state_after
    (@on_message example_engine strict_library example_clocks
       {| topic := topic; payload := payload |}) s.

(** The process on a table that has used its last rowid. *)
Definition started_on_full_table : state :=
  {| db_connection := Some Connection;
     messages_received := 0;
     db_file := {| sensor_readings := Some {| rows := []; seq := int64_max |};
                   idx_timestamp := true;
                   idx_sensor_name := true |};
     log := [] |}.

(** The topic bytes [sensors/\xff/temperature], which the subscription
    [sensors/+/temperature] matches. *)
Definition topic_not_utf8 : string :=
  "sensors/" ++ String (ascii_of_N 255) "" ++ "/temperature".

(** The state in which a call leaves the globals when it has counted a
    message and done nothing else. *)
Definition counted (s : state) : state :=
  {| db_connection := db_connection s;
     messages_received := messages_received s + 1;
     db_file := db_file s;
     log := log s |}.

(** ** Statements that the program does not satisfy as they are worded *)

Definition value_as_given (v : pyval) (c : cell) : Prop :=
  match v with
  | PyInt n => cell_eqb c (CInt n) = true
  | PyFloat (Num r) => cell_eqb c (CReal r) = true
  | _ => False
  end.

Definition unit_as_given (field : option pyval) (u : string) : Prop :=
  match field with
  | None => u = ""
  | Some (PyStr x) => u = x
  | Some _ => True
  end.

(** Every topic [sensors/{S}/{K}] with a payload that is a map with a
    number under [value] gives exactly one new Reading. *)
Definition stated_one_reading_per_message : Prop :=
  forall (engine : Engine) (library : Library) (clk : clocks)
         (msg : MQTTMessage) (s : state) (S K : string)
         (items : list (string * pyval)) (v : pyval)
         (conn : connection) (t : table),
    topic msg = sensor_topic S K ->
    S <> "" -> K <> "" -> has_slash S = false -> has_slash K = false ->
    payload_items msg = Some items ->
    lookup "value" items = Some v ->
    is_number v = true ->
    db_connection s = Some conn ->
    sensor_readings (db_file s) = Some t ->
    exists r,
      stored_rows (state_after (on_message clk msg) s) = (rows t ++ [r])%list
      /\ sensor_name r = S /\ sensor_type r = K
      /\ value_as_given v (value r)
      /\ unit_as_given (lookup "unit" items) (unit r).

(** A topic that is not of three pieces leaves the Readings and the counter
    as they are. *)
Definition stated_bad_topic_changes_nothing : Prop :=
  forall (engine : Engine) (library : Library) (clk : clocks)
         (msg : MQTTMessage) (s : state),
    length (split "/" (topic msg)) <> 3%nat ->
    stored_rows (state_after (on_message clk msg) s) = stored_rows s
    /\ messages_received (state_after (on_message clk msg) s)
       = messages_received s.

(** A payload without a number under [value] gives no Reading. *)
Definition stated_value_must_be_number : Prop :=
  forall (engine : Engine) (library : Library) (clk : clocks)
         (msg : MQTTMessage) (s : state),
    (forall v, offered_value msg = Some v -> is_number v = false) ->
    stored_rows (state_after (on_message clk msg) s) = stored_rows s.

Definition three_nonempty_segments (topic : string) : Prop :=
  exists a b c, split "/" topic = [a; b; c] /\ a <> "" /\ b <> "" /\ c <> "".

(** A topic that is not of three pieces, none empty, gives no Reading, and
    so no Reading of the handler has an empty [sensor_name]. *)
Definition stated_empty_segment_rejected : Prop :=
  forall (engine : Engine) (library : Library) (clk : clocks)
         (msg : MQTTMessage) (s : state),
    (~ three_nonempty_segments (topic msg) ->
     stored_rows (state_after (on_message clk msg) s) = stored_rows s)
    /\ (forall r, In r (appended s (state_after (on_message clk msg) s)) ->
                  sensor_name r <> "").


(** The first query gives at most one row per (sensor_name, sensor_type),
    that row is the latest of the pair with the higher id winning a tie,
    and the rows are in order. *)
Definition stated_latest_per_pair : Prop :=
  forall (s : state) (conn : connection) (t : table),
    db_connection s = Some conn ->
    sensor_readings (db_file s) = Some t ->
    exists result,
      fst (get_latest_readings s) = Return (Some result)
      /\ NoDup (map latest_key result)
      /\ (forall x, In x result ->
            exists r, In r (rows t) /\ select_latest r = x
              /\ forall r', In r' (rows t) ->
                   sensor_name r' = sensor_name r ->
                   sensor_type r' = sensor_type r ->
                   cell_compare (timestamp r') (timestamp r) = Lt
                   \/ (cell_compare (timestamp r') (timestamp r) = Eq
                       /\ id r' <= id r))
      /\ Sorted (fun x y => name_type_leb (latest_key x) (latest_key y) = true)
                result.

End Spec.

(* ===================================================================== *)
(** * The rest of subscriber.py: configuration, the callbacks of the
      connection, the start, the reporting loop and the shutdown *)
(* ===================================================================== *)

Module Process.

Import Py Sqlite Subscriber.
Local Open Scope string_scope.
Local Open Scope Z_scope.

(** ** Configuration (lines 23-35) *)

Definition MQTT_BROKER : string := "raspberrypi239.local".
Definition MQTT_PORT : Z := 1883.
Definition MQTT_KEEPALIVE : Z := 60.
Definition DB_FILE : string := "sensor_data.db".

Definition TOPICS : list (string * Z) :=
  [("sensors/+/temperature", 0); ("sensors/+/humidity", 0)].

(** [mqtt.MQTT_ERR_SUCCESS] *)
Definition MQTT_ERR_SUCCESS : Z := 0.

(** ** The process *)

(** The paho client as far as the program drives it: whether [connect]
    went through, whether the network thread of [loop_start] runs, and the
    [subscribe] requests made, oldest first. *)
Record client : Type := mkClient {
  connected : bool;
  loop_running : bool;
  requests : list (string * Z)
}.

(** The log lines of the whole program: those of the functions of
    [Subscriber], and those of the functions below, by their text in the
    source. *)
Inductive line : Type :=
| Handler (l : log_line)
| ConnectedToBroker
| SubscribedTo (topic : string)
| FailedToSubscribeTo (topic : string)
| ConnectionFailed (rc : Z)
| UnexpectedDisconnection (rc : Z)
| FailedToInitializeMQTT (e : base_exception)
| MakeSureBrokerIsRunning
| Rule
| Title
| BrokerLine
| DatabaseLine
| SubscribingTo
| TopicLine (topic : string)
| CannotContinueWithoutDatabase
| CannotContinueWithoutMQTT
| AllSystemsInitialized
| PressCtrlCToExit
| DatabaseSummary
| SummaryLine (sensor_name sensor_type : string) (count : Z)
              (min_val max_val avg_val : cell)
| ShutdownRequested
| UnexpectedErrorInMainLoop (e : base_exception)
| CleaningUp
| MQTTClientDisconnected
| DatabaseClosed (total : Z)
| ShutdownComplete.

(** The process: the three globals [mqtt_client], [db_connection] and
    [messages_received], the file, whether [db_connection.close()] was
    called, and the one log of the program. *)
Record process : Type := mkProcess {
  mqtt_client : option client;
  db_connection : option connection;
  messages_received : Z;
  db_file : database;
  db_closed : bool;
  journal : list (level * line)
}.

(** The process at import, on a given file. *)
Definition boot (file : database) : process :=
  {| mqtt_client := None;
     db_connection := None;
     messages_received := 0;
     db_file := file;
     db_closed := false;
     journal := [] |}.

(** The globals and the file as the functions of [Subscriber] take them. *)
Definition globals (p : process) : state :=
  {| Subscriber.db_connection := db_connection p;
     Subscriber.messages_received := messages_received p;
     Subscriber.db_file := db_file p;
     log := [] |}.

Definition P (A : Type) : Type := process -> outcome A * process.

Definition pure {A : Type} (a : A) : P A := fun p => (Return a, p).

Definition throw {A : Type} (e : base_exception) : P A :=
  fun p => (Raise e, p).

Definition and_next {A B : Type} (m : P A) (k : A -> P B) : P B :=
  fun p =>
    match m p with
    | (Return a, p') => k a p'
    | (Raise e, p') => (Raise e, p')
    end.

Declare Scope process_scope.
Delimit Scope process_scope with process.
Notation "x <- m ;; k" := (and_next m (fun x => k))
  (at level 61, m at next level, right associativity) : process_scope.
Notation "m ;; k" := (and_next m (fun _ => k))
  (at level 61, right associativity) : process_scope.
Local Open Scope process_scope.

(** [try: body except ...: handler] *)
Definition try_catch {A : Type} (body : P A)
    (handler : base_exception -> P A) : P A :=
  fun p =>
    match body p with
    | (Return a, p') => (Return a, p')
    | (Raise e, p') => handler e p'
    end.

Definition library_call {A : Type} (r : exception + A) : P A :=
  match r with
  | inr a => pure a
  | inl e => throw (Exception e)
  end.

Definition read_process : P process := fun p => (Return p, p).

Definition journal_line (l : level) (x : line) : P NoneType :=
  fun p =>
    (Return tt,
     {| mqtt_client := mqtt_client p;
        db_connection := db_connection p;
        messages_received := messages_received p;
        db_file := db_file p;
        db_closed := db_closed p;
        journal := journal p ++ [(l, x)] |}).

Definition set_mqtt_client (c : option client) : P NoneType :=
  fun p =>
    (Return tt,
     {| mqtt_client := c;
        db_connection := db_connection p;
        messages_received := messages_received p;
        db_file := db_file p;
        db_closed := db_closed p;
        journal := journal p |}).

Definition set_db_closed (b : bool) : P NoneType :=
  fun p =>
    (Return tt,
     {| mqtt_client := mqtt_client p;
        db_connection := db_connection p;
        messages_received := messages_received p;
        db_file := db_file p;
        db_closed := b;
        journal := journal p |}).

(** A function of [Subscriber] called in the process: it runs on the
    globals and the file, and its log lines go to the journal. *)
Definition in_subscriber {A : Type} (m : M A) : P A :=
  fun p =>
    let (o, s) := m (globals p) in
    (o,
     {| mqtt_client := mqtt_client p;
        db_connection := Subscriber.db_connection s;
        messages_received := Subscriber.messages_received s;
        db_file := Subscriber.db_file s;
        db_closed := db_closed p;
        journal := journal p
                   ++ map (fun e => (fst e, Handler (snd e))) (log s) |}).

(** The network thread has ended. *)
Definition thread_ended (p : process) : process :=
  {| mqtt_client :=
       match mqtt_client p with
       | Some c => Some {| connected := connected c;
                           loop_running := false;
                           requests := requests c |}
       | None => None
       end;
     db_connection := db_connection p;
     messages_received := messages_received p;
     db_file := db_file p;
     db_closed := db_closed p;
     journal := journal p |}.

(** A callback on the network thread of paho, which calls the callbacks one
    at a time.  An exception that leaves a callback is raised again by paho
    (the client is made with [suppress_exceptions] off) and ends the
    thread; it does not reach the main thread.  Without the thread there is
    no callback. *)
Definition callback (m : P NoneType) : P NoneType :=
  fun p =>
    match mqtt_client p with
    | Some c =>
        if loop_running c then
          match m p with
          | (Return _, p') => (Return tt, p')
          | (Raise _, p') => (Return tt, thread_ended p')
          end
        else (Return tt, p)
    | None => (Return tt, p)
    end.

(** ** on_connect (lines 97-110) and on_disconnect (lines 113-116) *)

(** [client.subscribe(topic, qos=qos)]: the request is made and the broker
    side answers with a result code. *)
Definition subscribe (results : string -> Z) (topic : string) (qos : Z)
  : P Z :=
  fun p =>
    (Return (results topic),
     {| mqtt_client :=
          match mqtt_client p with
          | Some c =>
              Some {| connected := connected c;
                      loop_running := loop_running c;
                      requests := requests c ++ [(topic, qos)] |}
          | None => None
          end;
        db_connection := db_connection p;
        messages_received := messages_received p;
        db_file := db_file p;
        db_closed := db_closed p;
        journal := journal p |}).

(** [for topic, qos in topics: ...] *)
Fixpoint subscribe_each (results : string -> Z) (topics : list (string * Z))
  : P NoneType :=
  match topics with
  | [] => pure tt
  | (topic, qos) :: rest =>
      result <- subscribe results topic qos ;;
      (if result =? MQTT_ERR_SUCCESS
       then journal_line INFO (SubscribedTo topic)
       else journal_line WARNING (FailedToSubscribeTo topic)) ;;
      subscribe_each results rest
  end.

Definition on_connect (results : string -> Z) (rc : Z) : P NoneType :=
  if rc =? 0 then
    journal_line INFO ConnectedToBroker ;;
    subscribe_each results TOPICS
  else journal_line ERROR (ConnectionFailed rc).

Definition on_disconnect (rc : Z) : P NoneType :=
  if negb (rc =? 0) then journal_line WARNING (UnexpectedDisconnection rc)
  else pure tt.

(** ** init_mqtt (lines 229-247) *)

(** What the network does at the start: whether [mqtt.Client(...)] and
    [mqtt_client.connect(...)] return or raise. *)
Record paho : Type := mkPaho {
  new_client : exception + NoneType;
  connect : exception + NoneType
}.

Definition init_mqtt (net : paho) : P bool :=
  try_catch
    (library_call (new_client net) ;;
     set_mqtt_client (Some {| connected := false;
                              loop_running := false;
                              requests := [] |}) ;;
     library_call (connect net) ;;
     set_mqtt_client (Some {| connected := true;
                              loop_running := true;
                              requests := [] |}) ;;
     pure true)
    (fun e =>
       if is_Exception e then
         journal_line ERROR (FailedToInitializeMQTT e) ;;
         journal_line ERROR MakeSureBrokerIsRunning ;;
         pure false
       else throw e).

(** ** cleanup (lines 299-314) *)

Definition cleanup : P NoneType :=
  journal_line INFO CleaningUp ;;
  p <- read_process ;;
  match mqtt_client p with
  | Some c =>
      set_mqtt_client (Some {| connected := false;
                               loop_running := false;
                               requests := requests c |}) ;;
      journal_line INFO MQTTClientDisconnected
  | None => pure tt
  end ;;
  match db_connection p with
  | Some _ =>
      set_db_closed true ;;
      journal_line INFO (DatabaseClosed (messages_received p))
  | None => pure tt
  end ;;
  journal_line INFO ShutdownComplete.

(** ** main (lines 251-295) *)

(** [f"{x:6.1f}"] on a fetched value: a number is formatted, a [str] is a
    [ValueError], [None] a [TypeError]. *)
Definition format_fetched (v : sqlval) : exception + cell :=
  match v with
  | Some (CText _) => inl ValueError
  | Some c => inr c
  | None => inl TypeError
  end.

(** The line of lines 286-288 for one row of the summary; the fields are
    formatted from left to right. *)
Definition format_summary_line (row : summary_row) : exception + line :=
  let '(sensor_name, sensor_type, count, min_val, max_val, avg_val) := row in
  and_then (format_fetched min_val) (fun shown_min =>
  and_then (format_fetched max_val) (fun shown_max =>
  and_then (format_fetched avg_val) (fun shown_avg =>
  inr (SummaryLine sensor_name sensor_type count
         shown_min shown_max shown_avg)))).

(** [for row in summary: logger.info(...)] *)
Fixpoint report_rows (summary : list summary_row) : P NoneType :=
  match summary with
  | [] => pure tt
  | row :: rest =>
      shown <- library_call (format_summary_line row) ;;
      journal_line INFO shown ;;
      report_rows rest
  end.

Section Main.
Context {engine : Engine} {library : Library}.

(** Lines 281-288, the body of the loop after [time.sleep(60)]: a summary
    that is [None] or empty is skipped. *)
Definition report : P NoneType :=
  summary <- in_subscriber get_readings_summary ;;
  match summary with
  | Some (row :: rest) =>
      journal_line INFO DatabaseSummary ;;
      report_rows (row :: rest)
  | _ => pure tt
  end.

(** What happens while [main] is in its loop: paho's thread calls one of
    the callbacks, or the main thread comes back from [time.sleep(60)], or
    it is interrupted.  The events are taken one after the other. *)
Inductive event : Type :=
| Message (clk : clocks) (msg : Paho.MQTTMessage)
| Connack (rc : Z) (results : string -> Z)
| Disconnect (rc : Z)
| Minute
| CtrlC.

(** [while True: time.sleep(60); ...] along the events; it ends only by
    raising. *)
Fixpoint main_loop (events : list event) : P NoneType :=
  match events with
  | [] => pure tt
  | Message clk msg :: rest =>
      callback (in_subscriber (Paho.on_message clk msg)) ;; main_loop rest
  | Connack rc results :: rest =>
      callback (on_connect results rc) ;; main_loop rest
  | Disconnect rc :: rest =>
      callback (on_disconnect rc) ;; main_loop rest
  | Minute :: rest => report ;; main_loop rest
  | CtrlC :: _ => throw KeyboardInterrupt
  end.

(** Whether [main] has returned, or is still in its loop when the events
    are used up. *)
Inductive status : Type := Running | Exited.

(** Lines 276-295: the loop in its [try], the two [except] clauses and
    [finally: cleanup()], which runs whenever the loop is left. *)
Definition serve (events : list event) : P status :=
  fun p =>
    match main_loop events p with
    | (Return _, p') => (Return Running, p')
    | (Raise e, p') =>
        match
          (if match e with KeyboardInterrupt => true | _ => false end
           then journal_line INFO ShutdownRequested ;; pure Exited
           else if is_Exception e
           then journal_line ERROR (UnexpectedErrorInMainLoop e) ;;
                pure Exited
           else throw e) p'
        with
        | (o, p'') =>
            match cleanup p'' with
            | (Return _, p''') => (o, p''')
            | (Raise e', p''') => (Raise e', p''')
            end
        end
    end.

(** Lines 253-261: the banner. *)
Definition banner : P NoneType :=
  journal_line INFO Rule ;;
  journal_line INFO Title ;;
  journal_line INFO Rule ;;
  journal_line INFO BrokerLine ;;
  journal_line INFO DatabaseLine ;;
  journal_line INFO SubscribingTo ;;
  (fix each (topics : list (string * Z)) : P NoneType :=
     match topics with
     | [] => pure tt
     | (topic, _) :: rest => journal_line INFO (TopicLine topic) ;; each rest
     end) TOPICS ;;
  journal_line INFO Rule.

Definition main (net : paho) (events : list event) : P status :=
  banner ;;
  database_ok <- in_subscriber init_database ;;
  if negb database_ok then
    journal_line ERROR CannotContinueWithoutDatabase ;; pure Exited
  else
    mqtt_ok <- init_mqtt net ;;
    if negb mqtt_ok then
      journal_line ERROR CannotContinueWithoutMQTT ;; pure Exited
    else
      journal_line INFO AllSystemsInitialized ;;
      journal_line INFO PressCtrlCToExit ;;
      serve events.

End Main.

(** ** The filters of the subscriptions *)

(** How a broker matches a topic against a filter without [#]: level by
    level, [+] standing for any one level. *)
Fixpoint levels_match (filter topic : list string) : bool :=
  match filter, topic with
  | [], [] => true
  | f :: filter', t :: topic' =>
      (String.eqb f "+" || String.eqb f t) && levels_match filter' topic'
  | _, _ => false
  end.

Definition topic_matches (filter topic : string) : bool :=
  levels_match (split "/" filter) (split "/" topic).

(** A topic of one of the subscriptions of [TOPICS]. *)
Definition subscribed_topic (topic : string) : bool :=
  existsb (fun f => topic_matches (fst f) topic) TOPICS.

End Process.

(* ===================================================================== *)
(** * Vocabulary of further statements *)
(* ===================================================================== *)

Module Runs.

Import Py Sqlite Subscriber Spec.
Local Open Scope string_scope.
Local Open Scope Z_scope.

(** Messages as paho hands them over, in order, each with the clocks read
    while it is handled. *)
Definition deliveries : Type := list (clocks * Paho.MQTTMessage).

(** [on_message] called on each of them. *)
Definition handle_all {engine : Engine} {library : Library}
    (ds : deliveries) (s : state) : state :=
  fold_left (fun s d => state_after (Paho.on_message (fst d) (snd d)) s) ds s.

(** Whether the topic bytes of a message decode, and how many messages of
    a list have such a topic. *)
Definition topic_decodes {library : Library} (msg : Paho.MQTTMessage) : bool :=
  match bytes_decode (Paho._topic msg) with
  | inr _ => true
  | inl _ => false
  end.

Fixpoint count_decoded {library : Library} (ds : deliveries) : nat :=
  match ds with
  | [] => O
  | d :: rest =>
      ((if topic_decodes (snd d) then 1 else 0) + count_decoded rest)%nat
  end.

(** The lines of [after] behind those of [before]. *)
Definition new_lines (before after : state) : list (level * log_line) :=
  skipn (length (log before)) (log after).

Fixpoint count_slashes (s : string) : nat :=
  match s with
  | EmptyString => O
  | String c rest =>
      if Ascii.eqb c "/" then S (count_slashes rest) else count_slashes rest
  end.

(** A cell that holds a finite double. *)
Definition finite_real (c : cell) : bool :=
  match c with
  | CReal (Finite _) => true
  | _ => false
  end.

(** The count of a row of the summary. *)
Definition summary_count (x : summary_row) : Z :=
  let '(_, _, count, _, _, _) := x in count.

(** The rowids of the stored rows, in table order. *)
Definition rowids (s : state) : list Z := map id (stored_rows s).

(** A state with one more log line, with the message counted, with another
    file. *)
Definition logged (s : state) (l : level) (x : log_line) : state :=
  {| db_connection := db_connection s;
     messages_received := messages_received s;
     db_file := db_file s;
     log := log s ++ [(l, x)] |}.

Definition filed (s : state) (db : database) : state :=
  {| db_connection := db_connection s;
     messages_received := messages_received s;
     db_file := db;
     log := log s |}.

(** The table with one more row. *)
Definition grown (db : database) (t : table) (r : row) : database :=
  {| sensor_readings := Some {| rows := rows t ++ [r]; seq := id r |};
     idx_timestamp := idx_timestamp db;
     idx_sensor_name := idx_sensor_name db |}.

(** A process with more lines in its journal. *)
Definition journaled (p : Process.process)
    (lines : list (level * Process.line)) : Process.process :=
  {| Process.mqtt_client := Process.mqtt_client p;
     Process.db_connection := Process.db_connection p;
     Process.messages_received := Process.messages_received p;
     Process.db_file := Process.db_file p;
     Process.db_closed := Process.db_closed p;
     Process.journal := Process.journal p ++ lines |}.

(** A process with another client. *)
Definition with_client (p : Process.process) (c : Process.client)
  : Process.process :=
  {| Process.mqtt_client := Some c;
     Process.db_connection := Process.db_connection p;
     Process.messages_received := Process.messages_received p;
     Process.db_file := Process.db_file p;
     Process.db_closed := Process.db_closed p;
     Process.journal := Process.journal p |}.

(** The client as [mqtt.Client(...)] makes it, and as it is after
    [connect] and [loop_start]. *)
Definition new_client : Process.client :=
  {| Process.connected := false;
     Process.loop_running := false;
     Process.requests := [] |}.

Definition looping_client : Process.client :=
  {| Process.connected := true;
     Process.loop_running := true;
     Process.requests := [] |}.

(** A process after [init_database]: the connection open, the file as the
    call left it, one line logged. *)
Definition opened (p : Process.process) (db : database) : Process.process :=
  {| Process.mqtt_client := Process.mqtt_client p;
     Process.db_connection := Some Connection;
     Process.messages_received := Process.messages_received p;
     Process.db_file := db;
     Process.db_closed := Process.db_closed p;
     Process.journal
     := Process.journal p ++ [(INFO, Process.Handler DatabaseInitialized)] |}.

(** The lines of the banner. *)
Definition banner_lines : list (level * Process.line) :=
  [(INFO, Process.Rule); (INFO, Process.Title); (INFO, Process.Rule);
   (INFO, Process.BrokerLine); (INFO, Process.DatabaseLine);
   (INFO, Process.SubscribingTo)]
  ++ map (fun t => (INFO, Process.TopicLine (fst t))) Process.TOPICS
  ++ [(INFO, Process.Rule)].

(** A process that has counted one more message. *)
Definition received (p : Process.process) : Process.process :=
  {| Process.mqtt_client := Process.mqtt_client p;
     Process.db_connection := Process.db_connection p;
     Process.messages_received := Process.messages_received p + 1;
     Process.db_file := Process.db_file p;
     Process.db_closed := Process.db_closed p;
     Process.journal := Process.journal p |}.

(** The events that are calls of a callback, and the messages among
    events. *)
Definition is_callback (e : Process.event) : bool :=
  match e with
  | Process.Message _ _ | Process.Connack _ _ | Process.Disconnect _ => true
  | Process.Minute | Process.CtrlC => false
  end.

Fixpoint count_messages (events : list Process.event) : nat :=
  match events with
  | [] => O
  | Process.Message _ _ :: rest => S (count_messages rest)
  | _ :: rest => count_messages rest
  end.

(** The journal line of a subscription, by the result of the request. *)
Definition subscription_line (results : string -> Z) (request : string * Z)
  : level * Process.line :=
  if results (fst request) =? Process.MQTT_ERR_SUCCESS
  then (INFO, Process.SubscribedTo (fst request))
  else (WARNING, Process.FailedToSubscribeTo (fst request)).

(** The lines of [cleanup] when there is a client and a connection. *)
Definition shutdown_lines (total : Z) : list (level * Process.line) :=
  [(INFO, Process.CleaningUp);
   (INFO, Process.MQTTClientDisconnected);
   (INFO, Process.DatabaseClosed total);
   (INFO, Process.ShutdownComplete)].

(** The client after [loop_stop()] and [disconnect()]. *)
Definition stopped (c : Process.client) : Process.client :=
  {| Process.connected := false;
     Process.loop_running := false;
     Process.requests := Process.requests c |}.

(** The process after [cleanup]: the client stopped, the connection
    closed, more lines in the journal. *)
Definition closed_down (p : Process.process) (c : Process.client)
    (lines : list (level * Process.line)) : Process.process :=
  {| Process.mqtt_client := Some (stopped c);
     Process.db_connection := Process.db_connection p;
     Process.messages_received := Process.messages_received p;
     Process.db_file := Process.db_file p;
     Process.db_closed := true;
     Process.journal := Process.journal p ++ lines |}.

(** The rows in the file of a process. *)
Definition process_rows (p : Process.process) : list row :=
  stored_rows (Process.globals p).

(** ** Inputs of further examples *)

(** [{"value": "abc"}] *)
Definition payload_text_value : string :=
  "{" ++ quoted "value" ++ ": " ++ quoted "abc" ++ "}".

(** [{"value": 100000000000000000000}] *)
Definition payload_huge_value : string :=
  "{" ++ quoted "value" ++ ": 100000000000000000000}".

(** [json.loads] on the two payloads above and on those of
    [strict_loads]. *)
Definition further_loads (text : string) : exception + pyval :=
  if String.eqb text payload_text_value then
    inr (PyDict [("value", PyStr "abc")])
  else if String.eqb text payload_huge_value then
    inr (PyDict [("value", PyInt 100000000000000000000)])
  else strict_loads text.

Definition further_library : Library :=
  {| bytes_decode := bytes_decode (Library := strict_library);
     json_loads := further_loads |}.

(** One message of these examples, as paho hands it over. *)
Definition delivery (topic payload : string) : clocks * Paho.MQTTMessage :=
  (example_clocks, {| Paho._topic := topic; Paho.payload := payload |}).

(** Three messages: a well-formed one, one on a topic of two pieces, and a
    second well-formed one. *)
Definition three_deliveries : deliveries :=
  [delivery "sensors/deskA/temperature" payload_full;
   delivery "bad/topic" payload_full;
   delivery "sensors/deskA/temperature" payload_later].

(** The message with [payload_full], and the one with a text as value. *)
Definition full_message : Paho.MQTTMessage :=
  {| Paho._topic := "sensors/deskA/temperature";
     Paho.payload := payload_full |}.

Definition text_message : Paho.MQTTMessage :=
  {| Paho._topic := "sensors/deskA/temperature";
     Paho.payload := payload_text_value |}.

Definition deliver_further (topic payload : string) (s : state) : state :=
  state_after
    (@Paho.on_message example_engine further_library example_clocks
       {| Paho._topic := topic; Paho.payload := payload |}) s.

(** A network on which the client is made and connects, and one on which
    the connection is refused. *)
Definition network_up : Process.paho :=
  {| Process.new_client := inr tt; Process.connect := inr tt |}.

Definition network_down : Process.paho :=
  {| Process.new_client := inr tt; Process.connect := inl OSError |}.

(** The process in its loop: [main] on a new file with the network up and
    no event yet. *)
Definition serving : Process.process :=
  snd (@Process.main example_engine further_library network_up []
         (Process.boot empty_database)).

Definition message (topic payload : string) : Process.event :=
  Process.Message example_clocks
    {| Paho._topic := topic; Paho.payload := payload |}.

(** A broker that grants every subscription. *)
Definition every_request_granted : string -> Z := fun _ => 0.

(** The process after the two readings of the scenario, and after a
    message with a text as value. *)
Definition after_two_readings : Process.process :=
  snd (@Process.main example_engine further_library network_up
         [message "sensors/deskA/temperature" payload_full;
          message "sensors/deskA/temperature" payload_later]
         (Process.boot empty_database)).

Definition after_a_text_value : Process.process :=
  snd (@Process.main example_engine further_library network_up
         [Process.Message example_clocks text_message]
         (Process.boot empty_database)).

(** A well-formed message, the acknowledgement of the connection and a
    message on a topic of two pieces. *)
Definition three_callbacks : list Process.event :=
  [message "sensors/deskA/temperature" payload_full;
   Process.Connack 0 every_request_granted;
   message "bad/topic" payload_full].

(** A message whose topic bytes are not UTF-8. *)
Definition hostile_message : Paho.MQTTMessage :=
  {| Paho._topic := topic_not_utf8; Paho.payload := payload_full |}.

End Runs.

Unset Implicit Arguments.

(* ===================================================================== *)
(** * Facts about rounding to a double *)
(* ===================================================================== *)

Module Doubles.

Import Py.
Local Open Scope Z_scope.

Lemma iter_pos_invariant (A : Type) (P : A -> Prop) (f : A -> A) :
  (forall x, P x -> P (f x)) ->
  forall n x, P x -> P (iter_pos f n x).
Proof.
  intros Hf. induction n as [n IH|n IH|]; intros x Hx; simpl; auto.
Qed.

Lemma shr_1_nonneg (mrs : shr_record) :
  0 <= shr_m mrs -> 0 <= shr_m (shr_1 mrs).
Proof.
  destruct mrs as [m r s]. simpl. destruct m as [|[p|p|]|p]; simpl; lia.
Qed.

Lemma shr_nonneg (mrs : shr_record) (e n : Z) :
  0 <= shr_m mrs -> 0 <= shr_m (fst (shr mrs e n)).
Proof.
  intros H. destruct n as [|p|p]; simpl; try exact H.
  apply iter_pos_invariant; [apply shr_1_nonneg|exact H].
Qed.

Lemma shr_fexp_nonneg (m e : Z) (l : location) :
  0 <= m -> 0 <= shr_m (fst (shr_fexp prec emax m e l)).
Proof.
  intros H. unfold shr_fexp. apply shr_nonneg.
  destruct l as [|[]]; exact H.
Qed.

Lemma binary_round_aux_not_nan (sx : bool) (mx ex : Z) (lx : location) :
  0 <= mx -> binary_round_aux prec emax sx mx ex lx <> S754_nan.
Proof.
  intros H. unfold binary_round_aux.
  pose proof (shr_fexp_nonneg mx ex lx H) as H1.
  destruct (shr_fexp prec emax mx ex lx) as [mrs' e']. simpl in H1.
  assert (H2 : 0 <= round_nearest_even (shr_m mrs') (loc_of_shr_record mrs')).
  { unfold round_nearest_even.
    destruct (loc_of_shr_record mrs') as [|[]]; try assumption;
      [destruct (Z.even (shr_m mrs'))|]; lia. }
  pose proof (shr_fexp_nonneg _ e' loc_Exact H2) as H3.
  destruct (shr_fexp prec emax _ e' loc_Exact) as [mrs'' e'']. simpl in H3.
  destruct (shr_m mrs'') as [|m|m]; try discriminate; [|lia].
  destruct (e'' <=? emax - prec); discriminate.
Qed.

Lemma SFdiv_core_binary_nonneg (m1 m2 : positive) (e1 e2 : Z) :
  0 <= fst (fst (SFdiv_core_binary prec emax (Zpos m1) e1 (Zpos m2) e2)).
Proof.
  unfold SFdiv_core_binary.
  set (s := _ - _ - _).
  set (m' := match s with Zpos _ => _ | Z0 => _ | Zneg _ => _ end).
  assert (Hm : 0 <= m').
  { unfold m'. destruct s; try lia. apply Z.shiftl_nonneg. lia. }
  pose proof (Z.div_eucl_eq m' (Zpos m2) ltac:(lia)) as E.
  pose proof (Z.mod_pos_bound m' (Zpos m2) ltac:(lia)) as B.
  unfold Z.modulo in B.
  destruct (Z.div_eucl m' (Zpos m2)) as [q r]. simpl. nia.
Qed.

(** The rounding of a rational is a number, never nan. *)
Lemma double_nearest (q : Q) : double q = Num (nearest q).
Proof.
  unfold nearest. destruct (double q) as [r|] eqn:E; [reflexivity|].
  exfalso. unfold double in E. destruct q as [n d].
  unfold Qnum, Qden, spec_of_Z, SFdiv in E.
  destruct n as [|m|m]; try discriminate;
    pose proof (SFdiv_core_binary_nonneg m d 0 0) as H;
    destruct (SFdiv_core_binary prec emax (Zpos m) 0 (Zpos d) 0)
      as [[mz ez] lz];
    simpl in H;
    match type of E with
    | float_of_spec (binary_round_aux _ _ ?sx _ _ _) = _ =>
        pose proof (binary_round_aux_not_nan sx mz ez lz H) as N;
        destruct (binary_round_aux prec emax sx mz ez lz)
    end;
    try discriminate; congruence.
Qed.

(** A double is its own rounding, and a rational in between goes to the
    nearer one: 21.5 and 22.25 are doubles, a tenth is not. *)
Example double_of_21_5 : nearest (43 # 2) = Finite (43 # 2).
Proof. vm_compute. reflexivity. Qed.

Example double_of_22_25 : nearest (89 # 4) = Finite (89 # 4).
Proof. vm_compute. reflexivity. Qed.

Example double_of_a_tenth :
  nearest (1 # 10) = Finite (3602879701896397 # 36028797018963968).
Proof. vm_compute. reflexivity. Qed.

(** Integers beyond 53 bits: 2^53 + 1 lies between two doubles and goes to
    the even one, 2^53; the largest integer of 64 bits goes to 2^63. *)
Example double_of_2_53_plus_1 :
  nearest (inject_Z (2 ^ 53 + 1)) = Finite (inject_Z (2 ^ 53)).
Proof. vm_compute. reflexivity. Qed.

Example double_of_2_53_plus_3 :
  nearest (inject_Z (2 ^ 53 + 3)) = Finite (inject_Z (2 ^ 53 + 4)).
Proof. vm_compute. reflexivity. Qed.

Example double_of_int64_max :
  nearest (inject_Z (2 ^ 63 - 1)) = Finite (inject_Z (2 ^ 63)).
Proof. vm_compute. reflexivity. Qed.

(** Beyond the largest double, and below the smallest. *)
Example double_of_1e309 : nearest (inject_Z (10 ^ 309)) = Infinity false.
Proof. vm_compute. reflexivity. Qed.

Example double_of_1e_minus_400 : nearest (1 # 10 ^ 400) = Finite 0.
Proof. vm_compute. reflexivity. Qed.

End Doubles.

(* ===================================================================== *)
(** * Facts about the order of cells *)
(* ===================================================================== *)

Module Order.

Import Py Sqlite Spec.

Lemma ascii_compare_N (a b : ascii) :
  Ascii.compare a b = N.compare (N_of_ascii a) (N_of_ascii b).
Proof. reflexivity. Qed.

Lemma string_compare_refl (s : string) : String.compare s s = Eq.
Proof.
  induction s as [|c s IH]; simpl; [reflexivity|].
  rewrite ascii_compare_N, N.compare_refl. exact IH.
Qed.

Lemma string_compare_le_trans (s : string) : forall t u,
  String.compare s t <> Gt -> String.compare t u <> Gt ->
  String.compare s u <> Gt.
Proof.
  induction s as [|a s IH]; intros [|b t] [|c u]; simpl; try congruence.
  rewrite !ascii_compare_N.
  destruct (N.compare_spec (N_of_ascii a) (N_of_ascii b));
    destruct (N.compare_spec (N_of_ascii b) (N_of_ascii c));
    destruct (N.compare_spec (N_of_ascii a) (N_of_ascii c));
    try congruence; try lia; intros; eauto.
Qed.

Lemma string_eqb_compare (s t : string) :
  String.eqb s t = true <-> String.compare s t = Eq.
Proof.
  split; intros H.
  - apply String.eqb_eq in H. subst. apply string_compare_refl.
  - apply String.compare_eq_iff in H. subst. apply String.eqb_refl.
Qed.

Lemma string_leb_total (s t : string) :
  string_leb s t = false -> string_leb t s = true.
Proof.
  unfold string_leb. rewrite (String.compare_antisym t s).
  destruct (String.compare s t); simpl; congruence.
Qed.

Lemma real_compare_antisym (a b : real) :
  real_compare a b = CompOpp (real_compare b a).
Proof.
  destruct a as [p|[|]], b as [q|[|]]; simpl; try reflexivity.
  symmetry. apply Qcompare_antisym.
Qed.

Lemma real_compare_le_trans (a b c : real) :
  real_compare a b <> Gt -> real_compare b c <> Gt -> real_compare a c <> Gt.
Proof.
  destruct a as [p|[|]], b as [q|[|]], c as [r|[|]]; simpl;
    try congruence.
  rewrite <- !Qle_alt. apply Qle_trans.
Qed.

Lemma Qcompare_inject_Z (m n : Z) :
  Qcompare (inject_Z m) (inject_Z n) = Z.compare m n.
Proof. unfold Qcompare. simpl. rewrite !Z.mul_1_r. reflexivity. Qed.

Lemma cell_compare_numbers (a b : cell) :
  is_text a = false -> is_text b = false ->
  cell_compare a b = real_compare (number_of a) (number_of b).
Proof.
  destruct a, b; simpl; try discriminate; intros _ _; try reflexivity.
  symmetry. apply Qcompare_inject_Z.
Qed.

Lemma cell_compare_antisym (a b : cell) :
  cell_compare a b = CompOpp (cell_compare b a).
Proof.
  destruct a as [m|r|s], b as [n|r'|s']; try reflexivity.
  - apply Z.compare_antisym.
  - apply (real_compare_antisym (Finite (inject_Z m)) r').
  - apply (real_compare_antisym r (Finite (inject_Z n))).
  - apply (real_compare_antisym r r').
  - apply String.compare_antisym.
Qed.

Lemma cell_compare_le_trans (a b c : cell) :
  cell_compare a b <> Gt -> cell_compare b c <> Gt -> cell_compare a c <> Gt.
Proof.
  destruct (is_text a) eqn:Ta, (is_text b) eqn:Tb, (is_text c) eqn:Tc;
    try (destruct a, b, c; simpl in *; congruence).
  - destruct a, b, c; try discriminate. simpl.
    apply string_compare_le_trans.
  - rewrite !cell_compare_numbers by assumption.
    apply real_compare_le_trans.
Qed.

(** On finite numbers the order of cells is the order of the numbers. *)
Lemma cell_leb_finite (a b : cell) (p q : Q) :
  finite_number a = Some p -> finite_number b = Some q ->
  (cell_leb a b = true <-> (p <= q)%Q).
Proof.
  intros Ha Hb. unfold cell_leb.
  rewrite cell_compare_numbers
    by (destruct a as [|[|]|], b as [|[|]|]; simpl in *; congruence).
  assert (Hn : real_compare (number_of a) (number_of b) = Qcompare p q).
  { destruct a as [m|[x|]|], b as [n|[y|]|]; simpl in *;
      inversion Ha; inversion Hb; reflexivity. }
  rewrite Hn, Qle_alt. destruct (Qcompare p q); split; congruence.
Qed.

Lemma cell_leb_iff (a b : cell) :
  cell_leb a b = true <-> cell_compare a b <> Gt.
Proof. unfold cell_leb. destruct (cell_compare a b); split; congruence. Qed.

Lemma cell_leb_refl (a : cell) : cell_leb a a = true.
Proof.
  apply cell_leb_iff. pose proof (cell_compare_antisym a a) as H.
  destruct (cell_compare a a); simpl in H; congruence.
Qed.

Lemma cell_leb_trans (a b c : cell) :
  cell_leb a b = true -> cell_leb b c = true -> cell_leb a c = true.
Proof. rewrite !cell_leb_iff. apply cell_compare_le_trans. Qed.

Lemma cell_leb_total (a b : cell) :
  cell_leb a b = false -> cell_leb b a = true.
Proof.
  unfold cell_leb. rewrite (cell_compare_antisym b a).
  destruct (cell_compare a b); simpl; congruence.
Qed.

Lemma cell_eqb_leb (a b : cell) :
  cell_eqb a b = true <-> cell_leb a b = true /\ cell_leb b a = true.
Proof.
  unfold cell_eqb, cell_leb. rewrite (cell_compare_antisym b a).
  destruct (cell_compare a b); simpl; intuition congruence.
Qed.

Lemma cell_eqb_refl (a : cell) : cell_eqb a a = true.
Proof. apply cell_eqb_leb. split; apply cell_leb_refl. Qed.

Lemma cell_eqb_sym (a b : cell) : cell_eqb a b = cell_eqb b a.
Proof.
  unfold cell_eqb. rewrite (cell_compare_antisym b a).
  destruct (cell_compare a b); reflexivity.
Qed.

Lemma cell_eqb_trans (a b c : cell) :
  cell_eqb a b = true -> cell_eqb b c = true -> cell_eqb a c = true.
Proof.
  rewrite !cell_eqb_leb. intros [H1 H2] [H3 H4].
  split; eapply cell_leb_trans; eassumption.
Qed.

(** The order of [ORDER BY sensor_name, sensor_type] is total. *)
Lemma name_type_leb_total (a b : string * string) :
  name_type_leb a b = false -> name_type_leb b a = true.
Proof.
  unfold name_type_leb. rewrite (String.compare_antisym (fst b) (fst a)).
  destruct (String.compare (fst a) (fst b)); simpl; try congruence.
  apply string_leb_total.
Qed.

Lemma name_type_eqb_eq (a b : string * string) :
  name_type_eqb a b = true <-> a = b.
Proof.
  unfold name_type_eqb. destruct a, b; simpl.
  rewrite andb_true_iff, !String.eqb_eq. split.
  - intros [-> ->]. reflexivity.
  - intros H. inversion H. auto.
Qed.

End Order.

(* ===================================================================== *)
(** * Facts about GROUP BY, DISTINCT and ORDER BY *)
(* ===================================================================== *)

Module Relational.

Import Sqlite.

Section OrderBy.
Variable A : Type.
Variable leb : A -> A -> bool.
Hypothesis leb_total : forall x y, leb x y = false -> leb y x = true.

Let le (x y : A) : Prop := leb x y = true.

Lemma insert_by_perm (x : A) (l : list A) :
  Permutation (x :: l) (insert_by leb x l).
Proof.
  induction l as [|y l IH]; simpl; [reflexivity|].
  destruct (leb x y); [reflexivity|].
  rewrite perm_swap. apply perm_skip. exact IH.
Qed.

Lemma order_by_perm (l : list A) : Permutation l (order_by leb l).
Proof.
  induction l as [|x l IH]; simpl; [constructor|].
  rewrite <- insert_by_perm. apply perm_skip. exact IH.
Qed.

Lemma order_by_In (l : list A) (x : A) : In x (order_by leb l) <-> In x l.
Proof.
  split; apply Permutation_in;
    [symmetry|]; apply order_by_perm.
Qed.

Lemma insert_by_hd (x y : A) (l : list A) :
  le y x -> HdRel le y l -> HdRel le y (insert_by leb x l).
Proof.
  intros Hyx H. destruct l as [|z l]; simpl.
  - constructor. exact Hyx.
  - inversion H; subst. destruct (leb x z); constructor; assumption.
Qed.

Lemma insert_by_sorted (x : A) (l : list A) :
  Sorted le l -> Sorted le (insert_by leb x l).
Proof.
  induction l as [|y l IH]; simpl; intros H.
  - repeat constructor.
  - inversion H; subst. destruct (leb x y) eqn:E.
    + constructor; [assumption|]. constructor. exact E.
    + constructor; [apply IH; assumption|].
      apply insert_by_hd; [|assumption]. apply leb_total. exact E.
Qed.

Lemma order_by_sorted (l : list A) : Sorted le (order_by leb l).
Proof.
  induction l as [|x l IH]; simpl; [constructor|].
  apply insert_by_sorted. exact IH.
Qed.

End OrderBy.

Section Distinct.
Variable A : Type.
Variable same : A -> A -> bool.

Lemma distinct_In (l : list A) (x : A) : In x (distinct same l) -> In x l.
Proof.
  revert x. induction l as [|y l IH]; simpl; intros x H; [exact H|].
  destruct H as [H|H]; [left; exact H|].
  apply filter_In in H. right. apply IH. apply H.
Qed.

(** Every row has an equal row in the result. *)
Lemma distinct_complete (l : list A) (x : A) :
  (forall a, same a a = true) ->
  (forall a b c, same a b = true -> same b c = true -> same a c = true) ->
  In x l -> exists y, In y (distinct same l) /\ same y x = true.
Proof.
  intros Hrefl Htrans.
  induction l as [|z l IH]; simpl; intros H; [contradiction|].
  destruct H as [->|H].
  - exists x. split; [left; reflexivity|apply Hrefl].
  - destruct (IH H) as [y [Hy Hs]].
    destruct (same z y) eqn:E.
    + exists z. split; [left; reflexivity|]. eapply Htrans; eassumption.
    + exists y. split; [|exact Hs]. right. apply filter_In.
      split; [exact Hy|]. rewrite E. reflexivity.
Qed.

Lemma ForallOrdPairs_filter (R : A -> A -> Prop) (f : A -> bool) (l : list A) :
  ForallOrdPairs R l -> ForallOrdPairs R (filter f l).
Proof.
  induction 1 as [|x l Hx Hl IH]; simpl; [constructor|].
  destruct (f x); [|exact IH].
  constructor; [|exact IH].
  apply Forall_forall. intros y Hy. apply filter_In in Hy.
  rewrite Forall_forall in Hx. apply Hx. apply Hy.
Qed.

(** No row of the result equals a later one. *)
Lemma distinct_pairwise (l : list A) :
  ForallOrdPairs (fun x y => same x y = false) (distinct same l).
Proof.
  induction l as [|x l IH]; simpl; constructor.
  - apply Forall_forall. intros y Hy. apply filter_In in Hy.
    destruct Hy as [_ Hy]. destruct (same x y); [discriminate|reflexivity].
  - apply ForallOrdPairs_filter. exact IH.
Qed.

End Distinct.

Section GroupBy.
Variables (A K : Type).
Variable key : A -> K.
Variable key_eqb : K -> K -> bool.
Hypothesis key_eqb_eq : forall a b, key_eqb a b = true <-> a = b.

Let keys (gs : list (K * list A)) : list K := map fst gs.
Let of_key (k : K) (r : A) : bool := key_eqb (key r) k.

Lemma key_eqb_refl (k : K) : key_eqb k k = true.
Proof. apply key_eqb_eq. reflexivity. Qed.

Lemma key_eqb_neq (a b : K) : a <> b -> key_eqb a b = false.
Proof.
  intros H. destruct (key_eqb a b) eqn:E; [|reflexivity].
  apply key_eqb_eq in E. contradiction.
Qed.

Lemma add_to_group_keys (r : A) (gs : list (K * list A)) (k : K) :
  In k (keys (add_to_group key key_eqb r gs)) <-> In k (keys gs) \/ k = key r.
Proof.
  unfold keys. induction gs as [|[k0 m0] gs IH]; simpl.
  - intuition.
  - destruct (key_eqb (key r) k0) eqn:E; simpl.
    + apply key_eqb_eq in E. subst k0. intuition.
    + rewrite IH. intuition.
Qed.

Lemma add_to_group_NoDup (r : A) (gs : list (K * list A)) :
  NoDup (keys gs) -> NoDup (keys (add_to_group key key_eqb r gs)).
Proof.
  unfold keys. induction gs as [|[k0 m0] gs IH]; simpl; intros H.
  - repeat constructor. intros [].
  - inversion H; subst. destruct (key_eqb (key r) k0) eqn:E; simpl.
    + constructor; assumption.
    + constructor; [|apply IH; assumption].
      intros Hin. apply add_to_group_keys in Hin. destruct Hin as [Hin| ->].
      * contradiction.
      * rewrite key_eqb_refl in E. discriminate.
Qed.

Lemma add_to_group_In (r : A) (gs : list (K * list A)) (k : K) (g : list A) :
  NoDup (keys gs) ->
  In (k, g) (add_to_group key key_eqb r gs) ->
  (exists g', In (k, g') gs /\ g = if of_key k r then g' ++ [r] else g')
  \/ (~ In (key r) (keys gs) /\ k = key r /\ g = [r]).
Proof.
  unfold keys, of_key. induction gs as [|[k0 m0] gs IH]; simpl; intros Hnd H.
  - destruct H as [H|[]]. inversion H; subst. right. intuition.
  - inversion Hnd as [|? ? Hk0 Hnd']; subst.
    destruct (key_eqb (key r) k0) eqn:E.
    + destruct H as [H|H].
      * inversion H; subst. left. exists m0. rewrite E. auto.
      * left. exists g. split; [right; exact H|].
        rewrite key_eqb_neq; [reflexivity|].
        apply key_eqb_eq in E. subst k0. intros Heq.
        apply Hk0. rewrite Heq. apply (in_map fst _ _ H).
    + destruct H as [H|H].
      * inversion H; subst. left. exists g. rewrite E. auto.
      * destruct (IH Hnd' H) as [[g' [Hin Hg]]|[Hnin [-> ->]]].
        -- left. exists g'. auto.
        -- right. repeat split; try reflexivity.
           intros [Heq|Hin]; [|contradiction].
           subst k0. rewrite key_eqb_refl in E. discriminate.
Qed.

Lemma group_by_snoc (rs : list A) (r : A) :
  group_by key key_eqb (rs ++ [r])
  = add_to_group key key_eqb r (group_by key key_eqb rs).
Proof. unfold group_by. rewrite fold_left_app. reflexivity. Qed.

Lemma filter_none (f : A -> bool) (l : list A) :
  (forall x, In x l -> f x = false) -> filter f l = [].
Proof.
  induction l as [|x l IH]; simpl; intros H; [reflexivity|].
  rewrite (H x) by (left; reflexivity). apply IH. intros y Hy.
  apply H. right. exact Hy.
Qed.

(** GROUP BY: the keys are those of the rows, each once, and the group of a
    key holds the rows with that key, in table order. *)
Lemma group_by_spec (rs : list A) :
  NoDup (keys (group_by key key_eqb rs))
  /\ (forall k, In k (keys (group_by key key_eqb rs))
                <-> exists r, In r rs /\ key r = k)
  /\ (forall k g, In (k, g) (group_by key key_eqb rs) ->
                  g = filter (of_key k) rs /\ g <> []).
Proof.
  induction rs as [|r rs IH] using rev_ind.
  - split; [constructor|]. split.
    + intros k. simpl. split; [intros []|intros [r [[] _]]].
    + intros k g Hin. destruct Hin.
  - destruct IH as [Hnd [Hkeys Hgroups]].
    rewrite group_by_snoc. split; [apply add_to_group_NoDup; exact Hnd|].
    split.
    + intros k. rewrite add_to_group_keys, Hkeys. split.
      * intros [[x [Hx Hk]]| ->].
        -- exists x. split; [apply in_or_app; left; exact Hx|exact Hk].
        -- exists r. split; [apply in_or_app; right; left|]; reflexivity.
      * intros [x [Hx Hk]]. apply in_app_or in Hx.
        destruct Hx as [Hx|[->|[]]]; [left; exists x; auto|right; auto].
    + intros k g Hin. apply add_to_group_In in Hin; [|exact Hnd].
      rewrite filter_app. simpl.
      destruct Hin as [[g' [Hin ->]]|[Hnin [-> ->]]].
      * destruct (Hgroups k g' Hin) as [-> Hne].
        destruct (of_key k r); [|rewrite app_nil_r; auto].
        split; [reflexivity|]. intros H. apply app_eq_nil in H.
        destruct H as [_ H]. discriminate.
      * unfold of_key at 2. rewrite key_eqb_refl.
        rewrite filter_none; [split; [reflexivity|discriminate]|].
        intros x Hx. unfold of_key. apply key_eqb_neq. intros Hk.
        apply Hnin. apply Hkeys. exists x. auto.
Qed.

End GroupBy.

Section Aggregates.
Import Order.

Lemma max_fold (cs : list cell) : forall a,
  exists m, fold_left max_step cs (Some a) = Some m
            /\ (m = a \/ In m cs)
            /\ cell_leb a m = true
            /\ (forall c, In c cs -> cell_leb c m = true).
Proof.
  induction cs as [|c cs IH]; intros a; simpl.
  - exists a. split; [reflexivity|]. split; [left; reflexivity|].
    split; [apply cell_leb_refl|]. intros c [].
  - destruct (cell_leb c a) eqn:E.
    + destruct (IH a) as [m [Hf [Hin [Ha Hall]]]].
      exists m. split; [exact Hf|]. split; [tauto|]. split; [exact Ha|].
      intros x [<-|Hx]; [eapply cell_leb_trans; eassumption|auto].
    + destruct (IH c) as [m [Hf [Hin [Hc Hall]]]].
      exists m. split; [exact Hf|].
      split; [right; destruct Hin; [left; congruence|right; assumption]|].
      split.
      * eapply cell_leb_trans; [|exact Hc]. apply cell_leb_total. exact E.
      * intros x [<-|Hx]; auto.
Qed.

Lemma min_fold (cs : list cell) : forall a,
  exists m, fold_left min_step cs (Some a) = Some m
            /\ (m = a \/ In m cs)
            /\ cell_leb m a = true
            /\ (forall c, In c cs -> cell_leb m c = true).
Proof.
  induction cs as [|c cs IH]; intros a; simpl.
  - exists a. split; [reflexivity|]. split; [left; reflexivity|].
    split; [apply cell_leb_refl|]. intros c [].
  - destruct (cell_leb a c) eqn:E.
    + destruct (IH a) as [m [Hf [Hin [Ha Hall]]]].
      exists m. split; [exact Hf|]. split; [tauto|]. split; [exact Ha|].
      intros x [<-|Hx]; [eapply cell_leb_trans; eassumption|auto].
    + destruct (IH c) as [m [Hf [Hin [Hc Hall]]]].
      exists m. split; [exact Hf|].
      split; [right; destruct Hin; [left; congruence|right; assumption]|].
      split.
      * eapply cell_leb_trans; [exact Hc|]. apply cell_leb_total. exact E.
      * intros x [<-|Hx]; auto.
Qed.

(** [MAX] of a group that is not empty: one of its cells, and no cell is
    above it. *)
Lemma sql_max_spec (cs : list cell) :
  cs <> [] ->
  exists m, sql_max cs = Some m /\ In m cs
            /\ forall c, In c cs -> cell_leb c m = true.
Proof.
  destruct cs as [|a cs]; [congruence|]. intros _. unfold sql_max. simpl.
  destruct (max_fold cs a) as [m [Hf [Hin [Ha Hall]]]].
  exists m. split; [exact Hf|]. split; [simpl; intuition|].
  intros c [<-|Hc]; auto.
Qed.

Lemma sql_min_spec (cs : list cell) :
  cs <> [] ->
  exists m, sql_min cs = Some m /\ In m cs
            /\ forall c, In c cs -> cell_leb m c = true.
Proof.
  destruct cs as [|a cs]; [congruence|]. intros _. unfold sql_min. simpl.
  destruct (min_fold cs a) as [m [Hf [Hin [Ha Hall]]]].
  exists m. split; [exact Hf|]. split; [simpl; intuition|].
  intros c [<-|Hc]; auto.
Qed.

End Aggregates.

End Relational.

(* ===================================================================== *)
(** * Facts about the message handler *)
(* ===================================================================== *)

Module Handler.

Import Py Sqlite Subscriber Spec.
Local Open Scope string_scope.
Local Open Scope Z_scope.

Section Handler.
Context {engine : Engine} {library : Library}.

Ltac run_parse :=
  unfold parse_message, bind, call, ret, raise, logger; simpl.

Lemma parse_message_stateless
    (clk : clocks) (msg : MQTTMessage) (s1 s2 : state) :
  fst (parse_message clk msg s1) = fst (parse_message clk msg s2).
Proof.
  run_parse.
  destruct (Nat.eqb (length (split "/" (topic msg))) 3); simpl; [|reflexivity].
  destruct (bytes_decode (payload msg)) as [e|text]; simpl; [reflexivity|].
  destruct (json_loads text) as [e|[| | | | | |items]]; simpl; try reflexivity.
  destruct (lookup "value" items) as [[]|]; reflexivity.
Qed.

Lemma parse_message_frame (clk : clocks) (msg : MQTTMessage) (s : state) :
  db_connection (snd (parse_message clk msg s)) = db_connection s
  /\ messages_received (snd (parse_message clk msg s)) = messages_received s
  /\ db_file (snd (parse_message clk msg s)) = db_file s.
Proof.
  run_parse.
  destruct (Nat.eqb (length (split "/" (topic msg))) 3); simpl; [|auto].
  destruct (bytes_decode (payload msg)) as [e|text]; simpl; [auto|].
  destruct (json_loads text) as [e|[| | | | | |items]]; simpl; auto.
  destruct (lookup "value" items) as [[]|]; simpl; auto.
Qed.

Lemma parse_message_raises (clk : clocks) (msg : MQTTMessage) (s : state) e :
  fst (parse_message clk msg s) = Raise e -> is_Exception e = true.
Proof.
  run_parse.
  destruct (Nat.eqb (length (split "/" (topic msg))) 3); simpl; [|discriminate].
  destruct (bytes_decode (payload msg)) as [e'|text]; simpl;
    [intros H; inversion H; reflexivity|].
  destruct (json_loads text) as [e'|[| | | | | |items]]; simpl;
    try (intros H; inversion H; reflexivity).
  destruct (lookup "value" items) as [[]|]; simpl; discriminate.
Qed.

Lemma store_reading_run
    (clk : clocks) (n t : string) (v u ts : pyval) (s : state) :
  let r := store_reading clk n t v u ts s in
  db_connection (snd r) = db_connection s
  /\ messages_received (snd r) = messages_received s
  /\ match db_connection s with
     | None => fst r = Return false /\ db_file (snd r) = db_file s
     | Some _ =>
         match insert_reading (current_timestamp clk) (PyStr n) (PyStr t)
                 v u ts (db_file s) with
         | inr db' => fst r = Return true /\ db_file (snd r) = db'
         | inl (SqliteError e) =>
             fst r = Return false /\ db_file (snd r) = db_file s
         | inl e =>
             fst r = Raise (Exception e) /\ db_file (snd r) = db_file s
         end
     end.
Proof.
  unfold store_reading, commit, bind, read_state, try_except, execute, bind,
    call, read_state, ret, raise, set_db_file, logger.
  destruct (db_connection s) eqn:C; simpl; [|rewrite C; auto].
  destruct (insert_reading (current_timestamp clk) (PyStr n) (PyStr t)
              v u ts (db_file s)) as [[]|db'];
    simpl; rewrite ?C; auto.
Qed.

Lemma on_message_effect (clk : clocks) (msg : MQTTMessage) (s : state) :
  exists s', on_message clk msg s = (Return tt, s')
             /\ messages_received s' = messages_received s + 1
             /\ db_connection s' = db_connection s
             /\ db_file s' = written clk msg s.
Proof.
  unfold written.
  set (s1 := {| db_connection := db_connection s;
                messages_received := messages_received s + 1;
                db_file := db_file s; log := log s |}).
  rewrite (parse_message_stateless clk msg s s1).
  destruct (parse_message_frame clk msg s1) as [Fc [Fm Fd]].
  pose proof (parse_message_raises clk msg s1) as Hexc.
  unfold on_message, try_except, bind, read_state, set_messages_received.
  simpl. fold s1.
  destruct (parse_message clk msg s1) as [[[c|]|e] s2]; simpl in *.
  - pose proof (store_reading_run clk (c_sensor_name c) (c_sensor_type c)
                  (c_value c) (c_unit c) (c_timestamp c) s2) as R.
    simpl in R. destruct R as [Rc [Rm R]]. rewrite Fc, Fd in R.
    destruct (store_reading clk (c_sensor_name c) (c_sensor_type c)
                (c_value c) (c_unit c) (c_timestamp c) s2) as [o s3].
    simpl in *.
    destruct (db_connection s) eqn:C.
    + destruct (insert_reading (current_timestamp clk) (PyStr (c_sensor_name c))
                  (PyStr (c_sensor_type c)) (c_value c) (c_unit c)
                  (c_timestamp c) (db_file s)) as [[]|db'];
        destruct R as [-> Rd]; simpl;
        try (eexists; split; [reflexivity|]; simpl; repeat split; congruence).
      unfold call, ret, raise, logger.
      destruct (format_6_1f (c_value c)) as [[]|shown]; simpl;
        eexists; (split; [reflexivity|]); simpl; repeat split; congruence.
    + destruct R as [-> Rd]. simpl.
      eexists; split; [reflexivity|]; simpl; repeat split; congruence.
  - eexists; split; [reflexivity|]; simpl; repeat split; congruence.
  - specialize (Hexc e eq_refl). destruct e as [e| |]; try discriminate.
    unfold logger. destruct (is_JSONDecodeError (Exception e)); simpl;
      eexists; (split; [reflexivity|]); simpl; repeat split; congruence.
Qed.

Example split_three :
  split "/" "sensors/deskA/temperature" = ["sensors"; "deskA"; "temperature"].
Proof. reflexivity. Qed.

Example split_two : split "/" "bad/topic" = ["bad"; "topic"].
Proof. reflexivity. Qed.

Example split_empty_middle :
  split "/" "sensors//temperature" = ["sensors"; ""; "temperature"].
Proof. reflexivity. Qed.

Example split_of_empty : split "/" "" = [""].
Proof. reflexivity. Qed.

Lemma split_no_slash (s : string) :
  has_slash s = false -> split "/" s = [s].
Proof.
  induction s as [|c s IH]; simpl; [reflexivity|].
  destruct (Ascii.eqb c "/"); simpl; [discriminate|].
  intros H. rewrite (IH H). reflexivity.
Qed.

Lemma split_segment (a b : string) :
  has_slash a = false -> split "/" (a ++ String "/" b) = a :: split "/" b.
Proof.
  induction a as [|c a IH]; simpl; [reflexivity|].
  destruct (Ascii.eqb c "/"); simpl; [discriminate|].
  intros H. rewrite (IH H). reflexivity.
Qed.

Lemma split_sensor_topic (S K : string) :
  has_slash S = false -> has_slash K = false ->
  split "/" (sensor_topic S K) = ["sensors"; S; K].
Proof.
  intros HS HK. unfold sensor_topic.
  change ("sensors/" ++ S ++ "/" ++ K)
    with ("sensors" ++ String "/" (S ++ String "/" K)).
  rewrite split_segment by reflexivity.
  rewrite split_segment by exact HS.
  rewrite split_no_slash by exact HK. reflexivity.
Qed.

(** The candidate of a message whose topic has three pieces and whose
    payload is a map with a [value] that is not [None]. *)
Lemma parse_message_candidate (clk : clocks) (msg : MQTTMessage) (s : state)
    (a S K : string) (items : list (string * pyval)) (v : pyval) :
  split "/" (topic msg) = [a; S; K] ->
  payload_items msg = Some items ->
  lookup "value" items = Some v ->
  v <> PyNone ->
  fst (parse_message clk msg s)
  = Return (Some {| c_sensor_name := S;
                    c_sensor_type := K;
                    c_value := v;
                    c_unit := match lookup "unit" items with
                              | Some u => u
                              | None => PyStr ""
                              end;
                    c_timestamp := match lookup "timestamp" items with
                                   | Some ts => ts
                                   | None => PyStr (now_isoformat clk)
                                   end |}).
Proof.
  intros Ht Hp Hv Hn. unfold payload_items in Hp.
  unfold parse_message, bind, call, ret, raise, logger. rewrite Ht. simpl.
  destruct (bytes_decode (payload msg)) as [e|text]; [discriminate|].
  destruct (json_loads text) as [e|[| | | | | |items']]; try discriminate.
  inversion Hp; subst items'. simpl. rewrite Hv.
  destruct v; try reflexivity. congruence.
Qed.

Lemma appended_snoc (s s' : state) (t : table) (r : row) :
  sensor_readings (db_file s) = Some t ->
  stored_rows s' = (rows t ++ [r])%list ->
  appended s s' = [r].
Proof.
  intros Ht H. unfold appended, stored_rows at 1. rewrite Ht, H.
  rewrite skipn_app, skipn_all, Nat.sub_diag. reflexivity.
Qed.

Lemma appended_same (s s' : state) :
  db_file s' = db_file s -> appended s s' = [].
Proof.
  intros H. unfold appended, stored_rows. rewrite H. apply skipn_all.
Qed.

(** The rows one message appends. *)
Lemma on_message_appended (clk : clocks) (msg : MQTTMessage) (s : state) :
  appended s (state_after (on_message clk msg) s)
  = match fst (parse_message clk msg s), db_connection s,
          sensor_readings (db_file s) with
    | Return (Some c), Some _, Some t =>
        match inserted_row (current_timestamp clk)
                (PyStr (c_sensor_name c)) (PyStr (c_sensor_type c))
                (c_value c) (c_unit c) (c_timestamp c) t with
        | inr r => [r]
        | inl _ => []
        end
    | _, _, _ => []
    end.
Proof.
  destruct (on_message_effect clk msg s) as [s' [Hrun [_ [_ Hdb]]]].
  unfold state_after. rewrite Hrun. simpl. unfold written in Hdb.
  destruct (fst (parse_message clk msg s)) as [[c|]|e];
    try (apply appended_same; exact Hdb).
  destruct (db_connection s); [|apply appended_same; exact Hdb].
  unfold insert_reading in Hdb.
  destruct (sensor_readings (db_file s)) as [t|] eqn:T;
    [|apply appended_same; exact Hdb].
  destruct (inserted_row (current_timestamp clk)
              (PyStr (c_sensor_name c)) (PyStr (c_sensor_type c))
              (c_value c) (c_unit c) (c_timestamp c) t) as [e|r];
    simpl in Hdb; [apply appended_same; exact Hdb|].
  eapply appended_snoc; [exact T|]. unfold stored_rows. rewrite Hdb.
  reflexivity.
Qed.

(** The table only grows, by at most one row a message. *)
Lemma on_message_append_only (clk : clocks) (msg : MQTTMessage) (s : state) :
  stored_rows (state_after (on_message clk msg) s)
  = (stored_rows s ++ appended s (state_after (on_message clk msg) s))%list
  /\ (length (appended s (state_after (on_message clk msg) s)) <= 1)%nat.
Proof.
  split.
  - destruct (on_message_effect clk msg s) as [s' [Hrun [_ [_ Hdb]]]].
    unfold state_after. rewrite Hrun. simpl. unfold appended, stored_rows.
    rewrite Hdb. unfold written.
    destruct (fst (parse_message clk msg s)) as [[c|]|e];
      try (rewrite skipn_all, app_nil_r; reflexivity).
    destruct (db_connection s);
      [|rewrite skipn_all, app_nil_r; reflexivity].
    unfold insert_reading.
    destruct (sensor_readings (db_file s)) as [t|] eqn:T;
      [|rewrite T; reflexivity].
    destruct (inserted_row _ _ _ _ _ _ _); simpl;
      [rewrite T, skipn_all, app_nil_r; reflexivity|].
    rewrite skipn_app, skipn_all, Nat.sub_diag. reflexivity.
  - rewrite on_message_appended.
    destruct (fst (parse_message clk msg s)) as [[c|]|e]; simpl; try lia.
    destruct (db_connection s); simpl; try lia.
    destruct (sensor_readings (db_file s)); simpl; try lia.
    destruct (inserted_row _ _ _ _ _ _ _); simpl; lia.
Qed.

Lemma select_latest_new_row (rowid : Z) (ct : string) (cells : reading_cells) :
  select_latest (new_row rowid ct cells) = cells.
Proof. destruct cells as [[[[n t] v] u] ts]. reflexivity. Qed.

(** A topic that is not of three pieces: the message is counted, a warning
    is logged, and that is all. *)
Lemma on_message_bad_topic (clk : clocks) (msg : MQTTMessage) (s : state) :
  length (split "/" (topic msg)) <> 3%nat ->
  on_message clk msg s
  = (Return tt,
     {| db_connection := db_connection s;
        messages_received := messages_received s + 1;
        db_file := db_file s;
        log := (log s
                ++ [(WARNING, UnexpectedTopicFormat (topic msg))])%list |}).
Proof.
  intros H. apply Nat.eqb_neq in H.
  unfold on_message, try_except, bind, read_state, set_messages_received,
    parse_message, logger, ret.
  simpl. rewrite H. reflexivity.
Qed.

(** What a candidate says of the message it comes from. *)
Lemma parse_message_some (clk : clocks) (msg : MQTTMessage) (s : state)
    (c : candidate) :
  fst (parse_message clk msg s) = Return (Some c) ->
  exists a items,
    split "/" (topic msg) = [a; c_sensor_name c; c_sensor_type c]
    /\ payload_items msg = Some items
    /\ lookup "value" items = Some (c_value c)
    /\ c_value c <> PyNone
    /\ c_unit c = match lookup "unit" items with
                  | Some u => u
                  | None => PyStr ""
                  end
    /\ c_timestamp c = match lookup "timestamp" items with
                       | Some ts => ts
                       | None => PyStr (now_isoformat clk)
                       end.
Proof.
  unfold payload_items, parse_message, bind, call, ret, raise, logger.
  destruct (split "/" (topic msg)) as [|a [|b [|d [|x l]]]]; simpl;
    try discriminate.
  destruct (bytes_decode (payload msg)) as [e|text]; simpl; [discriminate|].
  destruct (json_loads text) as [e|[| | | | | |items]]; simpl;
    try discriminate.
  destruct (lookup "value" items) as [v|] eqn:V; simpl; [|discriminate].
  intros H. exists a, items.
  destruct v; simpl in H; try discriminate; inversion H; subst; simpl;
    repeat split; auto; discriminate.
Qed.

(** The row of an INSERT that succeeds: every parameter was bound to a
    cell, there was a rowid left, and the row has that rowid and the cells
    with the affinity of their columns. *)
Lemma inserted_row_inr (ct : string) (pn pt pv pu pts : pyval) (tb : table)
    (r : row) :
  inserted_row ct pn pt pv pu pts tb = inr r ->
  exists cn ck cv cu cts,
    bind_param pn = inr (Some cn) /\ bind_param pt = inr (Some ck)
    /\ bind_param pv = inr (Some cv) /\ bind_param pu = inr (Some cu)
    /\ bind_param pts = inr (Some cts)
    /\ next_rowid tb <= int64_max
    /\ r = new_row (next_rowid tb) ct
             (text_affinity cn, text_affinity ck, real_affinity cv,
              text_affinity cu, numeric_affinity cts).
Proof.
  unfold inserted_row, bind_parameters, new_rowid, constrain, and_then.
  destruct (bind_param pn) as [e|[cn|]]; try discriminate;
    destruct (bind_param pt) as [e|[ck|]]; try discriminate;
    destruct (bind_param pv) as [e|[cv|]]; try discriminate;
    destruct (bind_param pu) as [e|[cu|]]; try discriminate;
    destruct (bind_param pts) as [e|[cts|]]; try discriminate;
    destruct (next_rowid tb <=? int64_max) eqn:R; simpl; try discriminate.
  intros H. inversion H. apply Z.leb_le in R.
  exists cn, ck, cv, cu, cts. repeat split; auto.
Qed.

(** And every such INSERT succeeds. *)
Lemma inserted_row_ok (ct : string) (pn pt pv pu pts : pyval) (tb : table)
    (cn ck cv cu cts : cell) :
  bind_param pn = inr (Some cn) -> bind_param pt = inr (Some ck) ->
  bind_param pv = inr (Some cv) -> bind_param pu = inr (Some cu) ->
  bind_param pts = inr (Some cts) ->
  next_rowid tb <= int64_max ->
  inserted_row ct pn pt pv pu pts tb
  = inr (new_row (next_rowid tb) ct
           (text_affinity cn, text_affinity ck, real_affinity cv,
            text_affinity cu, numeric_affinity cts)).
Proof.
  intros Hn Hk Hv Hu Hts R. apply Z.leb_le in R.
  unfold inserted_row, bind_parameters, new_rowid, constrain, and_then.
  rewrite Hn, Hk, Hv, Hu, Hts, R. reflexivity.
Qed.

Lemma inserted_row_names (ct n t : string) (v u ts : pyval) (tb : table)
    (r : row) :
  inserted_row ct (PyStr n) (PyStr t) v u ts tb = inr r ->
  sensor_name r = n /\ sensor_type r = t /\ id r = next_rowid tb.
Proof.
  intros H. apply inserted_row_inr in H.
  destruct H as [cn [ck [cv [cu [cts [Hn [Hk [_ [_ [_ [_ ->]]]]]]]]]]].
  simpl in Hn, Hk.
  destruct (encodable n); [|discriminate].
  destruct (encodable t); [|discriminate].
  inversion Hn. inversion Hk. repeat split; reflexivity.
Qed.

(** A value that binds to NULL, or does not bind, stops the INSERT. *)
Lemma inserted_row_refused (ct : string) (pn pt v u ts : pyval) (tb : table) :
  (forall c, bind_param v <> inr (Some c)) ->
  exists e, inserted_row ct pn pt v u ts tb = inl e.
Proof.
  intros H.
  destruct (inserted_row ct pn pt v u ts tb) as [e|r] eqn:I; [eauto|].
  apply inserted_row_inr in I.
  destruct I as [cn [ck [cv [cu [cts [_ [_ [Hv _]]]]]]]].
  exfalso. apply (H cv). exact Hv.
Qed.

Lemma written_table (clk : clocks) (msg : MQTTMessage) (s : state) :
  sensor_readings (written clk msg s) = None
  <-> sensor_readings (db_file s) = None.
Proof.
  unfold written.
  destruct (fst (parse_message clk msg s)) as [[c|]|e]; try tauto.
  destruct (db_connection s); try tauto.
  unfold insert_reading.
  destruct (sensor_readings (db_file s)) eqn:T; [|rewrite T; tauto].
  destruct (inserted_row _ _ _ _ _ _ _); simpl; [rewrite T|];
    split; discriminate.
Qed.

End Handler.

End Handler.

(* ===================================================================== *)
(** * The ingestion pipeline: claims on [on_message] *)
(* ===================================================================== *)

Module Ingestion.

Import Py Sqlite Subscriber Spec Handler.
Local Open Scope string_scope.
Local Open Scope Z_scope.

Section Claims.
Context {engine : Engine} {library : Library}.

(** C1 (amended).  With the database open, the table created and a rowid
    left, a message on the topic [sensors/{S}/{K}] (S and K, as in every
    topic that was decoded, without surrogates) whose payload is a map
    with, under [value], an integer of 64 bits or a float other than nan,
    and whose [unit] and [timestamp], when present, are values the store
    binds to a cell (an encodable string, a boolean, an integer of 64 bits
    or a float other than nan), persists exactly one new Reading: the
    stored rows are the old ones followed by one row with [sensor_name] S,
    [sensor_type] K, the value as a REAL (the double nearest to an
    integer), and the unit of the payload (a string as it is, a number as
    the text the engine writes for it, the empty string when absent). *)
Theorem well_formed_message_stored
    (clk : clocks) (msg : MQTTMessage) (s : state) (S K : string)
    (items : list (string * pyval)) (v : pyval) (c cu cts : cell)
    (conn : connection) (t : table) :
  topic msg = sensor_topic S K ->
  has_slash S = false -> has_slash K = false ->
  encodable S = true -> encodable K = true ->
  payload_items msg = Some items ->
  lookup "value" items = Some v ->
  stored_number v = Some c ->
  bound_field "" (lookup "unit" items) = Some cu ->
  bound_field (now_isoformat clk) (lookup "timestamp" items) = Some cts ->
  db_connection s = Some conn ->
  sensor_readings (db_file s) = Some t ->
  next_rowid t <= int64_max ->
  exists r,
    stored_rows (state_after (on_message clk msg) s) = (rows t ++ [r])%list
    /\ id r = next_rowid t
    /\ sensor_name r = S /\ sensor_type r = K
    /\ value r = c
    /\ unit r = text_affinity cu
    /\ (forall x, lookup "unit" items = Some (PyStr x) -> unit r = x)
    /\ (lookup "unit" items = None -> unit r = "")
    /\ timestamp r = numeric_affinity cts.
Proof.
  intros Htopic HS HK ES EK Hitems Hvalue Hnum Hunit Hts Hconn Htable Hrowid.
  destruct (on_message_effect clk msg s) as [s' [Hrun [_ [_ Hdb]]]].
  unfold state_after. rewrite Hrun. simpl.
  unfold stored_rows. rewrite Hdb. unfold written.
  assert (Hv : v <> PyNone) by (intros ->; discriminate).
  rewrite (parse_message_candidate clk msg s "sensors" S K items v);
    [|rewrite Htopic; apply split_sensor_topic; assumption
     |assumption|assumption|assumption].
  rewrite Hconn. simpl. unfold insert_reading. rewrite Htable.
  assert (Hbv : exists cv, bind_param v = inr (Some cv)
                           /\ real_affinity cv = c).
  { destruct v as [| |n|[r|]| | |]; try discriminate; simpl in *.
    - destruct ((int64_min <=? n) && (n <=? int64_max)); [|discriminate].
      inversion Hnum. eexists. split; reflexivity.
    - inversion Hnum. eexists. split; reflexivity. }
  destruct Hbv as [cv [Hbv Hcv]].
  unfold bound_field in Hunit, Hts.
  destruct (bind_param match lookup "unit" items with
                       | Some x => x
                       | None => PyStr ""
                       end) as [e|[cu'|]] eqn:Bu; try discriminate.
  destruct (bind_param match lookup "timestamp" items with
                       | Some x => x
                       | None => PyStr (now_isoformat clk)
                       end) as [e|[cts'|]] eqn:Bts; try discriminate.
  inversion Hunit; subst cu'. inversion Hts; subst cts'.
  rewrite (inserted_row_ok (current_timestamp clk) (PyStr S) (PyStr K) v _ _ t
             (CText S) (CText K) cv cu cts);
    [|simpl; rewrite ES; reflexivity|simpl; rewrite EK; reflexivity
     |assumption|assumption|assumption|assumption].
  simpl. eexists. split; [reflexivity|]. simpl.
  repeat split; try reflexivity; try assumption.
  - intros x Hx. rewrite Hx in Bu. simpl in Bu.
    destruct (encodable x); [|discriminate]. inversion Bu. reflexivity.
  - intros Hx. rewrite Hx in Bu. simpl in Bu. inversion Bu. reflexivity.
Qed.

(** C3 (amended).  A message whose topic does not split into exactly three
    pieces persists no Reading, and [messages_received] grows by one: the
    handler counts every message it receives, before it looks at the
    topic. *)
Theorem bad_topic_counted_not_stored
    (clk : clocks) (msg : MQTTMessage) (s : state) :
  length (split "/" (topic msg)) <> 3%nat ->
  db_file (state_after (on_message clk msg) s) = db_file s
  /\ messages_received (state_after (on_message clk msg) s)
     = messages_received s + 1.
Proof.
  intros H. unfold state_after. rewrite (on_message_bad_topic clk msg s H).
  split; reflexivity.
Qed.

(** C4 (amended).  A message whose payload offers no [value] (it does not
    decode, is not JSON, is not a map, or has no such field), or offers
    [null], nan, a list or a map, persists no Reading.  The handler tests
    the value against [None] only: a string or a boolean is handed to the
    store. *)
Theorem unusable_value_not_stored
    (clk : clocks) (msg : MQTTMessage) (s : state) :
  value_refused (offered_value msg) = true ->
  db_file (state_after (on_message clk msg) s) = db_file s.
Proof.
  intros H.
  destruct (on_message_effect clk msg s) as [s' [Hrun [_ [_ Hdb]]]].
  unfold state_after. rewrite Hrun. simpl. rewrite Hdb. unfold written.
  destruct (fst (parse_message clk msg s)) as [[c|]|e] eqn:P; try reflexivity.
  destruct (db_connection s); [|reflexivity].
  destruct (parse_message_some clk msg s c P)
    as [a [items [_ [Hitems [Hvalue [Hnone _]]]]]].
  unfold offered_value in H. rewrite Hitems, Hvalue in H.
  unfold insert_reading.
  destruct (sensor_readings (db_file s)) as [t|]; [|reflexivity].
  destruct (inserted_row_refused (current_timestamp clk)
              (PyStr (c_sensor_name c)) (PyStr (c_sensor_type c))
              (c_value c) (c_unit c) (c_timestamp c) t) as [e He].
  - intros x. destruct (c_value c) as [| | |[|]| | |];
      try discriminate; congruence.
  - rewrite He. reflexivity.
Qed.

(** On a message whose topic decodes the handler returns: whatever is
    raised while the message is handled is caught.  And it keeps no decode
    state: what is read from a message does not depend on the state of the
    process. *)
Lemma decoded_message_handled
    (clk : clocks) (msg : MQTTMessage) (s : state) :
  (exists s', on_message clk msg s = (Return tt, s'))
  /\ (forall s0 : state,
        fst (parse_message clk msg s0) = fst (parse_message clk msg s)).
Proof.
  split.
  - destruct (on_message_effect clk msg s) as [s' [Hrun _]]. eauto.
  - intros s0. apply parse_message_stateless.
Qed.

(** On the message object of paho, whose topic attribute decodes the
    topic bytes at each read, the handler is the one above as long as the
    bytes decode. *)
Lemma on_message_of_decoded_topic
    (clk : clocks) (msg : Paho.MQTTMessage) (s : state) (t : string) :
  bytes_decode (Paho._topic msg) = inr t ->
  Paho.on_message clk msg s = on_message clk (Paho.decoded t msg) s.
Proof.
  intros H.
  unfold Paho.on_message, on_message, Paho.parse_message, parse_message,
    Paho.topic, Paho.decoded, try_except, bind, read_state,
    set_messages_received, call, ret, raise, logger.
  rewrite H. simpl.
  destruct (Nat.eqb (length (split "/" t)) 3); simpl; [|reflexivity].
  destruct (bytes_decode (Paho.payload msg)) as [e|text]; simpl;
    [reflexivity|].
  destruct (json_loads text) as [e|[| | | | | |items]]; reflexivity.
Qed.

(** C5 (a defect of the code).  The claim has the handler return on every
    message.  On a message whose topic bytes do not decode it does not:
    the message is counted, the read of [msg.topic] at line 128 raises
    inside the [try], and the handler that catches it reads [msg.topic]
    again, at line 152 or 154, so that the same exception leaves
    [on_message]; nothing is logged and nothing is stored. *)
Theorem undecodable_topic_escapes_handler
    (clk : clocks) (msg : Paho.MQTTMessage) (s : state) (e : exception) :
  bytes_decode (Paho._topic msg) = inl e ->
  Paho.on_message clk msg s = (Raise (Exception e), counted s).
Proof.
  intros H.
  unfold Paho.on_message, Paho.parse_message, Paho.topic, try_except, bind,
    read_state, set_messages_received, call, ret, raise, logger, counted.
  rewrite H. simpl. destruct e; reflexivity.
Qed.

(** C7 (amended).  A message whose topic does not split into exactly three
    pieces is rejected with a warning and persists no Reading.  The pieces
    are not looked at: every Reading the handler persists has the second
    piece of a topic of three pieces as its [sensor_name] and the third as
    its [sensor_type], empty or not. *)
Theorem topic_checked_for_three_pieces_only
    (clk : clocks) (msg : MQTTMessage) (s : state) :
  (length (split "/" (topic msg)) <> 3%nat ->
   db_file (state_after (on_message clk msg) s) = db_file s
   /\ log (state_after (on_message clk msg) s)
      = (log s ++ [(WARNING, UnexpectedTopicFormat (topic msg))])%list)
  /\ (forall r, In r (appended s (state_after (on_message clk msg) s)) ->
        exists a, split "/" (topic msg) = [a; sensor_name r; sensor_type r]).
Proof.
  split.
  - intros H. unfold state_after. rewrite (on_message_bad_topic clk msg s H).
    split; reflexivity.
  - intros r. rewrite on_message_appended.
    destruct (fst (parse_message clk msg s)) as [[c|]|e] eqn:P;
      try (intros []).
    destruct (db_connection s); [|intros []].
    destruct (sensor_readings (db_file s)) as [t|]; [|intros []].
    destruct (inserted_row _ _ _ _ _ _ _) as [e|r'] eqn:B; [intros []|].
    intros [<-|[]].
    destruct (inserted_row_names _ _ _ _ _ _ _ _ B) as [-> [-> _]].
    destruct (parse_message_some clk msg s c P) as [a [items [Hsplit _]]].
    exists a. exact Hsplit.
Qed.


(** C10.  A payload that is JSON but not a map persists no Reading and the
    handler returns; when the topic has three pieces, it is the catch-all
    branch that handles the [AttributeError] of the field access and logs
    the error. *)
Theorem non_map_payload_caught
    (clk : clocks) (msg : MQTTMessage) (s : state) (text : string) (v : pyval) :
  bytes_decode (payload msg) = inr text ->
  json_loads text = inr v ->
  is_dict v = false ->
  exists s',
    on_message clk msg s = (Return tt, s')
    /\ db_file s' = db_file s
    /\ (length (split "/" (topic msg)) = 3%nat ->
        log s' = (log s ++ [(ERROR, ErrorProcessingMessage (topic msg)
                                      (Exception AttributeError))])%list).
Proof.
  intros Hd Hj Hv.
  unfold on_message, parse_message, try_except, bind, read_state,
    set_messages_received, call, logger, ret, raise.
  simpl.
  destruct (Nat.eqb (length (split "/" (topic msg))) 3) eqn:E; simpl.
  - rewrite Hd. rewrite Hj.
    destruct v; simpl;
      try (eexists; split; [reflexivity|]; split; reflexivity).
    discriminate.
  - eexists. split; [reflexivity|]. split; [reflexivity|].
    apply Nat.eqb_neq in E. intros H. contradiction.
Qed.

End Claims.

Lemma well_formed_message_stored_witness :
  exists r,
    stored_rows (deliver "sensors/deskA/temperature" payload_full started)
    = ([] ++ [r])%list
    /\ id r = 1
    /\ sensor_name r = "deskA" /\ sensor_type r = "temperature"
    /\ value r = CReal (Finite (43 # 2))
    /\ unit r = "C"
    /\ (forall x, Some (PyStr "C") = Some (PyStr x) -> unit r = x)
    /\ (Some (PyStr "C") = None -> unit r = "")
    /\ timestamp r = CText "2024-01-01T00:00:00".
Proof.
  apply (@well_formed_message_stored example_engine example_library
           example_clocks
           {| topic := "sensors/deskA/temperature"; payload := payload_full |}
           started "deskA" "temperature"
           [("value", PyFloat (Num (Finite (43 # 2)))); ("unit", PyStr "C");
            ("timestamp", PyStr "2024-01-01T00:00:00")]
           (PyFloat (Num (Finite (43 # 2)))) (CReal (Finite (43 # 2)))
           (CText "C") (CText "2024-01-01T00:00:00")
           Connection {| rows := []; seq := 0 |});
    try reflexivity.
  vm_compute. discriminate.
Defined.

(** C1, as worded, fails: a [unit] that is [null] breaks NOT NULL and
    nothing is stored. *)
Lemma one_reading_per_message_counterexample :
  ~ stated_one_reading_per_message.
Proof.
  intros H.
  destruct (H example_engine example_library example_clocks
              {| topic := "sensors/deskA/temperature";
                 payload := payload_null_unit |}
              started "deskA" "temperature"
              [("value", PyFloat (Num (Finite (43 # 2)))); ("unit", PyNone)]
              (PyFloat (Num (Finite (43 # 2))))
              Connection {| rows := []; seq := 0 |}
              eq_refl ltac:(discriminate) ltac:(discriminate)
              eq_refl eq_refl eq_refl eq_refl eq_refl eq_refl eq_refl)
    as [r [Hrows _]].
  vm_compute in Hrows. discriminate.
Qed.

Lemma bad_topic_counted_not_stored_witness :
  db_file (deliver "bad/topic" payload_full started) = db_file started
  /\ messages_received (deliver "bad/topic" payload_full started)
     = messages_received started + 1.
Proof.
  apply (@bad_topic_counted_not_stored example_engine example_library
           example_clocks
           {| topic := "bad/topic"; payload := payload_full |} started).
  simpl. lia.
Defined.

(** C3, as worded, fails: on the topic [bad/topic] the counter goes from 0
    to 1. *)
Lemma bad_topic_changes_nothing_counterexample :
  ~ stated_bad_topic_changes_nothing.
Proof.
  intros H.
  destruct (H example_engine example_library example_clocks
              {| topic := "bad/topic"; payload := payload_full |} started
              ltac:(simpl; lia))
    as [_ Hcount].
  vm_compute in Hcount. discriminate.
Qed.

Lemma unusable_value_not_stored_witness :
  db_file (deliver "sensors/deskB/humidity" payload_no_value started)
  = db_file started.
Proof.
  apply (@unusable_value_not_stored example_engine example_library
           example_clocks
           {| topic := "sensors/deskB/humidity"; payload := payload_no_value |}
           started).
  reflexivity.
Defined.

(** C4, as worded, fails: the payload [{"value": true}] has no number under
    [value], and a Reading with value 1 is stored. *)
Lemma value_must_be_number_counterexample :
  ~ stated_value_must_be_number.
Proof.
  intros H.
  assert (Hrows :
    stored_rows (deliver "sensors/deskB/humidity" payload_true started)
    = stored_rows started).
  { apply (H example_engine example_library example_clocks
             {| topic := "sensors/deskB/humidity"; payload := payload_true |}
             started).
    intros v Hv. vm_compute in Hv. inversion Hv. reflexivity. }
  vm_compute in Hrows. discriminate.
Qed.

Lemma topic_checked_for_three_pieces_only_witness :
  db_file (deliver "bad/topic" payload_full started) = db_file started
  /\ log (deliver "bad/topic" payload_full started)
     = (log started ++ [(WARNING, UnexpectedTopicFormat "bad/topic")])%list.
Proof.
  apply (proj1 (@topic_checked_for_three_pieces_only example_engine
                  example_library example_clocks
                  {| topic := "bad/topic"; payload := payload_full |}
                  started)).
  simpl. lia.
Defined.

(** C7, as worded, fails: the topic [sensors//temperature] has an empty
    second piece, and a Reading with an empty [sensor_name] is stored. *)
Lemma empty_segment_rejected_counterexample :
  ~ stated_empty_segment_rejected.
Proof.
  intros H.
  destruct (H example_engine example_library example_clocks
              {| topic := "sensors//temperature";
                 payload := payload_value_only |} started)
    as [_ Hname].
  apply (Hname {| id := 1;
                  sensor_name := "";
                  sensor_type := "temperature";
                  value := CReal (Finite (43 # 2));
                  unit := "";
                  timestamp := CText "2024-01-01T00:10:00.000000";
                  received_at := Some (CText "2024-01-01 00:10:00") |}).
  - vm_compute. left. reflexivity.
  - reflexivity.
Qed.


Lemma non_map_payload_caught_witness :
  exists s',
    @on_message example_engine example_library example_clocks
      {| topic := "sensors/deskA/temperature"; payload := payload_array |}
      started
    = (Return tt, s')
    /\ db_file s' = db_file started
    /\ (length (split "/" "sensors/deskA/temperature") = 3%nat ->
        log s' = (log started
                  ++ [(ERROR, ErrorProcessingMessage "sensors/deskA/temperature"
                                (Exception AttributeError))])%list).
Proof.
  apply (@non_map_payload_caught example_engine example_library
           example_clocks
           {| topic := "sensors/deskA/temperature"; payload := payload_array |}
           started payload_array (PyList [PyInt 1; PyInt 2])).
  - reflexivity.
  - reflexivity.
  - reflexivity.
Defined.

Lemma undecodable_topic_escapes_handler_witness :
  @Paho.on_message example_engine strict_library example_clocks
    {| Paho._topic := topic_not_utf8; Paho.payload := payload_full |} started
  = (Raise (Exception UnicodeDecodeError), counted started).
Proof.
  apply (@undecodable_topic_escapes_handler example_engine strict_library
           example_clocks
           {| Paho._topic := topic_not_utf8; Paho.payload := payload_full |}
           started UnicodeDecodeError).
  reflexivity.
Defined.

(** What keeps a payload with a number under [value] from being stored.
    A unit with a surrogate cannot be encoded: the error is not one of
    [sqlite3], leaves [store_reading] and is logged by the handler. *)
Example surrogate_unit_not_stored :
  stored_rows (deliver_strict "sensors/deskA/temperature"
                 payload_surrogate_unit started) = []
  /\ log (deliver_strict "sensors/deskA/temperature"
            payload_surrogate_unit started)
     = (log started
        ++ [(ERROR, ErrorProcessingMessage "sensors/deskA/temperature"
                      (Exception UnicodeEncodeError))])%list.
Proof. split; reflexivity. Qed.

(** A table that has used its last rowid takes no row. *)
Example full_table_not_stored :
  stored_rows (deliver "sensors/deskA/temperature" payload_full
                 started_on_full_table) = []
  /\ log (deliver "sensors/deskA/temperature" payload_full
            started_on_full_table)
     = [(ERROR, DatabaseError (Exception (SqliteError OperationalError)))].
Proof. split; reflexivity. Qed.

(** And an integer of more than 53 bits is stored as the nearest double:
    2^53 + 1 as 2^53. *)
Example odd_integer_rounded :
  map value (stored_rows (deliver_strict "sensors/deskA/temperature"
                            payload_odd_integer started))
  = [CReal (Finite (inject_Z 9007199254740992))].
Proof. vm_compute. reflexivity. Qed.

(** The scenarios of the specification: on the topic [bad/topic] no row is
    stored and one warning is logged; the payload [{"unit": "%"}] on
    [sensors/deskB/humidity] stores no row. *)
Example bad_topic_scenario :
  stored_rows (deliver "bad/topic" payload_full started) = []
  /\ log (deliver "bad/topic" payload_full started)
     = (log started ++ [(WARNING, UnexpectedTopicFormat "bad/topic")])%list.
Proof. split; reflexivity. Qed.

Example no_value_scenario :
  stored_rows (deliver "sensors/deskB/humidity" payload_no_value started) = []
  /\ log (deliver "sensors/deskB/humidity" payload_no_value started)
     = (log started
        ++ [(WARNING, NoValueInPayload "sensors/deskB/humidity")])%list.
Proof. split; reflexivity. Qed.

End Ingestion.

(* ===================================================================== *)
(** * The storage engine: claims on the queries and on [init_database] *)
(* ===================================================================== *)

Module Storage.

Import Py Sqlite Subscriber Spec Order Relational.
Local Open Scope string_scope.
Local Open Scope Z_scope.

Lemma latest_same_refl (x : latest_row) : latest_same x x = true.
Proof.
  destruct x as [[[[n t] v] u] ts]. simpl.
  rewrite !String.eqb_refl, !cell_eqb_refl. reflexivity.
Qed.

Lemma latest_same_sym (x y : latest_row) : latest_same x y = latest_same y x.
Proof.
  destruct x as [[[[n t] v] u] ts], y as [[[[n' t'] v'] u'] ts']. simpl.
  rewrite (String.eqb_sym n n'), (String.eqb_sym t t'), (String.eqb_sym u u'),
    (cell_eqb_sym v v'), (cell_eqb_sym ts ts').
  reflexivity.
Qed.

Lemma latest_same_trans (x y z : latest_row) :
  latest_same x y = true -> latest_same y z = true -> latest_same x z = true.
Proof.
  destruct x as [[[[n t] v] u] ts], y as [[[[n' t'] v'] u'] ts'],
           z as [[[[n'' t''] v''] u''] ts''].
  simpl. rewrite !andb_true_iff, !String.eqb_eq.
  intros [[[[-> ->] Hv] ->] Hts] [[[[-> ->] Hv'] ->] Hts'].
  repeat split; eauto using cell_eqb_trans.
Qed.

(** Rows of which none equals a later one stay so in any order. *)
Lemma pairwise_distinct (A : Type) (same : A -> A -> bool) (l : list A) :
  (forall a, same a a = true) ->
  (forall a b, same a b = same b a) ->
  ForallOrdPairs (fun x y => same x y = false) l ->
  NoDup l /\ forall x y, In x l -> In y l -> same x y = true -> x = y.
Proof.
  intros Hrefl Hsym. induction 1 as [|a l Ha Hl [IHn IHp]].
  - split; [constructor|]. intros x y [].
  - rewrite Forall_forall in Ha. split.
    + constructor; [|exact IHn]. intros Hin.
      specialize (Ha a Hin). rewrite Hrefl in Ha. discriminate.
    + intros x y [<-|Hx] [<-|Hy] Hs; auto.
      * rewrite (Ha y Hy) in Hs. discriminate.
      * rewrite Hsym, (Ha x Hx) in Hs. discriminate.
Qed.

(** The rows the subquery lets through: those with the largest timestamp
    of their sensor. *)
Lemma in_subquery_iff (rs : list row) (r : row) :
  In r rs ->
  (in_subquery (max_timestamp_per_sensor rs) r = true
   <-> forall r', In r' rs -> sensor_name r' = sensor_name r ->
                  cell_leb (timestamp r') (timestamp r) = true).
Proof.
  intros Hr.
  destruct (group_by_spec _ _ sensor_name String.eqb String.eqb_eq rs)
    as [_ [Hkeys Hgroups]].
  unfold in_subquery, max_timestamp_per_sensor. rewrite existsb_exists.
  split.
  - intros [[n m] [Hin Hm]]. simpl in Hm.
    apply andb_true_iff in Hm. destruct Hm as [Hn Hm].
    apply String.eqb_eq in Hn. destruct m as [mx|]; [|discriminate].
    apply in_map_iff in Hin. destruct Hin as [[k g] [Heq Hg]].
    simpl in Heq. inversion Heq; subst k. clear Heq.
    destruct (Hgroups n g Hg) as [-> Hne].
    destruct (sql_max_spec (map timestamp
                (filter (fun r0 => String.eqb (sensor_name r0) n) rs)))
      as [m' [Hmax [_ Hall]]].
    { intros E. apply map_eq_nil in E. contradiction. }
    rewrite Hmax in H1. inversion H1; subst m'.
    intros r' Hr' Hsame.
    apply cell_leb_trans with mx.
    + apply Hall. apply in_map. apply filter_In. split; [exact Hr'|].
      apply String.eqb_eq. congruence.
    + apply cell_eqb_leb in Hm. apply Hm.
  - intros Hmaximal.
    assert (Hk : In (sensor_name r)
                    (map fst (group_by sensor_name String.eqb rs)))
      by (apply Hkeys; eauto).
    apply in_map_iff in Hk. destruct Hk as [[k g] [Hfst Hg]].
    simpl in Hfst. subst k.
    destruct (Hgroups _ g Hg) as [-> Hne].
    destruct (sql_max_spec (map timestamp
                (filter (fun r0 => String.eqb (sensor_name r0)
                                     (sensor_name r)) rs)))
      as [mx [Hmax [Hin Hall]]].
    { intros E. apply map_eq_nil in E. contradiction. }
    exists (sensor_name r, Some mx). split.
    + apply in_map_iff. eexists. split; [|exact Hg]. simpl.
      rewrite Hmax. reflexivity.
    + simpl. rewrite String.eqb_refl. simpl. apply cell_eqb_leb. split.
      * apply Hall. apply in_map. apply filter_In. split; [exact Hr|].
        apply String.eqb_refl.
      * apply in_map_iff in Hin. destruct Hin as [r'' [<- Hr'']].
        apply filter_In in Hr''. destruct Hr'' as [Hr'' Hn].
        apply String.eqb_eq in Hn. apply Hmaximal; assumption.
Qed.

Lemma fetchall_run (A : Type) (query : list row -> list A) (s : state)
    (t : table) :
  sensor_readings (db_file s) = Some t ->
  fetchall query s = (Return (query (rows t)), s).
Proof.
  intros H. unfold fetchall, bind, read_state, ret. rewrite H. reflexivity.
Qed.

(** C2 (amended).  With the database open and the table created,
    [get_latest_readings] returns, for each sensor_name, the rows whose
    timestamp is the largest among all rows of that sensor_name (so also
    the largest of their own (sensor_name, sensor_type) pair), as distinct
    tuples (sensor_name, sensor_type, value, unit, timestamp) ordered by
    sensor_name, then sensor_type.  Rows tied at that timestamp are all
    returned: the id breaks no tie, and a pair may have several rows. *)
Theorem latest_rows_per_sensor (s : state) (conn : connection) (t : table) :
  db_connection s = Some conn ->
  sensor_readings (db_file s) = Some t ->
  exists result,
    get_latest_readings s = (Return (Some result), s)
    /\ (forall x, In x result ->
          exists r, In r (rows t) /\ select_latest r = x
            /\ forall r', In r' (rows t) ->
                 sensor_name r' = sensor_name r ->
                 cell_leb (timestamp r') (timestamp r) = true)
    /\ (forall r, In r (rows t) ->
          (forall r', In r' (rows t) ->
             sensor_name r' = sensor_name r ->
             cell_leb (timestamp r') (timestamp r) = true) ->
          exists x, In x result /\ latest_same x (select_latest r) = true)
    /\ NoDup result
    /\ (forall x y, In x result -> In y result ->
          latest_same x y = true -> x = y)
    /\ Sorted (fun x y => name_type_leb (latest_key x) (latest_key y) = true)
              result.
Proof.
  intros Hconn Htable. exists (query_latest (rows t)).
  split.
  { unfold get_latest_readings, bind, read_state, try_except. rewrite Hconn.
    rewrite (fetchall_run _ query_latest s t Htable). reflexivity. }
  unfold query_latest.
  set (leb := fun x y => name_type_leb (latest_key x) (latest_key y)).
  set (picked := filter (in_subquery (max_timestamp_per_sensor (rows t)))
                   (rows t)).
  destruct (pairwise_distinct _ latest_same
              (distinct latest_same (map select_latest picked))
              latest_same_refl latest_same_sym
              (distinct_pairwise _ latest_same _)) as [Hnd Hpair].
  split; [|split; [|split; [|split]]].
  - intros x Hx. apply order_by_In in Hx. apply distinct_In in Hx.
    apply in_map_iff in Hx. destruct Hx as [r [Hsel Hr]].
    apply filter_In in Hr. destruct Hr as [Hr Hsub].
    exists r. split; [exact Hr|]. split; [exact Hsel|].
    apply in_subquery_iff; assumption.
  - intros r Hr Hmaximal.
    destruct (distinct_complete _ latest_same (map select_latest picked)
                (select_latest r) latest_same_refl latest_same_trans)
      as [y [Hy Hsame]].
    { apply in_map. apply filter_In. split; [exact Hr|].
      apply in_subquery_iff; assumption. }
    exists y. split; [|exact Hsame]. apply order_by_In. exact Hy.
  - eapply Permutation_NoDup; [apply order_by_perm|exact Hnd].
  - intros x y Hx Hy. apply order_by_In in Hx. apply order_by_In in Hy.
    apply Hpair; assumption.
  - apply order_by_sorted. intros x y. apply name_type_leb_total.
Qed.

Lemma latest_rows_per_sensor_witness :
  exists result,
    get_latest_readings two_readings_same_time
    = (Return (Some result), two_readings_same_time)
    /\ (forall x, In x result ->
          exists r, In r (stored_rows two_readings_same_time)
            /\ select_latest r = x
            /\ forall r', In r' (stored_rows two_readings_same_time) ->
                 sensor_name r' = sensor_name r ->
                 cell_leb (timestamp r') (timestamp r) = true)
    /\ (forall r, In r (stored_rows two_readings_same_time) ->
          (forall r', In r' (stored_rows two_readings_same_time) ->
             sensor_name r' = sensor_name r ->
             cell_leb (timestamp r') (timestamp r) = true) ->
          exists x, In x result /\ latest_same x (select_latest r) = true)
    /\ NoDup result
    /\ (forall x y, In x result -> In y result ->
          latest_same x y = true -> x = y)
    /\ Sorted (fun x y => name_type_leb (latest_key x) (latest_key y) = true)
              result.
Proof.
  apply (latest_rows_per_sensor two_readings_same_time Connection
           {| rows := stored_rows two_readings_same_time; seq := 2 |});
    reflexivity.
Defined.

(** C2, as worded, fails: two Readings of one sensor and kind with the same
    timestamp are both returned. *)
Lemma latest_per_pair_counterexample : ~ stated_latest_per_pair.
Proof.
  intros H.
  destruct (H two_readings_same_time Connection
              {| rows := stored_rows two_readings_same_time; seq := 2 |}
              eq_refl eq_refl)
    as [result [Hrun [Hnd _]]].
  vm_compute in Hrun. inversion Hrun; subst result. clear Hrun.
  simpl in Hnd. inversion Hnd as [|k l Hnotin _]. apply Hnotin.
  left. reflexivity.
Qed.

(** The steps of [AVG] add the numbers of the cells up, as doubles and in
    the order of the rows, and count them. *)
Lemma avg_fold {engine : Engine} (cs : list cell) :
  forall (acc : float) (n : Z),
    fold_left avg_step cs (acc, n)
    = (fold_left float_add (map cell_number cs) acc,
       n + Z.of_nat (length cs)).
Proof.
  induction cs as [|c cs IH]; intros acc n.
  - simpl. rewrite Z.add_0_r. reflexivity.
  - cbn [fold_left map length]. unfold avg_step at 2. cbn [fst snd].
    rewrite IH. f_equal. lia.
Qed.

(** [AVG] is the mean in doubles. *)
Lemma sql_avg_double_mean {engine : Engine} (cs : list cell) :
  sql_avg cs = double_mean cs.
Proof.
  unfold sql_avg, double_mean, double_sum. rewrite avg_fold.
  unfold avg_final. cbn [fst snd].
  destruct cs as [|c cs]; [reflexivity|].
  destruct (0 + Z.of_nat (length (c :: cs)) =? 0) eqn:E.
  - apply Z.eqb_eq in E. simpl in E. lia.
  - rewrite Z.add_0_l. reflexivity.
Qed.

Lemma summary_key_summarize {engine : Engine} (g : string * string * list row) :
  summary_key (summarize g) = fst g.
Proof. destruct g as [[n k] g]. reflexivity. Qed.




(** The mean of 0.1 and 0.2 is 0.15000000000000002: the sum of the two
    doubles is rounded up. *)
Example mean_of_tenths :
  @double_mean example_engine
    [CReal (nearest (1 # 10)); CReal (nearest (2 # 10))]
  = Some (CReal (Finite (1351079888211149 # 9007199254740992))).
Proof. vm_compute. reflexivity. Qed.

(** The scenario of the specification: 21.5 at 00:00 then 23.0 at 00:05
    for deskA.  The latest row is the one of 23.0; the summary has a count
    of 2, a minimum of 21.5, a maximum of 23.0 and a mean of 22.25. *)
Example latest_of_two_readings :
  fst (get_latest_readings two_readings)
  = Return (Some [("deskA", "temperature", CReal (Finite (23 # 1)), "C",
                   CText "2024-01-01T00:05:00")]).
Proof. reflexivity. Qed.

Example summary_of_two_readings :
  fst (@get_readings_summary example_engine two_readings)
  = Return (Some [("deskA", "temperature", 2,
                   Some (CReal (Finite (43 # 2))),
                   Some (CReal (Finite (23 # 1))),
                   Some (CReal (Finite (89 # 4))))]).
Proof. reflexivity. Qed.

(** C8.  [init_database] can be called again: both calls return [True];
    after the first the table and the two indexes exist; the second leaves
    the file as the first left it; and a table that was there before the
    call keeps its rows. *)
Theorem init_database_idempotent (s : state) :
  let s1 := state_after init_database s in
  let s2 := state_after init_database s1 in
  fst (init_database s) = Return true
  /\ fst (init_database s1) = Return true
  /\ (exists t, sensor_readings (db_file s1) = Some t)
  /\ idx_timestamp (db_file s1) = true
  /\ idx_sensor_name (db_file s1) = true
  /\ db_file s2 = db_file s1
  /\ (forall t, sensor_readings (db_file s) = Some t ->
                sensor_readings (db_file s1) = Some t).
Proof.
  destruct s as [c n [tb i1 i2] l].
  unfold state_after, init_database, commit, try_except, bind, execute,
    read_state, call, set_db_connection, set_db_file, logger, ret, raise,
    create_table_if_not_exists, create_idx_timestamp, create_idx_sensor_name.
  destruct tb as [tb|], i1, i2; simpl;
    repeat split; eauto; intros ? [=].
Qed.

Lemma init_database_idempotent_witness :
  sensor_readings (db_file (state_after init_database two_readings_same_time))
  = Some {| rows := stored_rows two_readings_same_time; seq := 2 |}.
Proof.
  apply (proj2 (proj2 (proj2 (proj2 (proj2 (proj2
           (init_database_idempotent two_readings_same_time))))))).
  reflexivity.
Defined.
End Storage.

(* ===================================================================== *)
(** * The ways the handler and the store end *)
(* ===================================================================== *)

Module Steps.

Import Py Sqlite Subscriber Spec Runs Handler.
Local Open Scope string_scope.
Local Open Scope Z_scope.

Section Steps.
Context {engine : Engine} {library : Library}.

Lemma bind_param_error (v : pyval) (e : exception) :
  bind_param v = inl e ->
  e = OverflowError \/ e = UnicodeEncodeError
  \/ e = SqliteError ProgrammingError.
Proof.
  destruct v as [| |n|[r|]|x| |]; simpl; try discriminate;
    try solve [intros H; inversion H; auto].
  - destruct ((int64_min <=? n) && (n <=? int64_max)); [discriminate|].
    intros H. inversion H. auto.
  - destruct (encodable x); [discriminate|].
    intros H. inversion H. auto.
Qed.

(** An INSERT fails with an error of [sqlite3], or while its parameters
    are bound with one of two errors that are not. *)
Lemma inserted_row_error (ct : string) (n t v u ts : pyval) (tb : table)
    (e : exception) :
  inserted_row ct n t v u ts tb = inl e ->
  e = OverflowError \/ e = UnicodeEncodeError \/ exists se, e = SqliteError se.
Proof.
  assert (B : forall x e', bind_param x = inl e' ->
                e' = OverflowError \/ e' = UnicodeEncodeError
                \/ exists se, e' = SqliteError se).
  { intros x e' H. destruct (bind_param_error _ _ H) as [-> | [-> | ->]]; eauto. }
  unfold inserted_row, bind_parameters, new_rowid, constrain, and_then.
  destruct (bind_param n) as [e1|b1] eqn:B1;
    [intros H; inversion H; subst; eauto|].
  destruct (bind_param t) as [e2|b2] eqn:B2;
    [intros H; inversion H; subst; eauto|].
  destruct (bind_param v) as [e3|b3] eqn:B3;
    [intros H; inversion H; subst; eauto|].
  destruct (bind_param u) as [e4|b4] eqn:B4;
    [intros H; inversion H; subst; eauto|].
  destruct (bind_param ts) as [e5|b5] eqn:B5;
    [intros H; inversion H; subst; eauto|].
  destruct (next_rowid tb <=? int64_max);
    [|intros H; inversion H; eauto].
  destruct (not_null b1), (not_null b2), (not_null b3), (not_null b4),
           (not_null b5);
    intros H; inversion H; eauto.
Qed.

(** The three ways [store_reading] ends, with the state each leaves. *)
Lemma store_reading_cases (clk : clocks) (n t : string) (v u ts : pyval)
    (s : state) :
  (exists tb r,
      sensor_readings (db_file s) = Some tb
      /\ inserted_row (current_timestamp clk) (PyStr n) (PyStr t) v u ts tb
         = inr r
      /\ db_connection s <> None
      /\ store_reading clk n t v u ts s
         = (Return true, filed s (grown (db_file s) tb r)))
  \/ (exists x, store_reading clk n t v u ts s
                = (Return false, logged s ERROR x))
  \/ (exists e, (e = OverflowError \/ e = UnicodeEncodeError)
                /\ store_reading clk n t v u ts s = (Raise (Exception e), s)).
Proof.
  unfold store_reading, commit, bind, read_state, try_except, execute, bind,
    call, read_state, ret, raise, set_db_file, logger, filed, logged, grown.
  destruct s as [conn count db lg]. simpl.
  destruct conn as [c|]; [|right; left; eexists; reflexivity].
  unfold insert_reading. simpl.
  destruct (sensor_readings db) as [tb|] eqn:T; simpl;
    [|right; left; eexists; reflexivity].
  destruct (inserted_row (current_timestamp clk) (PyStr n) (PyStr t) v u ts tb)
    as [e|r] eqn:B; simpl.
  - destruct (inserted_row_error _ _ _ _ _ _ _ _ B) as [-> | [-> | [se ->]]]; simpl.
    + right; right. eexists. split; [left; reflexivity|reflexivity].
    + right; right. eexists. split; [right; reflexivity|reflexivity].
    + right; left. eexists. reflexivity.
  - left. exists tb, r. repeat split; congruence.
Qed.

(** The three ways [parse_message] ends. *)
Lemma parse_message_cases (clk : clocks) (msg : MQTTMessage) (s : state) :
  (exists c, parse_message clk msg s = (Return (Some c), s))
  \/ (exists x, parse_message clk msg s = (Return None, logged s WARNING x))
  \/ (exists e, parse_message clk msg s = (Raise (Exception e), s)).
Proof.
  unfold parse_message, bind, call, ret, raise, logger.
  destruct (Nat.eqb (length (split "/" (topic msg))) 3); simpl;
    [|right; left; eexists; reflexivity].
  destruct (bytes_decode (payload msg)) as [e|text]; simpl;
    [right; right; eexists; reflexivity|].
  destruct (json_loads text) as [e|[| | | | | |items]]; simpl;
    try (right; right; eexists; reflexivity).
  destruct (lookup "value" items) as [[]|]; simpl;
    try (left; eexists; reflexivity);
    right; left; eexists; reflexivity.
Qed.

(** The two ways [on_message] ends on a message whose topic decodes: with
    nothing stored and a line that is not INFO, or with one row stored and
    a line that is [ReadingStored] when the value can be formatted and an
    error otherwise. *)
Lemma on_message_cases (clk : clocks) (msg : MQTTMessage) (s : state) :
  (exists l x,
      l <> INFO
      /\ on_message clk msg s = (Return tt, logged (counted s) l x))
  \/ (exists c tb r l x,
        fst (parse_message clk msg s) = Return (Some c)
        /\ sensor_readings (db_file s) = Some tb
        /\ inserted_row (current_timestamp clk)
             (PyStr (c_sensor_name c)) (PyStr (c_sensor_type c))
             (c_value c) (c_unit c) (c_timestamp c) tb = inr r
        /\ db_connection s <> None
        /\ on_message clk msg s
           = (Return tt,
              logged (filed (counted s) (grown (db_file s) tb r)) l x)
        /\ match format_6_1f (c_value c) with
           | inr shown =>
               l = INFO
               /\ x = ReadingStored (messages_received s + 1)
                        (c_sensor_name c) (c_sensor_type c) shown (c_unit c)
           | inl e =>
               l = ERROR
               /\ x = ErrorProcessingMessage (topic msg) (Exception e)
           end).
Proof.
  unfold on_message, try_except, bind, read_state, set_messages_received.
  simpl. change {| db_connection := db_connection s;
                   messages_received := messages_received s + 1;
                   db_file := db_file s;
                   log := log s |} with (counted s).
  rewrite (parse_message_stateless clk msg s (counted s)).
  destruct (parse_message_cases clk msg (counted s))
    as [[c Hp]|[[x Hp]|[e Hp]]]; rewrite Hp; simpl.
  - destruct (store_reading_cases clk (c_sensor_name c) (c_sensor_type c)
                (c_value c) (c_unit c) (c_timestamp c) (counted s))
      as [[tb [r [T [B [C Hs]]]]]|[[x Hs]|[e [He Hs]]]]; rewrite Hs; simpl.
    + right. exists c, tb, r.
      unfold call, ret, raise, logger.
      destruct (c_value c); simpl;
        eexists _, _; repeat split; auto.
    + left. exists ERROR, x. split; [discriminate|reflexivity].
    + left. destruct He as [-> | ->]; eexists ERROR, _;
        (split; [discriminate|reflexivity]).
  - left. exists WARNING, x. split; [discriminate|reflexivity].
  - left. unfold logger, is_JSONDecodeError, is_Exception.
    destruct e; simpl;
      eexists _, _; (split; [|reflexivity]); discriminate.
Qed.

(** The ways [on_message] ends on the message object of paho: as above
    when the topic decodes, and otherwise by raising, with the message
    counted and nothing else done. *)
Lemma paho_on_message_cases (clk : clocks) (msg : Paho.MQTTMessage)
    (s : state) :
  (exists t, bytes_decode (Paho._topic msg) = inr t
             /\ Paho.on_message clk msg s
                = on_message clk (Paho.decoded t msg) s)
  \/ (exists e, bytes_decode (Paho._topic msg) = inl e
                /\ Paho.on_message clk msg s
                   = (Raise (Exception e), counted s)).
Proof.
  destruct (bytes_decode (Paho._topic msg)) as [e|t] eqn:D.
  - right. exists e. split; [reflexivity|].
    unfold Paho.on_message, Paho.parse_message, Paho.topic, try_except, bind,
      read_state, set_messages_received, call, ret, raise, logger, counted.
    rewrite D. simpl. destruct e; reflexivity.
  - left. exists t. split; [reflexivity|].
    apply Ingestion.on_message_of_decoded_topic. exact D.
Qed.

Lemma parse_message_ok (clk : clocks) (msg : MQTTMessage) (s : state)
    (c : candidate) :
  fst (parse_message clk msg s) = Return (Some c) ->
  parse_message clk msg s = (Return (Some c), s).
Proof.
  destruct (parse_message_cases clk msg s) as [[c' H]|[[x H]|[e H]]];
    rewrite H; simpl; intros E; inversion E. reflexivity.
Qed.

Lemma store_reading_ok (clk : clocks) (n t : string) (v u ts : pyval)
    (s : state) (tb : table) (r : row) :
  db_connection s <> None ->
  sensor_readings (db_file s) = Some tb ->
  inserted_row (current_timestamp clk) (PyStr n) (PyStr t) v u ts tb = inr r ->
  store_reading clk n t v u ts s
  = (Return true, filed s (grown (db_file s) tb r)).
Proof.
  intros C T B.
  unfold store_reading, commit, bind, read_state, try_except, execute, bind,
    call, read_state, ret, raise, set_db_file, logger, filed, logged, grown.
  destruct s as [conn count db lg]. simpl in *.
  destruct conn as [c|]; [|congruence].
  unfold insert_reading. simpl. rewrite T, B. reflexivity.
Qed.

(** A message with a candidate the store takes: the row is appended and
    one line is logged, [ReadingStored] when the value can be formatted and
    an error otherwise. *)
Lemma on_message_stored (clk : clocks) (msg : MQTTMessage) (s : state)
    (c : candidate) (tb : table) (r : row) :
  fst (parse_message clk msg s) = Return (Some c) ->
  db_connection s <> None ->
  sensor_readings (db_file s) = Some tb ->
  inserted_row (current_timestamp clk)
    (PyStr (c_sensor_name c)) (PyStr (c_sensor_type c))
    (c_value c) (c_unit c) (c_timestamp c) tb = inr r ->
  on_message clk msg s
  = (Return tt,
     match format_6_1f (c_value c) with
     | inr shown =>
         logged (filed (counted s) (grown (db_file s) tb r))
           INFO (ReadingStored (messages_received s + 1)
                   (c_sensor_name c) (c_sensor_type c) shown (c_unit c))
     | inl e =>
         logged (filed (counted s) (grown (db_file s) tb r))
           ERROR (ErrorProcessingMessage (topic msg) (Exception e))
     end).
Proof.
  intros Hp C T B.
  unfold on_message, try_except, bind, read_state, set_messages_received.
  simpl. change {| db_connection := db_connection s;
                   messages_received := messages_received s + 1;
                   db_file := db_file s;
                   log := log s |} with (counted s).
  rewrite (parse_message_stateless clk msg s (counted s)) in Hp.
  rewrite (parse_message_ok clk msg (counted s) c Hp). simpl.
  rewrite (store_reading_ok clk _ _ _ _ _ (counted s) tb r C T B).
  simpl. unfold call, ret, raise, logger.
  destruct (c_value c); reflexivity.
Qed.

Lemma max_rowid_ge (rs : list row) (r : row) :
  In r rs -> id r <= max_rowid rs.
Proof.
  induction rs as [|x rs IH]; simpl; intros H; [contradiction|].
  destruct H as [->|H]; [lia|]. specialize (IH H). lia.
Qed.

Lemma next_rowid_above (tb : table) (r : row) :
  In r (rows tb) -> id r < next_rowid tb.
Proof.
  intros H. apply max_rowid_ge in H. unfold next_rowid. lia.
Qed.

(** What one call of the handler does to the table: nothing, or one row
    more, with the next rowid. *)
Lemma on_message_table (clk : clocks) (msg : Paho.MQTTMessage) (s : state) :
  db_file (state_after (Paho.on_message clk msg) s) = db_file s
  \/ exists tb r,
       sensor_readings (db_file s) = Some tb
       /\ id r = next_rowid tb
       /\ next_rowid tb <= int64_max
       /\ db_file (state_after (Paho.on_message clk msg) s)
          = grown (db_file s) tb r.
Proof.
  unfold state_after.
  destruct (paho_on_message_cases clk msg s) as [[t [_ ->]]|[e [_ ->]]];
    [|left; reflexivity].
  destruct (on_message_cases clk (Paho.decoded t msg) s)
    as [[l [x [_ H]]]|[c [tb [r [l [x [_ [T [B [_ [H _]]]]]]]]]]];
    rewrite H; simpl.
  - left. reflexivity.
  - right. exists tb, r. split; [exact T|].
    apply inserted_row_inr in B.
    destruct B as [cn [ck [cv [cu [cts [_ [_ [_ [_ [_ [R ->]]]]]]]]]]].
    repeat split; auto.
Qed.

End Steps.
End Steps.

(* ===================================================================== *)
(** * Further properties of the handler, the store and the queries *)
(* ===================================================================== *)

Module Further.

Import Py Sqlite Subscriber Spec Runs Order Relational Handler Steps Storage.
Local Open Scope string_scope.
Local Open Scope Z_scope.

Lemma StronglySorted_snoc (l : list Z) (x : Z) :
  StronglySorted Z.lt l -> Forall (fun y => y < x) l ->
  StronglySorted Z.lt (l ++ [x]).
Proof.
  induction 1 as [|a l Hl IH Ha]; intros Hx; simpl.
  - repeat constructor.
  - inversion Hx; subst. constructor; [apply IH; assumption|].
    apply Forall_app. split; [exact Ha|]. repeat constructor. assumption.
Qed.

Lemma StronglySorted_lt_NoDup (l : list Z) :
  StronglySorted Z.lt l -> NoDup l.
Proof.
  induction 1 as [|a l Hl IH Ha]; constructor; [|exact IH].
  intros Hin. rewrite Forall_forall in Ha. specialize (Ha a Hin). lia.
Qed.

Section Further.
Context {engine : Engine} {library : Library}.

Lemma handle_all_cons (d : clocks * Paho.MQTTMessage) (ds : deliveries)
    (s : state) :
  handle_all (d :: ds) s
  = handle_all ds (state_after (Paho.on_message (fst d) (snd d)) s).
Proof. reflexivity. Qed.

(** X1.  [store_reading] ends in one of three ways, and never touches the
    connection or the counter: it returns [True] after appending exactly
    one row, with the given sensor name and type and a rowid above all
    others, and logs nothing; or it returns [False], leaves the file as it
    is and logs one error; or it raises [OverflowError] or
    [UnicodeEncodeError], which are not errors of [sqlite3], leaving the
    whole state as it is. *)
Theorem store_reading_outcomes (clk : clocks) (n t : string)
    (v u ts : pyval) (s : state) :
  let r := store_reading clk n t v u ts s in
  db_connection (snd r) = db_connection s
  /\ messages_received (snd r) = messages_received s
  /\ ((fst r = Return true
       /\ log (snd r) = log s
       /\ exists row,
            stored_rows (snd r) = (stored_rows s ++ [row])%list
            /\ sensor_name row = n /\ sensor_type row = t
            /\ Forall (fun old => id old < id row) (stored_rows s))
      \/ (fst r = Return false
          /\ db_file (snd r) = db_file s
          /\ exists x, log (snd r) = (log s ++ [(ERROR, x)])%list)
      \/ ((fst r = Raise (Exception OverflowError)
           \/ fst r = Raise (Exception UnicodeEncodeError))
          /\ snd r = s)).
Proof.
  destruct (store_reading_cases clk n t v u ts s)
    as [[tb [row [T [B [C H]]]]]|[[x H]|[e [He H]]]]; rewrite H; simpl.
  - split; [reflexivity|]. split; [reflexivity|]. left.
    split; [reflexivity|]. split; [reflexivity|].
    exists row. unfold stored_rows. simpl. rewrite T.
    split; [reflexivity|].
    destruct (inserted_row_names _ _ _ _ _ _ _ _ B) as [Hn [Ht Hid]].
    repeat split; auto.
    apply Forall_forall. intros old Hold. rewrite Hid.
    apply next_rowid_above. exact Hold.
  - split; [reflexivity|]. split; [reflexivity|]. right; left.
    split; [reflexivity|]. split; [reflexivity|]. exists x. reflexivity.
  - split; [reflexivity|]. split; [reflexivity|]. right; right.
    split; [|reflexivity]. destruct He as [-> | ->]; auto.
Qed.

Lemma on_message_rowids (clk : clocks) (msg : Paho.MQTTMessage) (s : state) :
  StronglySorted Z.lt (rowids s) ->
  StronglySorted Z.lt (rowids (state_after (Paho.on_message clk msg) s)).
Proof.
  intros H. unfold rowids, stored_rows in *.
  destruct (on_message_table clk msg s) as [E|[tb [r [T [Hid [_ E]]]]]];
    rewrite E; [exact H|].
  rewrite T in H. simpl. rewrite map_app. simpl.
  apply StronglySorted_snoc; [exact H|].
  apply Forall_forall. intros y Hy. apply in_map_iff in Hy.
  destruct Hy as [r' [<- Hr']]. rewrite Hid.
  apply next_rowid_above. exact Hr'.
Qed.

(** X2.  The rowids stay strictly increasing in table order, and so
    distinct, whatever messages are handled: a new row gets a rowid above
    every rowid of the table. *)
Theorem rowids_stay_increasing (ds : deliveries) (s : state) :
  StronglySorted Z.lt (rowids s) ->
  StronglySorted Z.lt (rowids (handle_all ds s))
  /\ NoDup (rowids (handle_all ds s)).
Proof.
  intros H.
  assert (G : StronglySorted Z.lt (rowids (handle_all ds s))).
  { revert s H. induction ds as [|d ds IH]; intros s H; [exact H|].
    rewrite handle_all_cons. apply IH. apply on_message_rowids. exact H. }
  split; [exact G|]. apply StronglySorted_lt_NoDup. exact G.
Qed.

Lemma max_rowid_bound (rs : list row) (m : Z) :
  0 <= m -> Forall (fun r => id r <= m) rs -> max_rowid rs <= m.
Proof.
  intros Hm. induction 1 as [|r rs Hr _ IH]; simpl; lia.
Qed.

Lemma counted_rowids_bound (rs : list row) :
  map id rs = map Z.of_nat (List.seq 1 (length rs)) ->
  Forall (fun r => id r <= Z.of_nat (length rs)) rs.
Proof.
  intros H. apply Forall_forall. intros r Hr.
  assert (Hin : In (id r) (map Z.of_nat (List.seq 1 (length rs))))
    by (rewrite <- H; apply in_map; exact Hr).
  apply in_map_iff in Hin. destruct Hin as [k [Hk Hseq]].
  apply in_seq in Hseq. lia.
Qed.

Lemma on_message_counted_rowids (clk : clocks) (msg : Paho.MQTTMessage)
    (s : state) (tb : table) :
  sensor_readings (db_file s) = Some tb ->
  map id (rows tb) = map Z.of_nat (List.seq 1 (length (rows tb))) ->
  seq tb = Z.of_nat (length (rows tb)) ->
  exists tb',
    sensor_readings (db_file (state_after (Paho.on_message clk msg) s))
    = Some tb'
    /\ map id (rows tb') = map Z.of_nat (List.seq 1 (length (rows tb')))
    /\ seq tb' = Z.of_nat (length (rows tb')).
Proof.
  intros T Hids Hseq.
  destruct (on_message_table clk msg s) as [E|[tb0 [r [T0 [Hid [_ E]]]]]];
    rewrite E.
  - exists tb. auto.
  - rewrite T in T0. inversion T0; subst tb0. clear T0.
    assert (Hnext : next_rowid tb = Z.of_nat (length (rows tb)) + 1).
    { unfold next_rowid. rewrite Hseq.
      pose proof (max_rowid_bound (rows tb) (Z.of_nat (length (rows tb)))
                    ltac:(lia) (counted_rowids_bound _ Hids)).
      lia. }
    eexists. split; [reflexivity|]. simpl.
    rewrite length_app, map_app. simpl.
    rewrite Nat.add_1_r, seq_S, map_app, <- Hids. simpl.
    rewrite Hid, Hnext. split; [f_equal; f_equal; lia|lia].
Qed.

(** X3.  In a table that [init_database] has just created, the rowids
    count the stored rows: after any messages, the k-th row of the table
    has the rowid k. *)
Theorem rowids_count_from_one (ds : deliveries) (s : state) :
  sensor_readings (db_file s) = Some {| rows := []; seq := 0 |} ->
  rowids (handle_all ds s)
  = map Z.of_nat (List.seq 1 (length (stored_rows (handle_all ds s)))).
Proof.
  intros H.
  assert (G : exists tb,
             sensor_readings (db_file (handle_all ds s)) = Some tb
             /\ map id (rows tb) = map Z.of_nat (List.seq 1 (length (rows tb)))
             /\ seq tb = Z.of_nat (length (rows tb))).
  { assert (I : exists tb,
               sensor_readings (db_file s) = Some tb
               /\ map id (rows tb)
                  = map Z.of_nat (List.seq 1 (length (rows tb)))
               /\ seq tb = Z.of_nat (length (rows tb)))
      by (eexists; split; [exact H|split; reflexivity]).
    clear H. revert s I. induction ds as [|d ds IH]; intros s I; [exact I|].
    rewrite handle_all_cons. apply IH.
    destruct I as [tb [T [Hids Hseq]]].
    eapply on_message_counted_rowids; eassumption. }
  destruct G as [tb [T [Hids _]]].
  unfold rowids, stored_rows. rewrite T. exact Hids.
Qed.

(** What one call of the handler leaves behind, whether it returns or
    raises: the message counted, the connection kept, the rows that were
    there followed by at most one new row, and one more log line when the
    topic decodes, none when it does not. *)
Lemma on_message_step (clk : clocks) (msg : Paho.MQTTMessage) (s : state) :
  let s1 := state_after (Paho.on_message clk msg) s in
  messages_received s1 = messages_received s + 1
  /\ db_connection s1 = db_connection s
  /\ (exists new, stored_rows s1 = (stored_rows s ++ new)%list
                  /\ (length new <= 1)%nat)
  /\ length (log s1)
     = (length (log s) + if topic_decodes msg then 1 else 0)%nat.
Proof.
  unfold state_after, topic_decodes.
  destruct (paho_on_message_cases clk msg s) as [[t [D H]]|[e [D H]]];
    rewrite H, D.
  - destruct (on_message_cases clk (Paho.decoded t msg) s)
      as [[l [x [_ H1]]]|[c [tb [r [l [x [_ [T [_ [_ [H1 _]]]]]]]]]]];
      rewrite H1; simpl.
    + repeat split; auto.
      * exists []. rewrite app_nil_r. auto.
      * rewrite length_app. reflexivity.
    + repeat split; auto.
      * exists [r]. unfold stored_rows. simpl. rewrite T. auto.
      * rewrite length_app. reflexivity.
  - simpl. repeat split; auto.
    exists []. rewrite app_nil_r. auto.
Qed.

(** X4.  Calling the handler on a list of messages counts each of them,
    keeps the connection, logs exactly one line for each message whose
    topic decodes and none for the others, and only appends to the table:
    the rows that were there stay, in place and unchanged, and at most one
    row is added per message. *)
Theorem deliveries_counted_logged_appended (ds : deliveries) (s : state) :
  messages_received (handle_all ds s)
  = messages_received s + Z.of_nat (length ds)
  /\ db_connection (handle_all ds s) = db_connection s
  /\ length (log (handle_all ds s))
     = (length (log s) + count_decoded ds)%nat
  /\ exists new,
       stored_rows (handle_all ds s) = (stored_rows s ++ new)%list
       /\ (length new <= length ds)%nat.
Proof.
  revert s. induction ds as [|d ds IH]; intros s.
  - simpl. rewrite Z.add_0_r, Nat.add_0_r.
    repeat split; try reflexivity. exists []. rewrite app_nil_r. auto.
  - rewrite handle_all_cons.
    destruct (on_message_step (fst d) (snd d) s)
      as [Hm1 [Hc1 [[new1 [Hr1 Hn1]] Hl1]]].
    set (s1 := state_after _ s) in *.
    destruct (IH s1) as [Hm [Hc [Hl [new [Hr Hn]]]]].
    rewrite Hm, Hc, Hl, Hr, Hm1, Hc1, Hl1, Hr1.
    cbn [length count_decoded].
    split; [lia|]. split; [reflexivity|].
    split; [destruct (topic_decodes (snd d)); lia|].
    exists (new1 ++ new)%list. rewrite <- app_assoc.
    split; [reflexivity|]. rewrite length_app. lia.
Qed.

(** X5.  A message whose topic decodes leaves exactly one log line, and
    the line can be trusted when it is INFO: it is then the [ReadingStored]
    line of a row that this message has appended, with the row's sensor
    name and type and the number of the message.  A message whose topic
    does not decode leaves no line at all. *)
Theorem one_line_per_message (clk : clocks) (msg : Paho.MQTTMessage)
    (s : state) :
  let s1 := state_after (Paho.on_message clk msg) s in
  if topic_decodes msg then
    exists l x,
      log s1 = (log s ++ [(l, x)])%list
      /\ (l = INFO ->
          exists r shown u,
            x = ReadingStored (messages_received s + 1)
                  (sensor_name r) (sensor_type r) shown u
            /\ appended s s1 = [r])
  else log s1 = log s /\ stored_rows s1 = stored_rows s.
Proof.
  unfold state_after, topic_decodes.
  destruct (paho_on_message_cases clk msg s) as [[t [D H]]|[e [D H]]];
    rewrite H, D; [|split; reflexivity].
  destruct (on_message_cases clk (Paho.decoded t msg) s)
    as [[l [x [Hl H1]]]|[c [tb [r [l [x [_ [T [B [_ [H1 F]]]]]]]]]]];
    rewrite H1; simpl.
  - exists l, x. split; [reflexivity|]. intros E. contradiction.
  - exists l, x. split; [reflexivity|]. intros E.
    destruct (format_6_1f (c_value c)) as [e|shown];
      destruct F as [Fl Fx]; [congruence|].
    destruct (inserted_row_names _ _ _ _ _ _ _ _ B) as [Hn [Ht _]].
    exists r, shown, (c_unit c).
    split; [rewrite Fx, Hn, Ht; reflexivity|].
    eapply appended_snoc; [exact T|]. unfold stored_rows. reflexivity.
Qed.

(** A message the store takes, as the state it leaves: the row is
    appended and one line is logged, [ReadingStored] when the value can be
    formatted and an error otherwise. *)
Lemma paho_message_stored
    (clk : clocks) (msg : Paho.MQTTMessage) (s : state) (tp a S K : string)
    (items : list (string * pyval)) (v : pyval) (cv cu cts : cell)
    (conn : connection) (t : table) :
  bytes_decode (Paho._topic msg) = inr tp ->
  split "/" tp = [a; S; K] ->
  encodable S = true -> encodable K = true ->
  payload_items (Paho.decoded tp msg) = Some items ->
  lookup "value" items = Some v ->
  bind_param v = inr (Some cv) ->
  bound_field "" (lookup "unit" items) = Some cu ->
  bound_field (now_isoformat clk) (lookup "timestamp" items) = Some cts ->
  db_connection s = Some conn ->
  sensor_readings (db_file s) = Some t ->
  next_rowid t <= int64_max ->
  let r := new_row (next_rowid t) (current_timestamp clk)
             (S, K, real_affinity cv, text_affinity cu,
              numeric_affinity cts) in
  let s1 := filed (counted s) (grown (db_file s) t r) in
  Paho.on_message clk msg s
  = (Return tt,
     match format_6_1f v with
     | inr shown =>
         logged s1 INFO
           (ReadingStored (messages_received s + 1) S K shown
              match lookup "unit" items with
              | Some u => u
              | None => PyStr ""
              end)
     | inl e => logged s1 ERROR (ErrorProcessingMessage tp (Exception e))
     end).
Proof.
  intros D Hsplit ES EK Hitems Hvalue Hv Hu Hts Hconn Htable Hrowid r s1.
  rewrite (Ingestion.on_message_of_decoded_topic clk msg s tp D).
  assert (Hne : v <> PyNone) by (intros ->; discriminate).
  pose proof (parse_message_candidate clk (Paho.decoded tp msg) s a S K
                items v Hsplit Hitems Hvalue Hne) as Hp.
  unfold bound_field in Hu, Hts.
  destruct (bind_param match lookup "unit" items with
                       | Some x => x
                       | None => PyStr ""
                       end) as [e|[cu'|]] eqn:Bu; try discriminate.
  destruct (bind_param match lookup "timestamp" items with
                       | Some x => x
                       | None => PyStr (now_isoformat clk)
                       end) as [e|[cts'|]] eqn:Bts; try discriminate.
  inversion Hu; subst cu'. inversion Hts; subst cts'.
  rewrite (on_message_stored clk (Paho.decoded tp msg) s _ t r Hp
             ltac:(congruence) Htable).
  - reflexivity.
  - simpl.
    apply (inserted_row_ok (current_timestamp clk) (PyStr S) (PyStr K) v _ _ t
             (CText S) (CText K) cv cu cts); simpl; try assumption.
    + rewrite ES. reflexivity.
    + rewrite EK. reflexivity.
Qed.


(** X7.  The two queries only read.  Neither raises; each returns [None]
    exactly when there is no connection or no table, and a list otherwise;
    and neither changes the file, the counter or the connection. *)
Theorem queries_only_read (s : state) :
  (exists o, fst (get_latest_readings s) = Return o
             /\ (o = None <-> db_connection s = None
                              \/ sensor_readings (db_file s) = None))
  /\ (exists o, fst (get_readings_summary s) = Return o
                /\ (o = None <-> db_connection s = None
                                 \/ sensor_readings (db_file s) = None))
  /\ db_file (snd (get_latest_readings s)) = db_file s
  /\ db_file (snd (get_readings_summary s)) = db_file s
  /\ messages_received (snd (get_latest_readings s)) = messages_received s
  /\ messages_received (snd (get_readings_summary s)) = messages_received s
  /\ db_connection (snd (get_latest_readings s)) = db_connection s
  /\ db_connection (snd (get_readings_summary s)) = db_connection s.
Proof.
  unfold get_latest_readings, get_readings_summary, fetchall, try_except,
    bind, read_state, ret, raise, logger.
  destruct s as [conn count db lg]. simpl.
  destruct conn as [c|]; simpl; [destruct (sensor_readings db) as [tb|]|];
    simpl; repeat split; try reflexivity;
    eexists; (split; [reflexivity|]);
    (split;
     [intros H; first [discriminate|right; reflexivity|left; reflexivity]
     |intros [H|H]; first [discriminate|reflexivity]]).
Qed.

(** A well-formed message, as a table: the row is appended. *)
Lemma paho_number_stored
    (clk : clocks) (msg : Paho.MQTTMessage) (s : state) (tp a S K : string)
    (items : list (string * pyval)) (v : pyval) (c cu cts : cell)
    (conn : connection) (t : table) :
  bytes_decode (Paho._topic msg) = inr tp ->
  split "/" tp = [a; S; K] ->
  encodable S = true -> encodable K = true ->
  payload_items (Paho.decoded tp msg) = Some items ->
  lookup "value" items = Some v ->
  stored_number v = Some c ->
  bound_field "" (lookup "unit" items) = Some cu ->
  bound_field (now_isoformat clk) (lookup "timestamp" items) = Some cts ->
  db_connection s = Some conn ->
  sensor_readings (db_file s) = Some t ->
  next_rowid t <= int64_max ->
  let r := new_row (next_rowid t) (current_timestamp clk)
             (S, K, c, text_affinity cu, numeric_affinity cts) in
  db_connection (state_after (Paho.on_message clk msg) s) = Some conn
  /\ sensor_readings (db_file (state_after (Paho.on_message clk msg) s))
     = Some {| rows := rows t ++ [r]; seq := next_rowid t |}.
Proof.
  intros D Hsplit ES EK Hitems Hvalue Hnum Hu Hts Hconn Htable Hrowid r.
  assert (Hb : exists c0, bind_param v = inr (Some c0)
                          /\ real_affinity c0 = c).
  { destruct v as [| |n|[x|]| | |]; try discriminate; simpl in *.
    - destruct ((int64_min <=? n) && (n <=? int64_max)); [|discriminate].
      inversion Hnum. eexists. split; reflexivity.
    - inversion Hnum. eexists. split; reflexivity. }
  destruct Hb as [c0 [Hb0 Hc0]].
  unfold state_after.
  rewrite (paho_message_stored clk msg s tp a S K items v c0 cu cts conn t
             D Hsplit ES EK Hitems Hvalue Hb0 Hu Hts Hconn Htable Hrowid).
  rewrite Hc0. fold r.
  destruct (format_6_1f v); simpl; rewrite Hconn; split; reflexivity.
Qed.

(** X8.  What is stored can be read back: after a well-formed message is
    handled, if no row of the same sensor has a later timestamp, then
    [get_latest_readings] returns the Reading of the message (up to the
    equality of SQL on its cells). *)
Theorem stored_reading_is_returned_as_latest
    (clk : clocks) (msg : Paho.MQTTMessage) (s : state) (tp a S K : string)
    (items : list (string * pyval)) (v : pyval) (c cu cts : cell)
    (conn : connection) (t : table) :
  bytes_decode (Paho._topic msg) = inr tp ->
  split "/" tp = [a; S; K] ->
  encodable S = true -> encodable K = true ->
  payload_items (Paho.decoded tp msg) = Some items ->
  lookup "value" items = Some v ->
  stored_number v = Some c ->
  bound_field "" (lookup "unit" items) = Some cu ->
  bound_field (now_isoformat clk) (lookup "timestamp" items) = Some cts ->
  db_connection s = Some conn ->
  sensor_readings (db_file s) = Some t ->
  next_rowid t <= int64_max ->
  (forall r, In r (rows t) -> sensor_name r = S ->
             cell_leb (timestamp r) (numeric_affinity cts) = true) ->
  exists result x,
    fst (get_latest_readings (state_after (Paho.on_message clk msg) s))
    = Return (Some result)
    /\ In x result
    /\ latest_same x (S, K, c, text_affinity cu, numeric_affinity cts) = true.
Proof.
  intros D Hsplit ES EK Hitems Hvalue Hnum Hu Hts Hconn Htable Hrowid Hlatest.
  destruct (paho_number_stored clk msg s tp a S K items v c cu cts conn t
              D Hsplit ES EK Hitems Hvalue Hnum Hu Hts Hconn Htable Hrowid)
    as [Hc Ht].
  set (s' := state_after (Paho.on_message clk msg) s) in *.
  set (r := new_row (next_rowid t) (current_timestamp clk)
              (S, K, c, text_affinity cu, numeric_affinity cts)) in *.
  exists (query_latest (rows t ++ [r])).
  assert (Hrun : fst (get_latest_readings s')
                 = Return (Some (query_latest (rows t ++ [r])))).
  { unfold get_latest_readings, bind, read_state, try_except. rewrite Hc.
    rewrite (fetchall_run _ query_latest s' _ Ht). reflexivity. }
  assert (Hr : In r (rows t ++ [r])) by (apply in_or_app; right; left; auto).
  destruct (distinct_complete _ latest_same
              (map select_latest
                 (filter (in_subquery (max_timestamp_per_sensor
                                         (rows t ++ [r]))) (rows t ++ [r])))
              (select_latest r) latest_same_refl latest_same_trans)
    as [y [Hy Hsame]].
  { apply in_map. apply filter_In. split; [exact Hr|].
    apply in_subquery_iff; [exact Hr|].
    intros r' Hr' Hname. apply in_app_or in Hr'.
    destruct Hr' as [Hr'|[<-|[]]]; [|apply cell_leb_refl].
    apply Hlatest; assumption. }
  exists y. split; [exact Hrun|]. split; [|exact Hsame].
  unfold query_latest. apply order_by_In. exact Hy.
Qed.

(** The rows of the summary: one for each key of a row, made from the rows
    of that key. *)
Lemma query_summary_In (rs : list row) (x : summary_row) :
  In x (query_summary rs)
  <-> exists r, In r rs
        /\ x = summarize
                 ((sensor_name r, sensor_type r),
                  filter (fun r' => name_type_eqb
                                      (sensor_name r', sensor_type r')
                                      (sensor_name r, sensor_type r)) rs).
Proof.
  unfold query_summary. rewrite order_by_In, in_map_iff.
  set (key := fun r : row => (sensor_name r, sensor_type r)).
  destruct (group_by_spec _ _ key name_type_eqb name_type_eqb_eq rs)
    as [_ [Hkeys Hgroups]].
  split.
  - intros [[k g] [Hx Hg]]. destruct (Hgroups _ _ Hg) as [Hf Hne].
    assert (Hk : In k (map fst (group_by key name_type_eqb rs)))
      by (apply in_map_iff; exists (k, g); auto).
    apply Hkeys in Hk. destruct Hk as [r [Hr Hkr]].
    exists r. split; [exact Hr|]. rewrite <- Hx, Hf. unfold key in Hkr.
    rewrite Hkr. reflexivity.
  - intros [r [Hr ->]].
    assert (Hk : In (key r) (map fst (group_by key name_type_eqb rs)))
      by (apply Hkeys; eauto).
    apply in_map_iff in Hk. destruct Hk as [[k g] [Hfst Hg]].
    simpl in Hfst. subst k. destruct (Hgroups _ _ Hg) as [Hf _].
    exists (key r, g). split; [|exact Hg]. rewrite Hf. reflexivity.
Qed.

(** X9.  A stored Reading counts once in the summary: after a well-formed
    message on sensor S and kind K, the summary has a row for (S, K) whose
    count is one more than the number of rows the pair had, and the rows of
    all other pairs are those of the summary before. *)
Theorem stored_reading_counts_once_in_summary
    (clk : clocks) (msg : Paho.MQTTMessage) (s : state) (tp a S K : string)
    (items : list (string * pyval)) (v : pyval) (c cu cts : cell)
    (conn : connection) (t : table) :
  bytes_decode (Paho._topic msg) = inr tp ->
  split "/" tp = [a; S; K] ->
  encodable S = true -> encodable K = true ->
  payload_items (Paho.decoded tp msg) = Some items ->
  lookup "value" items = Some v ->
  stored_number v = Some c ->
  bound_field "" (lookup "unit" items) = Some cu ->
  bound_field (now_isoformat clk) (lookup "timestamp" items) = Some cts ->
  db_connection s = Some conn ->
  sensor_readings (db_file s) = Some t ->
  next_rowid t <= int64_max ->
  exists before after,
    fst (get_readings_summary s) = Return (Some before)
    /\ fst (get_readings_summary (state_after (Paho.on_message clk msg) s))
       = Return (Some after)
    /\ (forall x, summary_key x <> (S, K) -> (In x before <-> In x after))
    /\ exists min_val max_val avg_val,
         In (S, K, Z.of_nat (length (values_of S K (rows t))) + 1,
             min_val, max_val, avg_val) after.
Proof.
  intros D Hsplit ES EK Hitems Hvalue Hnum Hu Hts Hconn Htable Hrowid.
  destruct (paho_number_stored clk msg s tp a S K items v c cu cts conn t
              D Hsplit ES EK Hitems Hvalue Hnum Hu Hts Hconn Htable Hrowid)
    as [Hc Ht].
  set (s' := state_after (Paho.on_message clk msg) s) in *.
  set (r := new_row (next_rowid t) (current_timestamp clk)
              (S, K, c, text_affinity cu, numeric_affinity cts)) in *.
  exists (query_summary (rows t)), (query_summary (rows t ++ [r])).
  split.
  { unfold get_readings_summary, bind, read_state, try_except. rewrite Hconn.
    rewrite (fetchall_run _ query_summary s _ Htable). reflexivity. }
  split.
  { unfold get_readings_summary, bind, read_state, try_except. rewrite Hc.
    rewrite (fetchall_run _ query_summary s' _ Ht). reflexivity. }
  assert (Hkey : (sensor_name r, sensor_type r) = (S, K)) by reflexivity.
  split.
  - intros x Hx. rewrite !query_summary_In. split.
    + intros [r0 [Hr0 ->]]. exists r0.
      split; [apply in_or_app; left; exact Hr0|].
      rewrite filter_app. cbn [filter].
      rewrite summary_key_summarize in Hx. simpl in Hx.
      destruct (name_type_eqb (sensor_name r, sensor_type r)
                  (sensor_name r0, sensor_type r0)) eqn:E;
        [|rewrite app_nil_r; reflexivity].
      apply name_type_eqb_eq in E. congruence.
    + intros [r0 [Hr0 ->]].
      rewrite summary_key_summarize in Hx. simpl in Hx.
      apply in_app_or in Hr0. destruct Hr0 as [Hr0|[<-|[]]];
        [|congruence].
      exists r0. split; [exact Hr0|].
      rewrite filter_app. cbn [filter].
      destruct (name_type_eqb (sensor_name r, sensor_type r)
                  (sensor_name r0, sensor_type r0)) eqn:E;
        [|rewrite app_nil_r; reflexivity].
      apply name_type_eqb_eq in E. congruence.
  - eexists _, _, _. apply query_summary_In. exists r.
    split; [apply in_or_app; right; left; reflexivity|].
    unfold summarize. cbn [fst snd]. rewrite Hkey. cbn [fst snd].
    f_equal. f_equal. f_equal. f_equal.
    unfold sql_count, values_of. rewrite filter_app, length_app, length_map.
    assert (Hf : filter (fun r' : row =>
                           name_type_eqb (sensor_name r', sensor_type r')
                             (S, K)) [r] = [r]).
    { unfold r, name_type_eqb. simpl. rewrite !String.eqb_refl. reflexivity. }
    rewrite Hf. cbn [length]. rewrite Nat2Z.inj_add. reflexivity.
Qed.

Lemma add_to_group_total (A K : Type) (key : A -> K)
    (key_eqb : K -> K -> bool) (r : A) (gs : list (K * list A)) :
  list_sum (map (fun g => length (snd g)) (add_to_group key key_eqb r gs))
  = S (list_sum (map (fun g => length (snd g)) gs)).
Proof.
  induction gs as [|[k members] gs IH]; simpl; [reflexivity|].
  destruct (key_eqb (key r) k); simpl.
  - rewrite length_app. simpl. lia.
  - rewrite IH. lia.
Qed.

(** GROUP BY loses no row and repeats none: the sizes of the groups add up
    to the number of rows. *)
Lemma group_by_total (A K : Type) (key : A -> K) (key_eqb : K -> K -> bool)
    (rs : list A) :
  list_sum (map (fun g => length (snd g)) (group_by key key_eqb rs))
  = length rs.
Proof.
  induction rs as [|r rs IH] using rev_ind; [reflexivity|].
  unfold group_by in *. rewrite fold_left_app. simpl.
  rewrite add_to_group_total, IH, length_app. simpl. lia.
Qed.

(** X10.  The summary accounts for every stored row once: the counts of
    its groups add up to the number of rows in the table. *)
Theorem summary_counts_add_up (s : state) (conn : connection) (t : table) :
  db_connection s = Some conn ->
  sensor_readings (db_file s) = Some t ->
  exists result,
    fst (get_readings_summary s) = Return (Some result)
    /\ fold_right Z.add 0 (map summary_count result)
       = Z.of_nat (length (rows t)).
Proof.
  intros Hconn Htable. exists (query_summary (rows t)). split.
  { unfold get_readings_summary, bind, read_state, try_except. rewrite Hconn.
    rewrite (fetchall_run _ query_summary s t Htable). reflexivity. }
  unfold query_summary.
  set (groups := group_by _ _ (rows t)).
  set (leb := fun x y => name_type_leb (summary_key x) (summary_key y)).
  assert (P : Permutation (map summary_count (map summarize groups))
                (map summary_count (order_by leb (map summarize groups))))
    by (apply Permutation_map, order_by_perm).
  assert (Hsum : forall l l' : list Z, Permutation l l' ->
                   fold_right Z.add 0 l = fold_right Z.add 0 l').
  { induction 1; simpl; lia. }
  rewrite <- (Hsum _ _ P), map_map.
  rewrite <- (group_by_total _ _ (fun r : row => (sensor_name r, sensor_type r))
                name_type_eqb (rows t)).
  fold groups. clear. induction groups as [|[[n k] g] gs IH]; [reflexivity|].
  cbn [map fold_right list_sum]. rewrite IH.
  unfold summarize, sql_count. cbn [fst snd summary_count].
  rewrite Nat2Z.inj_add. reflexivity.
Qed.

(** X11.  No sensor is left out of the latest readings: every sensor_name
    that has a stored row has a row in the result of
    [get_latest_readings]. *)
Theorem every_sensor_has_a_latest_reading
    (s : state) (conn : connection) (t : table) (r : row) :
  db_connection s = Some conn ->
  sensor_readings (db_file s) = Some t ->
  In r (rows t) ->
  exists result x,
    fst (get_latest_readings s) = Return (Some result)
    /\ In x result
    /\ fst (latest_key x) = sensor_name r.
Proof.
  intros Hconn Htable Hr. exists (query_latest (rows t)).
  assert (Hrun : fst (get_latest_readings s)
                 = Return (Some (query_latest (rows t)))).
  { unfold get_latest_readings, bind, read_state, try_except. rewrite Hconn.
    rewrite (fetchall_run _ query_latest s t Htable). reflexivity. }
  set (mine := filter (fun r0 => String.eqb (sensor_name r0) (sensor_name r))
                 (rows t)).
  assert (Hmine : In r mine)
    by (apply filter_In; split; [exact Hr|apply String.eqb_refl]).
  destruct (sql_max_spec (map timestamp mine)) as [m [_ [Hin Hall]]].
  { intros E. apply map_eq_nil in E. rewrite E in Hmine. contradiction. }
  apply in_map_iff in Hin. destruct Hin as [r0 [Hm Hr0]].
  apply filter_In in Hr0. destruct Hr0 as [Hr0 Hname].
  apply String.eqb_eq in Hname.
  destruct (distinct_complete _ latest_same
              (map select_latest
                 (filter (in_subquery (max_timestamp_per_sensor (rows t)))
                    (rows t)))
              (select_latest r0) latest_same_refl latest_same_trans)
    as [y [Hy Hsame]].
  { apply in_map. apply filter_In. split; [exact Hr0|].
    apply in_subquery_iff; [exact Hr0|].
    intros r' Hr' Hn. rewrite Hm. apply Hall. apply in_map.
    apply filter_In. split; [exact Hr'|]. apply String.eqb_eq. congruence. }
  exists y. split; [exact Hrun|]. split.
  - unfold query_latest. apply order_by_In. exact Hy.
  - destruct y as [[[[n k] v] u] ts]. unfold select_latest in Hsame.
    simpl in Hsame. rewrite !andb_true_iff in Hsame.
    destruct Hsame as [[[[Hn _] _] _] _]. apply String.eqb_eq in Hn.
    simpl. congruence.
Qed.

End Further.

Lemma rowids_stay_increasing_witness :
  StronglySorted Z.lt
    (rowids (@handle_all example_engine further_library three_deliveries
               started))
  /\ NoDup (rowids (@handle_all example_engine further_library
                      three_deliveries started)).
Proof.
  apply (@rowids_stay_increasing example_engine further_library
           three_deliveries started).
  vm_compute. constructor.
Defined.

Lemma rowids_count_from_one_witness :
  rowids (@handle_all example_engine further_library three_deliveries started)
  = map Z.of_nat
      (List.seq 1
         (length (stored_rows (@handle_all example_engine further_library
                                 three_deliveries started)))).
Proof.
  apply (@rowids_count_from_one example_engine further_library
           three_deliveries started).
  reflexivity.
Defined.

(** The three messages of the example: the first and the last are stored
    with the rowids 1 and 2, the one on [bad/topic] is not. *)
Example rowids_of_three_deliveries :
  rowids (@handle_all example_engine further_library three_deliveries started)
  = [1; 2].
Proof. reflexivity. Qed.


Lemma stored_reading_is_returned_as_latest_witness :
  exists result x,
    fst (get_latest_readings
           (deliver_further "sensors/deskA/temperature" payload_full started))
    = Return (Some result)
    /\ In x result
    /\ latest_same x ("deskA", "temperature", CReal (Finite (43 # 2)), "C",
                      CText "2024-01-01T00:00:00") = true.
Proof.
  apply (@stored_reading_is_returned_as_latest example_engine further_library
           example_clocks full_message started
           "sensors/deskA/temperature" "sensors" "deskA" "temperature"
           [("value", PyFloat (Num (Finite (43 # 2)))); ("unit", PyStr "C");
            ("timestamp", PyStr "2024-01-01T00:00:00")]
           (PyFloat (Num (Finite (43 # 2)))) (CReal (Finite (43 # 2)))
           (CText "C") (CText "2024-01-01T00:00:00")
           Connection {| rows := []; seq := 0 |});
    try reflexivity.
  - vm_compute. discriminate.
  - intros r [].
Defined.

Lemma stored_reading_counts_once_in_summary_witness :
  exists before after,
    fst (@get_readings_summary example_engine started) = Return (Some before)
    /\ fst (@get_readings_summary example_engine
              (deliver_further "sensors/deskA/temperature" payload_full
                 started))
       = Return (Some after)
    /\ (forall x, summary_key x <> ("deskA", "temperature") ->
                  (In x before <-> In x after))
    /\ exists min_val max_val avg_val,
         In ("deskA", "temperature",
             Z.of_nat (length (values_of "deskA" "temperature" [])) + 1,
             min_val, max_val, avg_val) after.
Proof.
  apply (@stored_reading_counts_once_in_summary example_engine further_library
           example_clocks full_message started
           "sensors/deskA/temperature" "sensors" "deskA" "temperature"
           [("value", PyFloat (Num (Finite (43 # 2)))); ("unit", PyStr "C");
            ("timestamp", PyStr "2024-01-01T00:00:00")]
           (PyFloat (Num (Finite (43 # 2)))) (CReal (Finite (43 # 2)))
           (CText "C") (CText "2024-01-01T00:00:00")
           Connection {| rows := []; seq := 0 |});
    try reflexivity.
  vm_compute. discriminate.
Defined.

Lemma summary_counts_add_up_witness :
  exists result,
    fst (@get_readings_summary example_engine two_readings)
    = Return (Some result)
    /\ fold_right Z.add 0 (map summary_count result)
       = Z.of_nat (length (stored_rows two_readings)).
Proof.
  apply (@summary_counts_add_up example_engine two_readings Connection
           {| rows := stored_rows two_readings; seq := 2 |});
    reflexivity.
Defined.

Lemma every_sensor_has_a_latest_reading_witness :
  exists result x,
    fst (get_latest_readings two_readings)
    = Return (Some result)
    /\ In x result
    /\ fst (latest_key x) = "deskA".
Proof.
  apply (every_sensor_has_a_latest_reading two_readings
           Connection {| rows := stored_rows two_readings; seq := 2 |}
           {| id := 1; sensor_name := "deskA"; sensor_type := "temperature";
              value := CReal (Finite (43 # 2)); unit := "C";
              timestamp := CText "2024-01-01T00:00:00";
              received_at := Some (CText "2024-01-01 00:10:00") |}).
  - reflexivity.
  - reflexivity.
  - vm_compute. left. reflexivity.
Defined.

End Further.

(* ===================================================================== *)
(** * The callbacks of the connection, the reporting loop and the
      shutdown *)
(* ===================================================================== *)

Module Program.

Import Py Sqlite Subscriber Spec Runs Order Relational Handler Steps Storage
  Further.
Local Open Scope string_scope.
Local Open Scope Z_scope.

Lemma journaled_twice (p : Process.process)
    (a b : list (level * Process.line)) :
  journaled (journaled p a) b = journaled p (a ++ b).
Proof. unfold journaled. simpl. rewrite <- app_assoc. reflexivity. Qed.

Lemma subscribe_each_run (results : string -> Z)
    (topics : list (string * Z)) :
  forall (p : Process.process) (c : Process.client),
    Process.mqtt_client p = Some c ->
    Process.subscribe_each results topics p
    = (Return tt,
       {| Process.mqtt_client :=
            Some {| Process.connected := Process.connected c;
                    Process.loop_running := Process.loop_running c;
                    Process.requests := Process.requests c ++ topics |};
          Process.db_connection := Process.db_connection p;
          Process.messages_received := Process.messages_received p;
          Process.db_file := Process.db_file p;
          Process.db_closed := Process.db_closed p;
          Process.journal :=
            Process.journal p ++ map (subscription_line results) topics |}).
Proof.
  induction topics as [|[topic qos] topics IH]; intros p c Hc.
  - destruct p as [mc dc mr df cl jl], c as [cn lr rq]. simpl in *.
    rewrite Hc, !app_nil_r. reflexivity.
  - destruct p as [mc dc mr df cl jl]. simpl in Hc. subst mc.
    cbn [Process.subscribe_each].
    unfold Process.and_next, Process.subscribe, Process.journal_line.
    cbn [Process.mqtt_client Process.db_connection
         Process.messages_received Process.db_file Process.db_closed
         Process.journal map].
    change (subscription_line results (topic, qos))
      with (if results topic =? Process.MQTT_ERR_SUCCESS
            then (INFO, Process.SubscribedTo topic)
            else (WARNING, Process.FailedToSubscribeTo topic)).
    destruct (results topic =? Process.MQTT_ERR_SUCCESS);
      erewrite IH by reflexivity;
      cbn [Process.mqtt_client Process.db_connection
           Process.messages_received Process.db_file Process.db_closed
           Process.journal Process.connected Process.loop_running
           Process.requests];
      rewrite <- !app_assoc; reflexivity.
Qed.

(** X12.  On a successful connection [on_connect] requests every topic of
    [TOPICS] once, in order and with its qos, whatever the results: a
    subscription that fails is logged as a warning and the next one is
    requested.  On a refused connection it requests nothing and logs one
    error.  It touches nothing else and does not raise. *)
Theorem on_connect_requests_every_topic (results : string -> Z) (rc : Z)
    (p : Process.process) (c : Process.client) :
  Process.mqtt_client p = Some c ->
  Process.on_connect results rc p
  = (Return tt,
     if rc =? 0 then
       {| Process.mqtt_client :=
            Some {| Process.connected := Process.connected c;
                    Process.loop_running := Process.loop_running c;
                    Process.requests :=
                      Process.requests c ++ Process.TOPICS |};
          Process.db_connection := Process.db_connection p;
          Process.messages_received := Process.messages_received p;
          Process.db_file := Process.db_file p;
          Process.db_closed := Process.db_closed p;
          Process.journal :=
            Process.journal p
            ++ (INFO, Process.ConnectedToBroker)
               :: map (subscription_line results) Process.TOPICS |}
     else journaled p [(ERROR, Process.ConnectionFailed rc)]).
Proof.
  intros Hc. unfold Process.on_connect.
  destruct (rc =? 0); [|reflexivity].
  unfold Process.and_next, Process.journal_line.
  erewrite subscribe_each_run by exact Hc. simpl.
  rewrite <- app_assoc. reflexivity.
Qed.

Section Program.
Context {engine : Engine} {library : Library}.

Lemma summary_in_process (p : Process.process) (conn : connection)
    (t : table) :
  Process.db_connection p = Some conn ->
  sensor_readings (Process.db_file p) = Some t ->
  Process.in_subscriber get_readings_summary p
  = (Return (Some (query_summary (rows t))), journaled p []).
Proof.
  intros Hc Ht. unfold Process.in_subscriber.
  unfold get_readings_summary, bind, read_state, try_except. simpl.
  rewrite Hc.
  rewrite (fetchall_run _ query_summary (Process.globals p) t Ht).
  simpl. unfold journaled. rewrite Hc. reflexivity.
Qed.

Lemma report_rows_ok (xs : list summary_row) : forall p : Process.process,
  Forall (fun x => exists l, Process.format_summary_line x = inr l) xs ->
  exists lines,
    Process.report_rows xs p = (Return tt, journaled p lines)
    /\ Forall2 (fun x l => fst l = INFO
                           /\ Process.format_summary_line x = inr (snd l))
               xs lines.
Proof.
  induction xs as [|x xs IH]; intros p H.
  - exists []. split; [|constructor]. unfold journaled. simpl.
    destruct p; simpl; rewrite app_nil_r; reflexivity.
  - inversion H as [|? ? [l Hl] Hxs]; subst.
    cbn [Process.report_rows]. unfold Process.and_next at 1.
    rewrite Hl. cbn [Process.library_call Process.pure].
    unfold Process.and_next at 1.
    change (Process.journal_line INFO l p) with (Return tt, journaled p [(INFO, l)]).
    cbv beta iota.
    destruct (IH (journaled p [(INFO, l)]) Hxs) as [lines [Hrun Hall]].
    exists ((INFO, l) :: lines). rewrite Hrun, journaled_twice.
    split; [reflexivity|]. constructor; [split; [reflexivity|exact Hl]|].
    exact Hall.
Qed.

Lemma report_rows_raises (xs : list summary_row) : forall p : Process.process,
  Exists (fun x => exists e, Process.format_summary_line x = inl e) xs ->
  exists e lines,
    Process.report_rows xs p = (Raise (Exception e), journaled p lines).
Proof.
  induction xs as [|x xs IH]; intros p H; [inversion H|].
  cbn [Process.report_rows]. unfold Process.and_next at 1.
  destruct (Process.format_summary_line x) as [e|l] eqn:F.
  - exists e, []. cbn [Process.library_call Process.throw].
    unfold journaled. destruct p; simpl; rewrite app_nil_r; reflexivity.
  - cbn [Process.library_call Process.pure].
    unfold Process.and_next at 1.
    change (Process.journal_line INFO l p) with (Return tt, journaled p [(INFO, l)]).
    cbv beta iota.
    assert (Hxs : Exists (fun x => exists e,
                            Process.format_summary_line x = inl e) xs).
    { inversion H as [? ? [e He]|]; subst; [congruence|assumption]. }
    destruct (IH (journaled p [(INFO, l)]) Hxs) as [e [lines Hrun]].
    exists e, ((INFO, l) :: lines). rewrite Hrun, journaled_twice.
    reflexivity.
Qed.

Lemma finite_real_not_text (c : cell) :
  finite_real c = true -> is_text c = false.
Proof. destruct c as [|[]|]; simpl; congruence. Qed.

Lemma format_fetched_number (c : cell) :
  is_text c = false -> Process.format_fetched (Some c) = inr c.
Proof. destruct c; simpl; congruence. Qed.

Lemma format_fetched_text (c : cell) :
  is_text c = true -> Process.format_fetched (Some c) = inl ValueError.
Proof. destruct c; simpl; congruence. Qed.

Lemma text_is_above_numbers (a m : cell) :
  is_text a = true -> cell_leb a m = true -> is_text m = true.
Proof. destruct a, m; simpl; try discriminate; reflexivity. Qed.

(** The sum of finite doubles is a number: it may overflow to an infinity,
    and then stays there. *)
Lemma double_sum_of_finite (cs : list cell) :
  Forall (fun c => finite_real c = true) cs ->
  forall r, exists r',
    fold_left float_add (map cell_number cs) (Num r) = Num r'.
Proof.
  induction 1 as [|c cs Hc _ IH]; intros r; [exists r; reflexivity|].
  destruct c as [|[q|]|]; try discriminate. simpl.
  destruct r as [p|b]; simpl.
  - rewrite Doubles.double_nearest. apply IH.
  - apply IH.
Qed.

Lemma double_mean_of_finite (cs : list cell) :
  cs <> [] -> Forall (fun c => finite_real c = true) cs ->
  exists r, double_mean cs = Some (CReal r).
Proof.
  intros Hne H. unfold double_mean, double_sum.
  destruct cs as [|c cs]; [congruence|].
  destruct (double_sum_of_finite _ H (Finite 0)) as [r Hr]. rewrite Hr.
  unfold float_div. destruct r as [p|b]; [|eexists; reflexivity].
  destruct (nearest _) as [q|b]; [|eexists; reflexivity].
  rewrite Doubles.double_nearest. eexists. reflexivity.
Qed.

(** The summary rows of a table of finite numbers can be formatted. *)
Lemma summary_of_numbers_formats (rs : list row) :
  Forall (fun r => finite_real (value r) = true) rs ->
  Forall (fun x => exists l, Process.format_summary_line x = inr l)
         (query_summary rs).
Proof.
  intros H. apply Forall_forall. intros x Hx.
  apply query_summary_In in Hx. destruct Hx as [r [Hr ->]].
  set (g := filter _ rs).
  assert (Hg : Forall (fun c => finite_real c = true) (map value g)).
  { apply Forall_forall. intros c Hc. apply in_map_iff in Hc.
    destruct Hc as [r' [<- Hr']]. apply filter_In in Hr'.
    rewrite Forall_forall in H. apply H. apply Hr'. }
  assert (Hne : map value g <> []).
  { intros E. apply map_eq_nil in E.
    assert (Hin : In r g).
    { apply filter_In. split; [exact Hr|]. apply name_type_eqb_eq.
      reflexivity. }
    rewrite E in Hin. contradiction. }
  destruct (sql_min_spec _ Hne) as [mn [Hmin [Hmn _]]].
  destruct (sql_max_spec _ Hne) as [mx [Hmax [Hmx _]]].
  destruct (double_mean_of_finite _ Hne Hg) as [av Havg].
  rewrite Forall_forall in Hg.
  unfold summarize, Process.format_summary_line. cbn [fst snd].
  rewrite Hmin, Hmax, sql_avg_double_mean, Havg.
  rewrite (format_fetched_number mn)
    by (apply finite_real_not_text; auto).
  rewrite (format_fetched_number mx)
    by (apply finite_real_not_text; auto).
  simpl. eauto.
Qed.

(** The summary of a table with a text value has a row that cannot be
    formatted. *)
Lemma summary_of_a_text_does_not_format (rs : list row) (r : row) :
  In r rs -> is_text (value r) = true ->
  Exists (fun x => exists e, Process.format_summary_line x = inl e)
         (query_summary rs).
Proof.
  intros Hr Ht. apply Exists_exists.
  eexists. split; [apply query_summary_In; exists r; split;
                   [exact Hr|reflexivity]|].
  set (g := filter _ rs).
  assert (Hin : In (value r) (map value g)).
  { apply in_map. apply filter_In. split; [exact Hr|].
    apply name_type_eqb_eq. reflexivity. }
  assert (Hne : map value g <> []) by (intros E; rewrite E in Hin; auto).
  destruct (sql_max_spec _ Hne) as [mx [Hmax [_ Hall]]].
  pose proof (text_is_above_numbers _ _ Ht (Hall _ Hin)) as Hmx.
  unfold summarize, Process.format_summary_line. cbn [fst snd].
  rewrite Hmax, (format_fetched_text mx Hmx).
  destruct (Process.format_fetched (sql_min (map value g))) as [e|mn];
    simpl; eauto.
Qed.

Lemma query_summary_nil : @query_summary engine [] = [].
Proof. reflexivity. Qed.

Lemma query_summary_not_nil (rs : list row) :
  rs <> [] -> query_summary rs <> [].
Proof.
  destruct rs as [|r rs]; [congruence|]. intros _ E.
  assert (H : In (summarize
                    ((sensor_name r, sensor_type r),
                     filter (fun r' => name_type_eqb
                                         (sensor_name r', sensor_type r')
                                         (sensor_name r, sensor_type r))
                            (r :: rs)))
                 (query_summary (r :: rs))).
  { apply query_summary_In. exists r. split; [left|]; reflexivity. }
  rewrite E in H. contradiction.
Qed.

(** X13.  One round of the reporting loop on a table of finite numbers:
    nothing is logged when the table is empty; otherwise the header and
    then one line for each (sensor_name, sensor_type) pair, in the order of
    the summary.  The round does not raise and changes nothing but the
    log. *)
Theorem report_logs_one_line_per_pair (p : Process.process)
    (conn : connection) (t : table) :
  Process.db_connection p = Some conn ->
  sensor_readings (Process.db_file p) = Some t ->
  Forall (fun r => finite_real (value r) = true) (rows t) ->
  exists lines,
    Process.report p = (Return tt, journaled p lines)
    /\ (rows t = [] -> lines = [])
    /\ (rows t <> [] ->
        exists body,
          lines = (INFO, Process.DatabaseSummary) :: body
          /\ Forall2 (fun x l => fst l = INFO
                                 /\ Process.format_summary_line x
                                    = inr (snd l))
                     (query_summary (rows t)) body).
Proof.
  intros Hc Ht Hfin. unfold Process.report, Process.and_next.
  rewrite (summary_in_process p conn t Hc Ht).
  destruct (query_summary (rows t)) as [|x xs] eqn:Q.
  - exists []. split; [reflexivity|]. split; [reflexivity|].
    intros Hne. apply query_summary_not_nil in Hne. congruence.
  - change (Process.journal_line INFO Process.DatabaseSummary
              (journaled p []))
      with (Return tt, journaled (journaled p [])
                         [(INFO, Process.DatabaseSummary)]).
    cbv beta iota.
    pose proof (summary_of_numbers_formats _ Hfin) as Hfmt.
    rewrite Q in Hfmt.
    destruct (report_rows_ok (x :: xs)
                (journaled (journaled p [])
                   [(INFO, Process.DatabaseSummary)]) Hfmt)
      as [body [Hrun Hall]].
    exists ((INFO, Process.DatabaseSummary) :: body).
    rewrite Hrun, !journaled_twice. split; [reflexivity|].
    split.
    + intros E. rewrite E, query_summary_nil in Q. discriminate.
    + intros _. exists body. auto.
Qed.

Lemma cleanup_run (p : Process.process) (c : Process.client)
    (conn : connection) :
  Process.mqtt_client p = Some c ->
  Process.db_connection p = Some conn ->
  Process.cleanup p
  = (Return tt, closed_down p c (shutdown_lines (Process.messages_received p))).
Proof.
  intros Hc Hd. destruct p as [mc dc mr df cl jl]. simpl in *. subst.
  unfold Process.cleanup, Process.and_next, Process.journal_line,
    Process.read_process, Process.set_mqtt_client, Process.set_db_closed,
    closed_down, shutdown_lines. simpl.
  rewrite <- !app_assoc. reflexivity.
Qed.

(** Leaving the loop by an exception: the error is logged and [cleanup]
    runs. *)
Lemma serve_after_error (events : list Process.event)
    (p p1 : Process.process) (e : exception) (c : Process.client)
    (conn : connection) :
  Process.main_loop events p = (Raise (Exception e), p1) ->
  Process.mqtt_client p1 = Some c ->
  Process.db_connection p1 = Some conn ->
  Process.serve events p
  = (Return Process.Exited,
     closed_down p1 c
       ((ERROR, Process.UnexpectedErrorInMainLoop (Exception e))
        :: shutdown_lines (Process.messages_received p1))).
Proof.
  intros Hrun Hc Hd. unfold Process.serve. rewrite Hrun. simpl.
  unfold Process.and_next, Process.journal_line, Process.pure.
  rewrite (cleanup_run _ c conn) by (simpl; assumption).
  unfold closed_down. simpl. rewrite <- app_assoc. reflexivity.
Qed.

Lemma serve_after_interrupt (events : list Process.event)
    (p p1 : Process.process) (c : Process.client) (conn : connection) :
  Process.main_loop events p = (Raise KeyboardInterrupt, p1) ->
  Process.mqtt_client p1 = Some c ->
  Process.db_connection p1 = Some conn ->
  Process.serve events p
  = (Return Process.Exited,
     closed_down p1 c
       ((INFO, Process.ShutdownRequested)
        :: shutdown_lines (Process.messages_received p1))).
Proof.
  intros Hrun Hc Hd. unfold Process.serve. rewrite Hrun. simpl.
  unfold Process.and_next, Process.journal_line, Process.pure.
  rewrite (cleanup_run _ c conn) by (simpl; assumption).
  unfold closed_down. simpl. rewrite <- app_assoc. reflexivity.
Qed.

(** A round of the loop on a table with a text value raises. *)
Lemma report_of_a_text_raises (p : Process.process) (conn : connection)
    (t : table) (r : row) :
  Process.db_connection p = Some conn ->
  sensor_readings (Process.db_file p) = Some t ->
  In r (rows t) -> is_text (value r) = true ->
  exists e lines,
    Process.report p = (Raise (Exception e), journaled p lines).
Proof.
  intros Hc Ht Hr Htext. unfold Process.report, Process.and_next.
  rewrite (summary_in_process p conn t Hc Ht).
  pose proof (summary_of_a_text_does_not_format _ _ Hr Htext) as Hex.
  destruct (query_summary (rows t)) as [|x xs] eqn:Q; [inversion Hex|].
  change (Process.journal_line INFO Process.DatabaseSummary
            (journaled p []))
    with (Return tt, journaled (journaled p [])
                       [(INFO, Process.DatabaseSummary)]).
  cbv beta iota.
  destruct (report_rows_raises (x :: xs)
              (journaled (journaled p [])
                 [(INFO, Process.DatabaseSummary)]) Hex)
    as [e [lines Hrun]].
  exists e. eexists. rewrite Hrun, !journaled_twice. reflexivity.
Qed.

Lemma closed_down_journaled (p : Process.process) (c : Process.client)
    (a b : list (level * Process.line)) :
  closed_down (journaled p a) c b = closed_down p c (a ++ b).
Proof.
  unfold closed_down, journaled. simpl. rewrite <- app_assoc. reflexivity.
Qed.

Lemma serve_minute_on_text (events : list Process.event)
    (p : Process.process) (c : Process.client) (conn : connection)
    (t : table) (r : row) :
  Process.mqtt_client p = Some c ->
  Process.db_connection p = Some conn ->
  sensor_readings (Process.db_file p) = Some t ->
  In r (rows t) -> is_text (value r) = true ->
  exists e lines,
    Process.serve (Process.Minute :: events) p
    = (Return Process.Exited,
       closed_down p c
         (lines
          ++ (ERROR, Process.UnexpectedErrorInMainLoop (Exception e))
             :: shutdown_lines (Process.messages_received p))).
Proof.
  intros Hm Hc Ht Hr Htext.
  destruct (report_of_a_text_raises p conn t r Hc Ht Hr Htext)
    as [e [lines Hrun]].
  exists e, lines.
  rewrite (serve_after_error _ p (journaled p lines) e c conn).
  - rewrite closed_down_journaled. reflexivity.
  - cbn [Process.main_loop]. unfold Process.and_next. rewrite Hrun.
    reflexivity.
  - exact Hm.
  - exact Hc.
Qed.

(** X14.  A text among the stored values stops the program at the next
    round of the reporting loop: the format of the summary line raises,
    [main] logs the error, runs [cleanup] (the client is stopped and
    disconnected, the connection closed) and returns.  No later event is
    handled. *)
Theorem report_of_a_text_value_ends_main (events : list Process.event)
    (p : Process.process) (c : Process.client) (conn : connection)
    (t : table) (r : row) :
  Process.mqtt_client p = Some c ->
  Process.db_connection p = Some conn ->
  sensor_readings (Process.db_file p) = Some t ->
  In r (rows t) -> is_text (value r) = true ->
  exists e lines,
    Process.serve (Process.Minute :: events) p
    = (Return Process.Exited,
       closed_down p c
         (lines
          ++ (ERROR, Process.UnexpectedErrorInMainLoop (Exception e))
             :: shutdown_lines (Process.messages_received p))).
Proof. apply serve_minute_on_text. Qed.

(** A callback always comes back to the loop. *)
Lemma main_loop_callback (m : Process.P NoneType)
    (k : Process.P NoneType) (p : Process.process) :
  Process.and_next (Process.callback m) (fun _ => k) p
  = k (snd (Process.callback m p)).
Proof.
  unfold Process.and_next, Process.callback.
  destruct (Process.mqtt_client p) as [c|]; [|reflexivity].
  destruct (Process.loop_running c); [|reflexivity].
  destruct (m p) as [[a|e] p']; reflexivity.
Qed.

Lemma serve_callback (m : Process.P NoneType) (ev : Process.event)
    (events : list Process.event) (p : Process.process) :
  Process.main_loop (ev :: events) p
  = Process.and_next (Process.callback m)
      (fun _ => Process.main_loop events) p ->
  Process.serve (ev :: events) p
  = Process.serve events (snd (Process.callback m p)).
Proof.
  intros H. unfold Process.serve. rewrite H, main_loop_callback.
  reflexivity.
Qed.

(** What the handler does to the process when it is called. *)
Lemma handler_in_process (clk : clocks) (msg : Paho.MQTTMessage)
    (p : Process.process) :
  let r := Process.in_subscriber (Paho.on_message clk msg) p in
  Process.mqtt_client (snd r) = Process.mqtt_client p
  /\ Process.db_connection (snd r) = Process.db_connection p
  /\ Process.db_closed (snd r) = Process.db_closed p
  /\ Process.messages_received (snd r) = Process.messages_received p + 1
  /\ Process.db_file (snd r)
     = db_file (state_after (Paho.on_message clk msg) (Process.globals p))
  /\ (exists lines,
        Process.journal (snd r) = (Process.journal p ++ lines)%list)
  /\ (topic_decodes msg = true -> fst r = Return tt).
Proof.
  unfold Process.in_subscriber, state_after, topic_decodes.
  destruct (paho_on_message_cases clk msg (Process.globals p))
    as [[t [D H]]|[e [D H]]]; rewrite H, D.
  - destruct (on_message_effect clk (Paho.decoded t msg) (Process.globals p))
      as [s' [Hrun [Hm [Hc _]]]].
    rewrite Hrun. simpl. rewrite Hm, Hc. simpl.
    repeat split; eauto.
  - simpl. repeat split; eauto. discriminate.
Qed.

(** What a message does to the process: when the network thread runs the
    handler is called, and the thread goes on if the topic decodes. *)
Lemma message_in_process (clk : clocks) (msg : Paho.MQTTMessage)
    (p : Process.process) (c : Process.client) :
  Process.mqtt_client p = Some c ->
  Process.loop_running c = true ->
  let p1 := snd (Process.callback
                   (Process.in_subscriber (Paho.on_message clk msg)) p) in
  (if topic_decodes msg then Process.mqtt_client p1 = Some c
   else Process.mqtt_client p1
        = Some {| Process.connected := Process.connected c;
                  Process.loop_running := false;
                  Process.requests := Process.requests c |})
  /\ Process.db_connection p1 = Process.db_connection p
  /\ Process.db_closed p1 = Process.db_closed p
  /\ Process.messages_received p1 = Process.messages_received p + 1
  /\ Process.db_file p1
     = db_file (state_after (Paho.on_message clk msg) (Process.globals p))
  /\ exists lines, Process.journal p1 = (Process.journal p ++ lines)%list.
Proof.
  intros Hc Hl.
  destruct (handler_in_process clk msg p)
    as [Hm1 [Hc1 [Hd1 [Hn1 [Hf1 [[lines Hj1] Hret]]]]]].
  unfold Process.callback. rewrite Hc, Hl.
  destruct (Process.in_subscriber (Paho.on_message clk msg) p)
    as [[a|e] p'] eqn:R; simpl in *.
  - split; [|repeat split; eauto].
    destruct (topic_decodes msg) eqn:D; [congruence|].
    exfalso. unfold topic_decodes in D.
    destruct (paho_on_message_cases clk msg (Process.globals p))
      as [[t [D' _]]|[e [D' H]]]; [rewrite D' in D; discriminate|].
    unfold Process.in_subscriber in R. rewrite H in R. discriminate.
  - split; [|repeat split; eauto].
    destruct (topic_decodes msg); [specialize (Hret eq_refl); discriminate|].
    rewrite Hm1, Hc. reflexivity.
Qed.

(** X15.  One message is enough to stop the program: a [value] that is a
    string which the engine does not read as a number is stored as a text,
    and the next round of the reporting loop ends [main] with the client
    stopped and the connection closed. *)
Theorem text_value_ends_the_program
    (clk : clocks) (msg : Paho.MQTTMessage) (events : list Process.event)
    (p : Process.process) (c : Process.client) (conn : connection)
    (t : table) (tp a S K x : string) (items : list (string * pyval))
    (cu cts : cell) :
  Process.mqtt_client p = Some c ->
  Process.loop_running c = true ->
  Process.db_connection p = Some conn ->
  sensor_readings (Process.db_file p) = Some t ->
  next_rowid t <= int64_max ->
  bytes_decode (Paho._topic msg) = inr tp ->
  split "/" tp = [a; S; K] ->
  encodable S = true -> encodable K = true ->
  payload_items (Paho.decoded tp msg) = Some items ->
  lookup "value" items = Some (PyStr x) ->
  encodable x = true ->
  numeric_literal x = None ->
  bound_field "" (lookup "unit" items) = Some cu ->
  bound_field (now_isoformat clk) (lookup "timestamp" items) = Some cts ->
  exists p' r,
    Process.serve (Process.Message clk msg :: Process.Minute :: events) p
    = (Return Process.Exited, p')
    /\ Process.db_closed p' = true
    /\ Process.mqtt_client p' = Some (stopped c)
    /\ Process.messages_received p' = Process.messages_received p + 1
    /\ process_rows p' = (rows t ++ [r])%list
    /\ sensor_name r = S /\ sensor_type r = K /\ value r = CText x.
Proof.
  intros Hm Hl Hc Ht Hrowid D Hsplit ES EK Hitems Hvalue Ex Hlit Hu Hts.
  rewrite (serve_callback
             (Process.in_subscriber (Paho.on_message clk msg)))
    by reflexivity.
  destruct (message_in_process clk msg p c Hm Hl)
    as [Hm1 [Hc1 [_ [Hn1 [Hf1 _]]]]].
  set (p1 := snd (Process.callback _ p)) in *.
  unfold topic_decodes in Hm1. rewrite D in Hm1.
  unfold state_after in Hf1.
  rewrite (paho_message_stored clk msg (Process.globals p) tp a S K items
             (PyStr x) (CText x) cu cts conn t D Hsplit ES EK Hitems Hvalue
             ltac:(simpl; rewrite Ex; reflexivity) Hu Hts Hc Ht Hrowid)
    in Hf1.
  simpl in Hf1. rewrite Hlit in Hf1.
  set (r := new_row (next_rowid t) (current_timestamp clk)
              (S, K, CText x, text_affinity cu, numeric_affinity cts)) in *.
  assert (Ht1 : sensor_readings (Process.db_file p1)
                = Some {| rows := rows t ++ [r]; seq := id r |})
    by (rewrite Hf1; reflexivity).
  destruct (serve_minute_on_text events p1 c conn
              {| rows := rows t ++ [r]; seq := id r |} r)
    as [e [lines Hrun]]; try congruence.
  { simpl. apply in_or_app. right. left. reflexivity. }
  { reflexivity. }
  eexists _, r. split; [exact Hrun|]. unfold closed_down, process_rows,
    stored_rows. simpl. rewrite Ht1.
  repeat split; try reflexivity. exact Hn1.
Qed.

Lemma on_connect_step (results : string -> Z) (rc : Z)
    (p : Process.process) (c : Process.client) :
  Process.mqtt_client p = Some c ->
  exists p1 c1 lines,
    Process.on_connect results rc p = (Return tt, p1)
    /\ Process.mqtt_client p1 = Some c1
    /\ Process.loop_running c1 = Process.loop_running c
    /\ Process.db_connection p1 = Process.db_connection p
    /\ Process.db_closed p1 = Process.db_closed p
    /\ Process.messages_received p1 = Process.messages_received p
    /\ Process.db_file p1 = Process.db_file p
    /\ Process.journal p1 = (Process.journal p ++ lines)%list.
Proof.
  intros Hc. unfold Process.on_connect.
  destruct (rc =? 0).
  - unfold Process.and_next, Process.journal_line.
    erewrite subscribe_each_run by exact Hc. simpl.
    eexists _, _, _. split; [reflexivity|]. simpl.
    rewrite <- app_assoc. repeat split; reflexivity.
  - simpl. eexists _, c, _. split; [reflexivity|]. simpl.
    repeat split; auto.
Qed.

Lemma on_disconnect_step (rc : Z) (p : Process.process) :
  exists lines,
    Process.on_disconnect rc p = (Return tt, journaled p lines).
Proof.
  unfold Process.on_disconnect, journaled.
  destruct (negb (rc =? 0)); simpl.
  - eexists. reflexivity.
  - exists []. destruct p; simpl. rewrite app_nil_r. reflexivity.
Qed.

(** What one callback does to the process. *)
Lemma callback_in_process (ev : Process.event) (p : Process.process)
    (c : Process.client) :
  is_callback ev = true ->
  Process.mqtt_client p = Some c ->
  exists p1 c1 lines new k,
    (forall rest, Process.main_loop (ev :: rest) p = Process.main_loop rest p1)
    /\ Process.mqtt_client p1 = Some c1
    /\ Process.db_connection p1 = Process.db_connection p
    /\ Process.db_closed p1 = Process.db_closed p
    /\ Process.messages_received p1
       = Process.messages_received p + Z.of_nat k
    /\ (k <= count_messages [ev])%nat
    /\ Process.journal p1 = (Process.journal p ++ lines)%list
    /\ process_rows p1 = (process_rows p ++ new)%list
    /\ (length new <= k)%nat.
Proof.
  intros Hev Hc.
  assert (Hidle : Process.loop_running c = false ->
            forall m, snd (Process.callback m p) = p).
  { intros Hl m. unfold Process.callback. rewrite Hc, Hl. reflexivity. }
  assert (Hsame : exists lines new k,
            Process.messages_received p
            = Process.messages_received p + Z.of_nat k
            /\ (k <= count_messages [ev])%nat
            /\ Process.journal p = (Process.journal p ++ lines)%list
            /\ process_rows p = (process_rows p ++ new)%list
            /\ (length new <= k)%nat).
  { exists [], [], O. rewrite !app_nil_r, Z.add_0_r. simpl.
    repeat split; auto; lia. }
  destruct (Process.loop_running c) eqn:Hl.
  2:{ destruct Hsame as [lines [new [k H]]].
      exists p, c, lines, new, k. split; [|tauto].
      intros rest.
      destruct ev as [clk msg|rc results|rc| |]; try discriminate;
        cbn [Process.main_loop]; rewrite main_loop_callback, Hidle;
        reflexivity. }
  clear Hidle Hsame.
  destruct ev as [clk msg|rc results|rc| |]; try discriminate.
  - destruct (message_in_process clk msg p c Hc Hl)
      as [Hm1 [Hc1 [Hd1 [Hn1 [Hf1 [lines Hj1]]]]]].
    destruct (on_message_step clk msg (Process.globals p))
      as [_ [_ [[new [Hr Hn]] _]]].
    set (p1 := snd (Process.callback _ p)) in *.
    assert (Hcl : exists c1, Process.mqtt_client p1 = Some c1)
      by (destruct (topic_decodes msg); eauto).
    destruct Hcl as [c1 Hcl].
    exists p1, c1, lines, new, 1%nat.
    split; [intros rest; cbn [Process.main_loop];
            rewrite main_loop_callback; reflexivity|].
    repeat split; auto.
    unfold process_rows at 1. unfold stored_rows at 1.
    cbn [db_file Process.globals]. rewrite Hf1. exact Hr.
  - destruct (on_connect_step results rc p c Hc)
      as [p1 [c1 [lines [Hrun [Hm1 [_ [Hc1 [Hd1 [Hn1 [Hf1 Hj1]]]]]]]]]].
    exists p1, c1, lines, [], O.
    split.
    { intros rest. cbn [Process.main_loop]. rewrite main_loop_callback.
      unfold Process.callback. rewrite Hc, Hl, Hrun. reflexivity. }
    rewrite Z.add_0_r, app_nil_r. simpl. repeat split; auto.
    unfold process_rows, stored_rows. simpl. rewrite Hf1. reflexivity.
  - destruct (on_disconnect_step rc p) as [lines Hrun].
    exists (journaled p lines), c, lines, [], O.
    split.
    { intros rest. cbn [Process.main_loop]. rewrite main_loop_callback.
      unfold Process.callback. rewrite Hc, Hl, Hrun. reflexivity. }
    rewrite Z.add_0_r, app_nil_r. simpl. repeat split; auto.
Qed.

(** What the callbacks do to the process, one event after the other. *)
Lemma callbacks_in_process (callbacks : list Process.event) :
  forall (rest : list Process.event) (p : Process.process)
         (c : Process.client),
    Forall (fun e => is_callback e = true) callbacks ->
    Process.mqtt_client p = Some c ->
    exists p1 c1 lines new k,
      Process.main_loop (callbacks ++ rest) p = Process.main_loop rest p1
      /\ Process.mqtt_client p1 = Some c1
      /\ Process.db_connection p1 = Process.db_connection p
      /\ Process.db_closed p1 = Process.db_closed p
      /\ Process.messages_received p1
         = Process.messages_received p + Z.of_nat k
      /\ (k <= count_messages callbacks)%nat
      /\ Process.journal p1 = (Process.journal p ++ lines)%list
      /\ process_rows p1 = (process_rows p ++ new)%list
      /\ (length new <= k)%nat.
Proof.
  induction callbacks as [|ev evs IH]; intros rest p c Hall Hc.
  - exists p, c, [], [], O. simpl. rewrite !app_nil_r, Z.add_0_r.
    repeat split; auto.
  - inversion Hall as [|? ? Hev Hevs]; subst.
    destruct (callback_in_process ev p c Hev Hc)
      as [p1 [c1 [l1 [n1 [k1 [Hrun1 [Hm1 [Hc1 [Hd1 [Hn1 [Hk1 [Hj1 [Hr1 Hl1]]]]]]]]]]]]].
    destruct (IH rest p1 c1 Hevs Hm1)
      as [p2 [c2 [l2 [n2 [k2 [Hrun2 [Hm2 [Hc2 [Hd2 [Hn2 [Hk2 [Hj2 [Hr2 Hl2]]]]]]]]]]]]].
    exists p2, c2, (l1 ++ l2)%list, (n1 ++ n2)%list, (k1 + k2)%nat.
    split; [cbn [app]; rewrite Hrun1; exact Hrun2|].
    split; [exact Hm2|]. split; [congruence|]. split; [congruence|].
    split; [rewrite Hn2, Hn1; lia|].
    split.
    { change (ev :: evs) with ([ev] ++ evs)%list.
      assert (Hcount : forall xs ys,
                count_messages (xs ++ ys)
                = (count_messages xs + count_messages ys)%nat).
      { induction xs as [|y xs IHx]; intros ys; [reflexivity|].
        destruct y; simpl; rewrite IHx; reflexivity. }
      rewrite Hcount. lia. }
    split; [rewrite Hj2, Hj1, <- app_assoc; reflexivity|].
    split; [rewrite Hr2, Hr1, <- app_assoc; reflexivity|].
    rewrite length_app. lia.
Qed.

(** X16.  An interrupt ends [main] in order: after any callbacks, the
    interrupt is logged and [cleanup] runs, which stops the client and
    closes the connection.  The total it logs as the messages stored is the
    number of messages received, of which at most that many, and possibly
    fewer, left a row in the table. *)
Theorem interrupt_shuts_down_and_reports_the_received
    (callbacks events : list Process.event) (p : Process.process)
    (c : Process.client) (conn : connection) :
  Forall (fun e => is_callback e = true) callbacks ->
  Process.mqtt_client p = Some c ->
  Process.db_connection p = Some conn ->
  exists p' c' lines new k,
    Process.serve (callbacks ++ Process.CtrlC :: events) p
    = (Return Process.Exited, p')
    /\ Process.mqtt_client p' = Some (stopped c')
    /\ Process.db_closed p' = true
    /\ Process.messages_received p'
       = Process.messages_received p + Z.of_nat k
    /\ (k <= count_messages callbacks)%nat
    /\ Process.journal p'
       = (Process.journal p ++ lines
          ++ (INFO, Process.ShutdownRequested)
             :: shutdown_lines (Process.messages_received p + Z.of_nat k))%list
    /\ process_rows p' = (process_rows p ++ new)%list
    /\ (length new <= k)%nat.
Proof.
  intros Hall Hm Hc.
  destruct (callbacks_in_process callbacks (Process.CtrlC :: events) p c
              Hall Hm)
    as [p1 [c1 [lines [new [k [Hrun [Hm1 [Hc1 [Hd1 [Hn1 [Hk1 [Hj1 [Hr1 Hl1]]]]]]]]]]]]].
  rewrite Hc in Hc1.
  exists (closed_down p1 c1
            ((INFO, Process.ShutdownRequested)
             :: shutdown_lines (Process.messages_received p1))),
    c1, lines, new, k.
  split.
  { apply serve_after_interrupt with conn; [|exact Hm1|exact Hc1].
    rewrite Hrun. reflexivity. }
  unfold closed_down. simpl. rewrite Hj1, Hn1, <- app_assoc.
  repeat split; auto.
Qed.

(** Without the network thread no callback is called. *)
Lemma callbacks_without_thread (callbacks : list Process.event) :
  forall (rest : list Process.event) (p : Process.process)
         (c : Process.client),
    Forall (fun e => is_callback e = true) callbacks ->
    Process.mqtt_client p = Some c ->
    Process.loop_running c = false ->
    Process.main_loop (callbacks ++ rest) p = Process.main_loop rest p.
Proof.
  induction callbacks as [|ev evs IH]; intros rest p c Hall Hc Hl;
    [reflexivity|].
  inversion Hall as [|? ? Hev Hevs]; subst.
  assert (Hidle : forall m, snd (Process.callback m p) = p).
  { intros m. unfold Process.callback. rewrite Hc, Hl. reflexivity. }
  destruct ev as [clk msg|rc results|rc| |]; try discriminate;
    cbn [app Process.main_loop]; rewrite main_loop_callback, Hidle;
    apply (IH rest p c Hevs Hc Hl).
Qed.

(** X17.  One message whose topic bytes do not decode silences the
    subscriber: the exception that leaves [on_message] ends the network
    thread, so that no later message, however well formed, is counted,
    logged or stored, while the main thread goes on with its loop as if
    nothing had happened. *)
Theorem undecodable_topic_silences_the_subscriber
    (clk : clocks) (msg : Paho.MQTTMessage)
    (callbacks rest : list Process.event)
    (p : Process.process) (c : Process.client) :
  Process.mqtt_client p = Some c ->
  Process.loop_running c = true ->
  topic_decodes msg = false ->
  Forall (fun e => is_callback e = true) callbacks ->
  Process.main_loop (Process.Message clk msg :: callbacks ++ rest) p
  = Process.main_loop rest (Process.thread_ended (received p)).
Proof.
  intros Hc Hl D Hall. cbn [Process.main_loop].
  rewrite main_loop_callback.
  assert (H1 : snd (Process.callback
                      (Process.in_subscriber (Paho.on_message clk msg)) p)
               = Process.thread_ended (received p)).
  { unfold Process.callback, Process.in_subscriber. rewrite Hc, Hl.
    unfold topic_decodes in D.
    destruct (paho_on_message_cases clk msg (Process.globals p))
      as [[t [D' _]]|[e [D' H]]]; [rewrite D' in D; discriminate|].
    rewrite H. simpl. unfold Process.thread_ended, received. simpl.
    rewrite app_nil_r, ?Hc. reflexivity. }
  rewrite H1.
  apply (callbacks_without_thread callbacks rest _
           {| Process.connected := Process.connected c;
              Process.loop_running := false;
              Process.requests := Process.requests c |} Hall).
  - unfold Process.thread_ended, received. simpl. rewrite Hc. reflexivity.
  - reflexivity.
Qed.

Lemma banner_run (p : Process.process) :
  Process.banner p = (Return tt, journaled p banner_lines).
Proof.
  destruct p as [mc dc mr df cl jl].
  unfold Process.banner, Process.and_next, Process.journal_line, journaled,
    banner_lines.
  simpl. rewrite <- !app_assoc. reflexivity.
Qed.

(** [init_database] goes through on every file: the storage medium does
    not fail. *)
Lemma init_database_run (s : state) :
  init_database s
  = (Return true,
     {| db_connection := Some Connection;
        messages_received := messages_received s;
        db_file := db_file (state_after init_database s);
        log := (log s ++ [(INFO, DatabaseInitialized)])%list |}).
Proof.
  destruct s as [c n [tb i1 i2] l].
  unfold state_after, init_database, commit, try_except, bind, execute,
    read_state, call, set_db_connection, set_db_file, logger, ret, raise,
    create_table_if_not_exists, create_idx_timestamp, create_idx_sensor_name.
  destruct tb as [tb|], i1, i2; reflexivity.
Qed.

Lemma init_database_in_process (p : Process.process) :
  Process.in_subscriber init_database p
  = (Return true, opened p (db_file (state_after init_database
                                       (Process.globals p)))).
Proof.
  unfold Process.in_subscriber. rewrite init_database_run. reflexivity.
Qed.

(** [init_mqtt] when the client cannot be made, and when it cannot
    connect. *)
Lemma init_mqtt_without_client (net : Process.paho) (p : Process.process)
    (e : exception) :
  Process.new_client net = inl e ->
  Process.init_mqtt net p
  = (Return false,
     journaled p [(ERROR, Process.FailedToInitializeMQTT (Exception e));
                  (ERROR, Process.MakeSureBrokerIsRunning)]).
Proof.
  intros N. destruct p as [mc dc mr df cl jl].
  unfold Process.init_mqtt, Process.try_catch, Process.and_next,
    Process.library_call, Process.pure, Process.throw,
    Process.set_mqtt_client, Process.journal_line, journaled.
  rewrite N. simpl. rewrite <- app_assoc. reflexivity.
Qed.

Lemma init_mqtt_without_connection (net : Process.paho)
    (p : Process.process) (e : exception) :
  Process.new_client net = inr tt ->
  Process.connect net = inl e ->
  Process.init_mqtt net p
  = (Return false,
     journaled (with_client p new_client)
       [(ERROR, Process.FailedToInitializeMQTT (Exception e));
        (ERROR, Process.MakeSureBrokerIsRunning)]).
Proof.
  intros N C. destruct p as [mc dc mr df cl jl].
  unfold Process.init_mqtt, Process.try_catch, Process.and_next,
    Process.library_call, Process.pure, Process.throw,
    Process.set_mqtt_client, Process.journal_line, journaled, with_client.
  rewrite N, C. simpl. rewrite <- app_assoc. reflexivity.
Qed.

Lemma init_mqtt_connects (net : Process.paho) (p : Process.process) :
  Process.new_client net = inr tt ->
  Process.connect net = inr tt ->
  Process.init_mqtt net p = (Return true, with_client p looping_client).
Proof.
  intros N C. destruct p as [mc dc mr df cl jl].
  unfold Process.init_mqtt, Process.try_catch, Process.and_next,
    Process.library_call, Process.pure, Process.throw,
    Process.set_mqtt_client, Process.journal_line, with_client.
  rewrite N, C. reflexivity.
Qed.

(** [main] up to [init_mqtt]. *)
Lemma main_to_init_mqtt (net : Process.paho) (events : list Process.event)
    (file : database) :
  Process.main net events (Process.boot file)
  = (let p0 := opened (journaled (Process.boot file) banner_lines)
                 (db_file (state_after init_database (initial_state file))) in
     match Process.init_mqtt net p0 with
     | (Return true, p1) =>
         Process.serve events
           (journaled p1 [(INFO, Process.AllSystemsInitialized);
                          (INFO, Process.PressCtrlCToExit)])
     | (Return false, p1) =>
         (Return Process.Exited,
          journaled p1 [(ERROR, Process.CannotContinueWithoutMQTT)])
     | (Raise e, p1) => (Raise e, p1)
     end).
Proof.
  unfold Process.main. unfold Process.and_next at 1. rewrite banner_run.
  unfold Process.and_next at 1. rewrite init_database_in_process.
  cbv beta iota. cbn [negb].
  change (Process.globals (journaled (Process.boot file) banner_lines))
    with (initial_state file).
  cbv zeta. unfold Process.and_next at 1.
  destruct (Process.init_mqtt net _) as [[[|]|e] p1]; cbn [negb];
    try reflexivity.
  unfold Process.and_next, Process.journal_line, journaled. simpl.
  rewrite <- app_assoc. reflexivity.
Qed.

(** X18.  Without the broker [main] gives up early: when the client cannot
    be made or cannot connect, [main] logs that it cannot continue and
    returns before its loop.  No event is handled and [cleanup] is not
    called: the database stays open, with the table created, and the
    network thread was never started. *)
Theorem main_without_broker (net : Process.paho)
    (events : list Process.event) (file : database) :
  (exists e, Process.new_client net = inl e)
  \/ (exists e, Process.connect net = inl e) ->
  exists p' lines,
    Process.main net events (Process.boot file) = (Return Process.Exited, p')
    /\ Process.journal p'
       = (lines ++ [(ERROR, Process.CannotContinueWithoutMQTT)])%list
    /\ Process.db_closed p' = false
    /\ Process.db_connection p' = Some Connection
    /\ Process.messages_received p' = 0
    /\ Process.db_file p'
       = db_file (state_after init_database (initial_state file))
    /\ match Process.mqtt_client p' with
       | Some c' => Process.loop_running c' = false
       | None => True
       end.
Proof.
  intros H. rewrite main_to_init_mqtt. cbv zeta.
  destruct (Process.new_client net) as [e1|[]] eqn:N.
  - rewrite (init_mqtt_without_client net _ e1 N).
    eexists _, (banner_lines
                ++ [(INFO, Process.Handler DatabaseInitialized);
                    (ERROR, Process.FailedToInitializeMQTT (Exception e1));
                    (ERROR, Process.MakeSureBrokerIsRunning)])%list.
    split; [reflexivity|]. simpl. repeat split; auto.
  - destruct H as [[e He]|[e He]]; [discriminate|].
    rewrite (init_mqtt_without_connection net _ e N He).
    eexists _, (banner_lines
                ++ [(INFO, Process.Handler DatabaseInitialized);
                    (ERROR, Process.FailedToInitializeMQTT (Exception e));
                    (ERROR, Process.MakeSureBrokerIsRunning)])%list.
    split; [reflexivity|]. simpl. repeat split; auto.
Qed.

End Program.

Lemma on_connect_requests_every_topic_witness :
  Process.on_connect every_request_granted 0 serving
  = (Return tt,
     {| Process.mqtt_client :=
          Some {| Process.connected := true;
                  Process.loop_running := true;
                  Process.requests := Process.TOPICS |};
        Process.db_connection := Process.db_connection serving;
        Process.messages_received := Process.messages_received serving;
        Process.db_file := Process.db_file serving;
        Process.db_closed := Process.db_closed serving;
        Process.journal :=
          Process.journal serving
          ++ [(INFO, Process.ConnectedToBroker);
              (INFO, Process.SubscribedTo "sensors/+/temperature");
              (INFO, Process.SubscribedTo "sensors/+/humidity")] |}).
Proof.
  apply (on_connect_requests_every_topic every_request_granted 0 serving
           looping_client).
  reflexivity.
Defined.

Lemma report_logs_one_line_per_pair_witness :
  exists lines,
    @Process.report example_engine after_two_readings
    = (Return tt, journaled after_two_readings lines)
    /\ (process_rows after_two_readings = [] -> lines = [])
    /\ (process_rows after_two_readings <> [] ->
        exists body,
          lines = (INFO, Process.DatabaseSummary) :: body
          /\ Forall2 (fun x l => fst l = INFO
                                 /\ Process.format_summary_line x
                                    = inr (snd l))
                     (@query_summary example_engine
                        (process_rows after_two_readings)) body).
Proof.
  apply (@report_logs_one_line_per_pair example_engine after_two_readings
           Connection
           {| rows := process_rows after_two_readings; seq := 2 |}).
  - reflexivity.
  - reflexivity.
  - vm_compute. repeat constructor.
Defined.

(** The round of the scenario: 21.5 and 23.0 for deskA. *)
Example report_of_two_readings :
  @Process.report example_engine after_two_readings
  = (Return tt,
     journaled after_two_readings
       [(INFO, Process.DatabaseSummary);
        (INFO, Process.SummaryLine "deskA" "temperature" 2
                 (CReal (Finite (43 # 2))) (CReal (Finite (23 # 1)))
                 (CReal (Finite (89 # 4))))]).
Proof. vm_compute. reflexivity. Qed.

Lemma report_of_a_text_value_ends_main_witness :
  exists e lines,
    @Process.serve example_engine further_library [Process.Minute]
      after_a_text_value
    = (Return Process.Exited,
       closed_down after_a_text_value looping_client
         (lines
          ++ (ERROR, Process.UnexpectedErrorInMainLoop (Exception e))
             :: shutdown_lines
                  (Process.messages_received after_a_text_value))).
Proof.
  apply (@report_of_a_text_value_ends_main example_engine further_library []
           after_a_text_value looping_client Connection
           {| rows := process_rows after_a_text_value; seq := 1 |}
           {| id := 1; sensor_name := "deskA"; sensor_type := "temperature";
              value := CText "abc"; unit := "";
              timestamp := CText "2024-01-01T00:10:00.000000";
              received_at := Some (CText "2024-01-01 00:10:00") |}).
  - reflexivity.
  - reflexivity.
  - reflexivity.
  - vm_compute. left. reflexivity.
  - reflexivity.
Defined.

Lemma text_value_ends_the_program_witness :
  exists p' r,
    @Process.serve example_engine further_library
      [Process.Message example_clocks text_message; Process.Minute] serving
    = (Return Process.Exited, p')
    /\ Process.db_closed p' = true
    /\ Process.mqtt_client p' = Some (stopped looping_client)
    /\ Process.messages_received p' = Process.messages_received serving + 1
    /\ process_rows p' = ([] ++ [r])%list
    /\ sensor_name r = "deskA" /\ sensor_type r = "temperature"
    /\ value r = CText "abc".
Proof.
  apply (@text_value_ends_the_program example_engine further_library
           example_clocks text_message [] serving looping_client Connection
           {| rows := []; seq := 0 |}
           "sensors/deskA/temperature" "sensors" "deskA" "temperature" "abc"
           [("value", PyStr "abc")] (CText "")
           (CText "2024-01-01T00:10:00.000000"));
    try reflexivity.
  vm_compute. discriminate.
Defined.

Lemma interrupt_shuts_down_and_reports_the_received_witness :
  exists p' c' lines new k,
    @Process.serve example_engine further_library
      (three_callbacks ++ [Process.CtrlC]) serving
    = (Return Process.Exited, p')
    /\ Process.mqtt_client p' = Some (stopped c')
    /\ Process.db_closed p' = true
    /\ Process.messages_received p'
       = Process.messages_received serving + Z.of_nat k
    /\ (k <= count_messages three_callbacks)%nat
    /\ Process.journal p'
       = (Process.journal serving ++ lines
          ++ (INFO, Process.ShutdownRequested)
             :: shutdown_lines
                  (Process.messages_received serving + Z.of_nat k))%list
    /\ process_rows p' = (process_rows serving ++ new)%list
    /\ (length new <= k)%nat.
Proof.
  apply (@interrupt_shuts_down_and_reports_the_received example_engine
           further_library three_callbacks [] serving looping_client
           Connection).
  - repeat constructor.
  - reflexivity.
  - reflexivity.
Defined.

(** The run of the example: two messages are received, one of them on
    [bad/topic], and the shutdown reports two messages stored with one row
    in the table. *)
Example interrupt_after_three_callbacks :
  let p' := snd (@Process.serve example_engine further_library
                   (three_callbacks ++ [Process.CtrlC]) serving) in
  length (process_rows p') = 1%nat
  /\ skipn 17 (Process.journal p')
     = (INFO, Process.ShutdownRequested) :: shutdown_lines 2.
Proof. vm_compute. split; reflexivity. Qed.

Lemma undecodable_topic_silences_the_subscriber_witness :
  @Process.main_loop example_engine further_library
    (Process.Message example_clocks hostile_message
     :: [message "sensors/deskA/temperature" payload_full]
        ++ [Process.Minute]) serving
  = @Process.main_loop example_engine further_library [Process.Minute]
      (Process.thread_ended (received serving)).
Proof.
  apply (@undecodable_topic_silences_the_subscriber example_engine
           further_library example_clocks hostile_message
           [message "sensors/deskA/temperature" payload_full]
           [Process.Minute] serving looping_client).
  - reflexivity.
  - reflexivity.
  - reflexivity.
  - repeat constructor.
Defined.

Lemma main_without_broker_witness :
  exists p' lines,
    @Process.main example_engine further_library network_down
      [message "sensors/deskA/temperature" payload_full]
      (Process.boot empty_database)
    = (Return Process.Exited, p')
    /\ Process.journal p'
       = (lines ++ [(ERROR, Process.CannotContinueWithoutMQTT)])%list
    /\ Process.db_closed p' = false
    /\ Process.db_connection p' = Some Connection
    /\ Process.messages_received p' = 0
    /\ Process.db_file p'
       = db_file (state_after init_database (initial_state empty_database))
    /\ match Process.mqtt_client p' with
       | Some c' => Process.loop_running c' = false
       | None => True
       end.
Proof.
  apply (@main_without_broker example_engine further_library network_down
           [message "sensors/deskA/temperature" payload_full]
           empty_database).
  right. exists OSError. reflexivity.
Defined.

End Program.
